(** * Fitness-studio REST API (index.js): request handlers over a document store

    The server registers one Express handler per (verb, path).  Each handler
    reads the parsed JSON body, the query string and the path parameters,
    performs a few MongoDB operations on one of eight collections and answers
    with a status code and a JSON body.

    The embedding follows the code:
    - JSON / BSON data is the inductive type [value]; a JavaScript object is
      an association list in key order; a property read gives [option value]
      where [None] is JavaScript's [undefined];
    - the database is a record of collections, each a list of documents in
      insertion (natural) order, together with the state of the driver's
      ObjectId generator;
    - a handler body is written in a small state-and-exception monad; the
      surrounding [try { ... } catch] is [try_catch];
    - the services the handlers call but the repository does not define
      ([new ObjectId], [Number], [parseInt], the regular-expression engine,
      the BSON sort order, what the store makes of an operator document in
      a filter or under [$push], and its arithmetic beyond the safe
      integers) are the fields of the class [Platform]. *)

From Stdlib Require Import ZArith NArith List String Ascii Bool Lia Permutation.
Import ListNotations.
Local Open Scope string_scope.
Local Open Scope list_scope.
Local Open Scope Z_scope.

(** ** Values *)

(** A JavaScript number as far as the handlers use it: an integer or NaN.
    Fractions are outside the model.  Integers are exact as long as they are
    safe ([safe_integer], below 2^53 in absolute value); what the store's
    [$inc] makes of larger ones is left to the [Platform]. *)
Inductive number : Type :=
| NaN
| Fin (z : Z).

(** JSON values extended with the two BSON types the server stores:
    dates ([new Date()], milliseconds) and ObjectIds. *)
#[local] Unset Elimination Schemes.
Inductive value : Type :=
| VNull
| VBool (b : bool)
| VNum (n : number)
| VStr (s : string)
| VArr (l : list value)
| VObj (o : list (string * value))
| VDate (t : Z)
| VId (o : N).
#[local] Set Elimination Schemes.

(** A document (and any JavaScript object): fields in order. *)
Definition doc : Type := list (string * value).

(** The result of reading a property: [None] is [undefined]. *)
Definition jsval : Type := option value.

Section value_induction.
Variable P : value -> Prop.
Hypothesis HNull : P VNull.
Hypothesis HBool : forall b, P (VBool b).
Hypothesis HNum : forall n, P (VNum n).
Hypothesis HStr : forall s, P (VStr s).
Hypothesis HArr : forall l, Forall P l -> P (VArr l).
Hypothesis HObj : forall o, Forall (fun kv => P (snd kv)) o -> P (VObj o).
Hypothesis HDate : forall t, P (VDate t).
Hypothesis HId : forall o, P (VId o).

Fixpoint value_nested_ind (v : value) : P v :=
  match v with
  | VNull => HNull
  | VBool b => HBool b
  | VNum n => HNum n
  | VStr s => HStr s
  | VArr l =>
      HArr l ((fix elems (l : list value) : Forall P l :=
                 match l with
                 | [] => Forall_nil _
                 | x :: l' => Forall_cons x (value_nested_ind x) (elems l')
                 end) l)
  | VObj o =>
      HObj o ((fix fields (o : list (string * value))
                : Forall (fun kv => P (snd kv)) o :=
                 match o with
                 | [] => Forall_nil _
                 | kv :: o' =>
                     Forall_cons kv
                       (match kv as p return P (snd p) with
                        | (_, x) => value_nested_ind x
                        end)
                       (fields o')
                 end) o)
  | VDate t => HDate t
  | VId o => HId o
  end.
End value_induction.

Definition number_eqb (a b : number) : bool :=
  match a, b with
  | NaN, NaN => true
  | Fin x, Fin y => Z.eqb x y
  | _, _ => false
  end.

(** Equality of stored values, as the store's equality match and its
    unique-key check use it. *)
Fixpoint value_eqb (a b : value) : bool :=
  match a, b with
  | VNull, VNull => true
  | VBool x, VBool y => Bool.eqb x y
  | VNum x, VNum y => number_eqb x y
  | VStr x, VStr y => String.eqb x y
  | VArr x, VArr y =>
      (fix elems (x y : list value) : bool :=
         match x, y with
         | [], [] => true
         | a :: x', b :: y' => value_eqb a b && elems x' y'
         | _, _ => false
         end) x y
  | VObj x, VObj y =>
      (fix fields (x y : list (string * value)) : bool :=
         match x, y with
         | [], [] => true
         | (k, a) :: x', (k', b) :: y' =>
             String.eqb k k' && value_eqb a b && fields x' y'
         | _, _ => false
         end) x y
  | VDate x, VDate y => Z.eqb x y
  | VId x, VId y => N.eqb x y
  | _, _ => false
  end.

Definition doc_eqb (a b : doc) : bool := value_eqb (VObj a) (VObj b).

(** JavaScript truthiness, as [!x], [x || y] and [if (x)] test it. *)
Definition truthy (x : jsval) : bool :=
  match x with
  | None => false
  | Some VNull => false
  | Some (VBool b) => b
  | Some (VNum NaN) => false
  | Some (VNum (Fin z)) => negb (Z.eqb z 0)
  | Some (VStr s) => negb (String.eqb s "")
  | Some _ => true
  end.

(** [x || d] where [d] is a literal. *)
Definition or_else (x : jsval) (d : value) : value :=
  match x with
  | Some v => if truthy x then v else d
  | None => d
  end.

(** [Array.isArray(x) ? x : []]. *)
Definition array_or_empty (x : jsval) : value :=
  match x with
  | Some (VArr l) => VArr l
  | _ => VArr []
  end.

(** [o.k]. *)
Fixpoint lookup (k : string) (o : doc) : jsval :=
  match o with
  | [] => None
  | (k', v) :: o' => if String.eqb k k' then Some v else lookup k o'
  end.

(** [o.k = v]: an existing property keeps its place, a new one goes last.
    The store's [$set] orders fields the same way. *)
Fixpoint set (k : string) (v : value) (o : doc) : doc :=
  match o with
  | [] => [(k, v)]
  | (k', v') :: o' =>
      if String.eqb k k' then (k, v) :: o' else (k', v') :: set k v o'
  end.

(** Serialisation of an object literal whose fields were read from another
    object: the driver writes an [undefined] field as null. *)
Definition to_bson (x : jsval) : value :=
  match x with
  | Some v => v
  | None => VNull
  end.

Definition literal (fields : list (string * jsval)) : doc :=
  map (fun kv => (fst kv, to_bson (snd kv))) fields.

(** ** Runtime services

    What the handlers call and the repository does not define. *)
Class Platform : Type := {
  (** [new ObjectId(x)] for an argument that is neither null, undefined, a
      number nor an ObjectId; [None] when the constructor throws. *)
  ObjectId_from : value -> option N;
  (** [id.toString()]. *)
  ObjectId_toString : N -> string;
  (** [Number(x)]. *)
  js_Number : jsval -> number;
  (** [parseInt(x)] on a string. *)
  js_parseInt : string -> number;
  (** A [$regex] pattern with [$options: "i"]; [None] when the store rejects
      the pattern. *)
  regex_compile_i : string -> option (string -> bool);
  (** The store's sort order on field values: [bson_leb a b] when [a] sorts
      no later than [b] ascending. *)
  bson_leb : value -> value -> bool;
  (** A filter value that is an operator document ([{ $ne: x }],
      [{ $gt: x }], ...): what it asks of a field; [None] when the store
      rejects it. *)
  query_operator : value -> option (jsval -> bool);
  (** [$push] with a modifier document ([{ $each: [...] }], ...): the new
      value of the field, from the one it has; [None] when the store
      rejects the update. *)
  push_modifier : value -> jsval -> option value;
  (** The sum [$inc] stores when the counter or the sum is no safe integer
      (the store adds 64-bit integers or doubles, by the type it holds). *)
  store_add : Z -> Z -> Z
}.

(** [Number.isSafeInteger]: doubles and the store's integers agree with the
    integers on these. *)
Definition safe_integer (z : Z) : bool :=
  Z.ltb (- 2 ^ 53) z && Z.ltb z (2 ^ 53).

(** A document the store reads as operators, not as a value: one of its keys
    starts with [$]. *)
Definition operator_document (v : value) : bool :=
  match v with
  | VObj o => existsb (fun kv => String.prefix "$" (fst kv)) o
  | _ => false
  end.

(** [n || d] on numbers. *)
Definition or_num (n : number) (d : Z) : Z :=
  match n with
  | NaN => d
  | Fin z => if Z.eqb z 0 then d else z
  end.

(** [Math.ceil(a / b)] for integers [a] and [b], [b] not zero. *)
Definition ceil_div (a b : Z) : Z := - ((- a) / b).

(** ** The document store *)

Inductive collection : Type :=
| Users | Testimonials | Classes | Trainers | Forum | Subscriber | Bookings
| Reviews.

Record db : Type := mkDb {
  users : list doc;
  testimonials : list doc;
  classes : list doc;
  trainers : list doc;
  forum : list doc;
  subscriber : list doc;
  bookings : list doc;
  reviews : list doc;
  (** state of the driver's ObjectId generator *)
  next_oid : N
}.

Definition coll (c : collection) (s : db) : list doc :=
  match c with
  | Users => users s
  | Testimonials => testimonials s
  | Classes => classes s
  | Trainers => trainers s
  | Forum => forum s
  | Subscriber => subscriber s
  | Bookings => bookings s
  | Reviews => reviews s
  end.

Definition put (c : collection) (l : list doc) (s : db) : db :=
  match c with
  | Users =>
      mkDb l (testimonials s) (classes s) (trainers s) (forum s)
        (subscriber s) (bookings s) (reviews s) (next_oid s)
  | Testimonials =>
      mkDb (users s) l (classes s) (trainers s) (forum s)
        (subscriber s) (bookings s) (reviews s) (next_oid s)
  | Classes =>
      mkDb (users s) (testimonials s) l (trainers s) (forum s)
        (subscriber s) (bookings s) (reviews s) (next_oid s)
  | Trainers =>
      mkDb (users s) (testimonials s) (classes s) l (forum s)
        (subscriber s) (bookings s) (reviews s) (next_oid s)
  | Forum =>
      mkDb (users s) (testimonials s) (classes s) (trainers s) l
        (subscriber s) (bookings s) (reviews s) (next_oid s)
  | Subscriber =>
      mkDb (users s) (testimonials s) (classes s) (trainers s) (forum s)
        l (bookings s) (reviews s) (next_oid s)
  | Bookings =>
      mkDb (users s) (testimonials s) (classes s) (trainers s) (forum s)
        (subscriber s) l (reviews s) (next_oid s)
  | Reviews =>
      mkDb (users s) (testimonials s) (classes s) (trainers s) (forum s)
        (subscriber s) (bookings s) l (next_oid s)
  end.

Arguments put : simpl never.

Definition bump_oid (s : db) : db :=
  mkDb (users s) (testimonials s) (classes s) (trainers s) (forum s)
    (subscriber s) (bookings s) (reviews s) (N.succ (next_oid s)).

(** *** Handler monad: store state and exceptions

    A thrown exception keeps the store as it was when it was thrown: the
    handlers never roll back. *)
Inductive outcome (A : Type) : Type :=
| Ok (a : A)
| Throw.
Arguments Ok {A} a.
Arguments Throw {A}.

Definition M (A : Type) : Type := db -> outcome A * db.

Definition ret {A} (a : A) : M A := fun s => (Ok a, s).
Definition throw {A} : M A := fun s => (Throw, s).
Definition bind {A B} (m : M A) (k : A -> M B) : M B :=
  fun s =>
    match m s with
    | (Ok a, s') => k a s'
    | (Throw, s') => (Throw, s')
    end.

Notation "x <- m ;; k" := (bind m (fun x => k))
  (at level 61, m at next level, right associativity).

Fixpoint mapM {A B} (f : A -> M B) (l : list A) : M (list B) :=
  match l with
  | [] => ret []
  | x :: l' => y <- f x ;; ys <- mapM f l' ;; ret (y :: ys)
  end.

(** *** Query filters and update operators *)

Inductive cond : Type :=
| CEq (v : value)              (* { k: v }, v a value *)
| COp (o : value)              (* { k: o }, o an operator document *)
| CIn (vs : list value)        (* { k: { $in: vs } } *)
| CRegexI (pattern : string).  (* { k: { $regex: pattern, $options: "i" } } *)

Definition filter : Type := list (string * cond).

Inductive update : Type :=
| USet (fields : list (string * value))   (* { $set: fields } *)
| UInc (k : string) (by_ : Z)             (* { $inc: { k: by } } *)
| UPush (k : string) (v : value)          (* { $push: { k: v } }, v a value *)
| UPushOp (k : string) (o : value).       (* { $push: { k: o } }, o a modifier *)

(** [{ k: v }] in a filter, for a value [v] that comes from the request:
    the store takes an operator document as a query, anything else as the
    value to match. *)
Definition as_cond (v : value) : cond :=
  if operator_document v then COp v else CEq v.

(** [{ $push: { k: v } }] for a value [v] that comes from the request: the
    store takes a document with [$] keys as modifiers, anything else as the
    element to append. *)
Definition as_push (k : string) (v : value) : update :=
  if operator_document v then UPushOp k v else UPush k v.

(** The store's equality match on a field: the field equals the operand, or
    the field is an array with an element equal to it; a null operand also
    matches a missing field.  The operand is a value, never an operator
    document (see [as_cond]). *)
Definition field_eq (f : jsval) (v : value) : bool :=
  match f with
  | None => value_eqb v VNull
  | Some x =>
      value_eqb x v
      || match x with
         | VArr l => existsb (fun e => value_eqb e v) l
         | _ => false
         end
  end.

Section store.
Context {platform : Platform}.

(** [parseInt(req.query.x)]: a parameter that is not given is [undefined],
    which has no digits. *)
Definition parseInt (x : option string) : number :=
  match x with
  | Some str => js_parseInt str
  | None => NaN
  end.

Definition field_regex (f : jsval) (m : string -> bool) : bool :=
  match f with
  | Some (VStr s) => m s
  | Some (VArr l) =>
      existsb (fun e => match e with VStr s => m s | _ => false end) l
  | _ => false
  end.

Definition cond_ok (c : cond) : bool :=
  match c with
  | CRegexI p => match regex_compile_i p with Some _ => true | None => false end
  | COp o => match query_operator o with Some _ => true | None => false end
  | _ => true
  end.

Definition cond_matches (c : cond) (f : jsval) : bool :=
  match c with
  | CEq v => field_eq f v
  | COp o =>
      match query_operator o with
      | Some m => m f
      | None => false
      end
  | CIn vs => existsb (field_eq f) vs
  | CRegexI p =>
      match regex_compile_i p with
      | Some m => field_regex f m
      | None => false
      end
  end.

(** The store rejects a query with a pattern it cannot compile. *)
Definition filter_ok (q : filter) : bool :=
  forallb (fun kc => cond_ok (snd kc)) q.

Definition matches (q : filter) (d : doc) : bool :=
  forallb (fun kc => cond_matches (snd kc) (lookup (fst kc) d)) q.

Definition apply_update (u : update) (d : doc) : option doc :=
  match u with
  | USet fields => Some (fold_left (fun d kv => set (fst kv) (snd kv) d) fields d)
  | UInc k z =>
      match lookup k d with
      | None => Some (set k (VNum (Fin z)) d)
      | Some (VNum (Fin n)) =>
          let sum :=
            if safe_integer n && safe_integer (n + z) then n + z
            else store_add n z in
          Some (set k (VNum (Fin sum)) d)
      | Some (VNum NaN) => Some d
      | Some _ => None
      end
  | UPush k v =>
      match lookup k d with
      | None => Some (set k (VArr [v]) d)
      | Some (VArr l) => Some (set k (VArr (l ++ [v])) d)
      | Some _ => None
      end
  | UPushOp k o =>
      match push_modifier o (lookup k d) with
      | Some v => Some (set k v d)
      | None => None
      end
  end.

(** *** Sorting, skipping, limiting *)

Definition sort_key (k : string) (d : doc) : value := to_bson (lookup k d).

(** [.sort({ k: -1 })]: insertion sort, larger keys first. *)
Fixpoint insert_desc (k : string) (x : doc) (l : list doc) : list doc :=
  match l with
  | [] => [x]
  | y :: l' =>
      if bson_leb (sort_key k y) (sort_key k x)
      then x :: y :: l'
      else y :: insert_desc k x l'
  end.

Fixpoint sort_desc (k : string) (l : list doc) : list doc :=
  match l with
  | [] => []
  | x :: l' => insert_desc k x (sort_desc k l')
  end.

(** [.limit(n)]: zero is no limit; the driver sends a negative limit as
    its absolute value. *)
Definition take_limit (n : Z) (l : list doc) : list doc :=
  if Z.eqb n 0 then l else firstn (Z.to_nat (Z.abs n)) l.

(** *** Collection operations *)

(** [new ObjectId(x)]: without an argument (or with null or a number) the
    driver generates a fresh identifier; an ObjectId is copied; anything
    else is parsed and may throw. *)
Definition new_ObjectId (x : jsval) : M N :=
  match x with
  | None | Some VNull | Some (VNum _) =>
      fun s => (Ok (next_oid s), bump_oid s)
  | Some (VId o) => ret o
  | Some v =>
      match ObjectId_from v with
      | Some o => ret o
      | None => throw
      end
  end.

Definition has_id (id : value) (d : doc) : bool :=
  match lookup "_id" d with
  | Some v => value_eqb v id
  | None => false
  end.

(** [insertOne]: a document without [_id] (or with a null one) gets a
    generated ObjectId; a document that brings its own [_id] is refused
    when that key is taken (or is an array).  Returns [insertedId]. *)
Definition insertOne (c : collection) (d : doc) : M value :=
  fun s =>
    match lookup "_id" d with
    | None =>
        let id := VId (next_oid s) in
        (Ok id, put c (coll c s ++ [("_id", id) :: d]) (bump_oid s))
    | Some VNull =>
        let id := VId (next_oid s) in
        (Ok id, put c (coll c s ++ [set "_id" id d]) (bump_oid s))
    | Some (VArr _) => (Throw, s)
    | Some id =>
        if existsb (has_id id) (coll c s) then (Throw, s)
        else (Ok id, put c (coll c s ++ [d]) s)
    end.

Definition findOne (c : collection) (q : filter) : M (option doc) :=
  fun s =>
    if filter_ok q then (Ok (find (matches q) (coll c s)), s)
    else (Throw, s).

Definition countDocuments (c : collection) (q : filter) : M Z :=
  fun s =>
    if filter_ok q
    then (Ok (Z.of_nat (List.length (List.filter (matches q) (coll c s)))), s)
    else (Throw, s).

Record cursor : Type := mkCursor {
  cur_coll : collection;
  cur_filter : filter;
  cur_sort : option string;
  cur_skip : Z;
  cur_limit : Z
}.

Definition cfind (c : collection) (q : filter) : cursor :=
  mkCursor c q None 0 0.
Definition csort (k : string) (cur : cursor) : cursor :=
  mkCursor (cur_coll cur) (cur_filter cur) (Some k) (cur_skip cur)
    (cur_limit cur).
Definition cskip (n : Z) (cur : cursor) : cursor :=
  mkCursor (cur_coll cur) (cur_filter cur) (cur_sort cur) n (cur_limit cur).
Definition climit (n : Z) (cur : cursor) : cursor :=
  mkCursor (cur_coll cur) (cur_filter cur) (cur_sort cur) (cur_skip cur) n.

Definition run_cursor (cur : cursor) (l : list doc) : list doc :=
  let matched := List.filter (matches (cur_filter cur)) l in
  let sorted :=
    match cur_sort cur with
    | Some k => sort_desc k matched
    | None => matched
    end in
  take_limit (cur_limit cur) (skipn (Z.to_nat (cur_skip cur)) sorted).

(** [.toArray()]: the store refuses a negative skip. *)
Definition toArray (cur : cursor) : M (list doc) :=
  fun s =>
    if negb (filter_ok (cur_filter cur)) then (Throw, s)
    else if Z.ltb (cur_skip cur) 0 then (Throw, s)
    else (Ok (run_cursor cur (coll (cur_coll cur) s)), s).

Record update_result : Type := mkUpdateResult {
  matchedCount : Z;
  modifiedCount : Z
}.

(** The first matching document is updated; [None] when the operator does
    not apply to it (the store reports an error and changes nothing). *)
Fixpoint update_first (q : filter) (u : update) (l : list doc)
  : option (list doc * update_result) :=
  match l with
  | [] => Some ([], mkUpdateResult 0 0)
  | d :: l' =>
      if matches q d then
        match apply_update u d with
        | Some d' =>
            Some (d' :: l', mkUpdateResult 1 (if doc_eqb d d' then 0 else 1))
        | None => None
        end
      else
        match update_first q u l' with
        | Some (l'', r) => Some (d :: l'', r)
        | None => None
        end
  end.

Definition updateOne (c : collection) (q : filter) (u : update)
  : M update_result :=
  fun s =>
    if filter_ok q then
      match update_first q u (coll c s) with
      | Some (l, r) => (Ok r, put c l s)
      | None => (Throw, s)
      end
    else (Throw, s).

Fixpoint delete_first (q : filter) (l : list doc) : list doc :=
  match l with
  | [] => []
  | d :: l' => if matches q d then l' else d :: delete_first q l'
  end.

Definition deleteOne (c : collection) (q : filter) : M unit :=
  fun s =>
    if filter_ok q then (Ok tt, put c (delete_first q (coll c s)) s)
    else (Throw, s).

(** ** Responses *)

Record response : Type := mkResponse {
  status : Z;
  body : value
}.

(** [res.json(b)] and [res.status(c).json(b)]. *)
Definition json (b : value) : response := mkResponse 200 b.
Definition status_json (c : Z) (b : value) : response := mkResponse c b.

(** [{ error: msg }]; where the source adds [details: err], the echo of
    the exception is left out. *)
Definition error_body (msg : string) : value := VObj [("error", VStr msg)].

Definition docs (l : list doc) : value := VArr (map VObj l).

(** [try { body } catch (err) { res.status(500).json(...) }]. *)
Definition try_catch (m : M response) (on_error : response)
  : db -> response * db :=
  fun s =>
    match m s with
    | (Ok r, s') => (r, s')
    | (Throw, s') => (on_error, s')
    end.

(** A handler without [try]: an exception leaves the request unanswered. *)
Definition uncaught (m : M response) : db -> option response * db :=
  fun s =>
    match m s with
    | (Ok r, s') => (Some r, s')
    | (Throw, s') => (None, s')
    end.

(** ** Request handlers

    One definition per route of index.js, named after verb and path.
    [body] is the parsed JSON body, [now] the value of [new Date()]. *)

Definition message (m : string) : string * value := ("message", VStr m).
Definition success : string * value := ("success", VBool true).

(** [x === "s"]. *)
Definition is_string (x : jsval) (s : string) : bool :=
  match x with
  | Some (VStr s') => String.eqb s' s
  | _ => false
  end.

(** [{ _id: new ObjectId(id) }]. *)
Definition by_id (o : N) : filter := [("_id", CEq (VId o))].

(** GET /users *)
Definition get_users : db -> response * db :=
  try_catch
    (users <- toArray (cfind Users []) ;;
     ret (json (docs users)))
    (status_json 500 (error_body "Failed to get users")).

(** POST /users *)
Definition post_users (body : doc) : db -> response * db :=
  try_catch
    (let user := body in
     if negb (truthy (lookup "email" user)) then
       ret (status_json 400 (error_body "Email is required"))
     else
       let email := to_bson (lookup "email" user) in
       existingUser <- findOne Users [("email", as_cond email)] ;;
       match existingUser with
       | Some existingUser =>
           if negb (truthy (lookup "role" existingUser)) then
             _ <- updateOne Users [("email", as_cond email)]
                    (USet [("role", VStr "member")]) ;;
             let existingUser := set "role" (VStr "member") existingUser in
             ret (status_json 200
                    (VObj [message "User already exists";
                           ("user", VObj existingUser)]))
           else
             ret (status_json 200
                    (VObj [message "User already exists";
                           ("user", VObj existingUser)]))
       | None =>
           let user := set "role" (VStr "member") user in
           result <- insertOne Users user ;;
           ret (status_json 201
                  (VObj [message "User registered successfully";
                         ("insertedId", result)]))
       end)
    (status_json 500 (error_body "Failed to save user")).

(** POST /testimonials *)
Definition post_testimonials (now : Z) (body : doc) : db -> response * db :=
  try_catch
    (let testimonial := body in
     if negb (truthy (lookup "name" testimonial))
        || negb (truthy (lookup "review" testimonial)) then
       ret (status_json 400 (error_body "Name and review are required"))
     else
       let testimonial := set "createdAt" (VDate now) testimonial in
       result <- insertOne Testimonials testimonial ;;
       ret (status_json 201
              (VObj [message "Testimonial added successfully";
                     ("id", result)])))
    (status_json 500 (error_body "Failed to add testimonial")).

(** GET /testimonials *)
Definition get_testimonials : db -> response * db :=
  try_catch
    (testimonials <- toArray (csort "createdAt" (cfind Testimonials [])) ;;
     ret (json (docs testimonials)))
    (status_json 500 (error_body "Failed to fetch testimonials")).

(** POST /classes *)
Definition post_classes (now : Z) (body : doc) : db -> response * db :=
  try_catch
    (let newClass := body in
     if negb (truthy (lookup "name" newClass))
        || negb (truthy (lookup "image" newClass))
        || negb (truthy (lookup "details" newClass)) then
       ret (status_json 400
              (error_body "Class name, image, and details are required"))
     else
       let newClass := set "createdAt" (VDate now) newClass in
       let newClass := set "totalBookings" (VNum (Fin 0)) newClass in
       result <- insertOne Classes newClass ;;
       ret (status_json 201
              (VObj [message "Class added successfully";
                     ("insertedId", result)])))
    (status_json 500 (error_body "Failed to add class")).

(** GET /classes?page=&limit=&search= *)
Definition get_classes (page limit search : option string)
  : db -> response * db :=
  try_catch
    (let page := or_num (parseInt page) 1 in
     let limit := or_num (parseInt limit) 6 in
     let skip := (page - 1) * limit in
     let search := match search with Some x => x | None => "" end in
     let query : filter :=
       if String.eqb search "" then [] else [("name", CRegexI search)] in
     totalClasses <- countDocuments Classes query ;;
     classes <- toArray
                  (climit limit
                     (cskip skip (csort "createdAt" (cfind Classes query)))) ;;
     ret (json
            (VObj [("data", docs classes);
                   ("currentPage", VNum (Fin page));
                   ("totalPages", VNum (Fin (ceil_div totalClasses limit)));
                   ("totalClasses", VNum (Fin totalClasses))])))
    (status_json 500 (error_body "Failed to fetch classes")).

(** POST /trainers *)
Definition post_trainers (now : Z) (body : doc) : db -> response * db :=
  try_catch
    (let trainer := body in
     if negb (truthy (lookup "name" trainer))
        || negb (truthy (lookup "image" trainer))
        || negb (truthy (lookup "experience" trainer)) then
       ret (status_json 400
              (error_body "Name, image, and experience are required"))
     else
       let trainer := set "createdAt" (VDate now) trainer in
       result <- insertOne Trainers trainer ;;
       ret (status_json 201
              (VObj [message "Trainer added successfully";
                     ("insertedId", result)])))
    (status_json 500 (error_body "Failed to add trainer")).

(** GET /trainers *)
Definition get_trainers : db -> response * db :=
  try_catch
    (trainers <- toArray (csort "createdAt" (cfind Trainers [])) ;;
     ret (json (docs trainers)))
    (status_json 500 (error_body "Failed to fetch trainers")).

(** GET /forum?page= *)
Definition get_forum (page : option string) : db -> response * db :=
  try_catch
    (let page := or_num (parseInt page) 1 in
     let limit := 6 in
     let skip := (page - 1) * limit in
     totalPosts <- countDocuments Forum [] ;;
     posts <- toArray
                (climit limit
                   (cskip skip (csort "createdAt" (cfind Forum [])))) ;;
     ret (json
            (VObj [("posts", docs posts);
                   ("totalPages", VNum (Fin (ceil_div totalPosts limit)));
                   ("currentPage", VNum (Fin page))])))
    (status_json 500 (error_body "Failed to fetch forum posts")).

(** PATCH /forum/:id/vote *)
Definition patch_forum_vote (id : string) (body : doc)
  : db -> response * db :=
  try_catch
    (let voteType := lookup "voteType" body in
     let postId := id in
     let updateField :=
       if is_string voteType "up" then UInc "upvotes" 1
       else UInc "downvotes" 1 in
     oid <- new_ObjectId (Some (VStr postId)) ;;
     _ <- updateOne Forum (by_id oid) updateField ;;
     ret (json (VObj [success])))
    (status_json 500 (error_body "Failed to update vote")).

Definition default_socials : value :=
  VObj [("facebook", VStr ""); ("instagram", VStr ""); ("linkedin", VStr "")].

(** The [newTrainer] object of POST /trainers/apply. *)
Definition newTrainer (now : Z) (trainer : doc) : doc :=
  literal
    [("name", lookup "name" trainer);
     ("email", lookup "email" trainer);
     ("age", Some (VNum (js_Number (lookup "age" trainer))));
     ("image", lookup "image" trainer);
     ("experience", Some (VNum (js_Number (lookup "experience" trainer))));
     ("details", Some (or_else (lookup "details" trainer) (VStr "")));
     ("expertise", Some (array_or_empty (lookup "expertise" trainer)));
     ("availableDays", Some (array_or_empty (lookup "availableDays" trainer)));
     ("availableSlots",
       Some (array_or_empty (lookup "availableSlots" trainer)));
     ("socials", Some (or_else (lookup "socials" trainer) default_socials));
     ("status", Some (or_else (lookup "status" trainer) (VStr "pending")));
     ("createdAt", Some (VDate now))].

(** POST /trainers/apply *)
Definition post_trainers_apply (now : Z) (body : doc) : db -> response * db :=
  try_catch
    (let trainer := body in
     result <- insertOne Trainers (newTrainer now trainer) ;;
     ret (json (VObj [success; ("insertedId", result)])))
    (status_json 500 (error_body "Failed to submit application")).

(** GET /trainers/applications?email= *)
Definition get_trainers_applications (email : option string)
  : db -> response * db :=
  try_catch
    (match email with
     | None => ret (status_json 400 (error_body "Email is required"))
     | Some e =>
         if String.eqb e "" then
           ret (status_json 400 (error_body "Email is required"))
         else
           applications <-
             toArray (csort "createdAt" (cfind Trainers [("email", CEq (VStr e))])) ;;
           ret (json (docs applications))
     end)
    (status_json 500 (error_body "Failed to fetch applications")).

Definition pending : filter := [("status", CEq (VStr "pending"))].

(** GET /trainers/applications/pending *)
Definition get_trainers_applications_pending : db -> response * db :=
  try_catch
    (pendingApps <- toArray (cfind Trainers pending) ;;
     ret (json (docs pendingApps)))
    (status_json 500
       (error_body "Failed to fetch pending trainer applications")).

(** The document PATCH /trainers/applications/:id/confirm inserts. *)
Definition approved (now : Z) (applicant : doc) : doc :=
  literal
    [("name", lookup "name" applicant);
     ("email", lookup "email" applicant);
     ("age", lookup "age" applicant);
     ("image", lookup "image" applicant);
     ("experience", lookup "experience" applicant);
     ("details", lookup "details" applicant);
     ("expertise", Some (or_else (lookup "expertise" applicant) (VArr [])));
     ("availableDays",
       Some (or_else (lookup "availableDays" applicant) (VArr [])));
     ("availableSlots",
       Some (or_else (lookup "availableSlots" applicant) (VArr [])));
     ("socials", Some (or_else (lookup "socials" applicant) (VObj [])));
     ("status", Some (VStr "approved"));
     ("createdAt", Some (VDate now))].

(** PATCH /trainers/applications/:id/confirm *)
Definition patch_applications_confirm (now : Z) (id : string)
  : db -> response * db :=
  try_catch
    (oid <- new_ObjectId (Some (VStr id)) ;;
     applicant <- findOne Trainers (by_id oid) ;;
     match applicant with
     | None => ret (status_json 404 (error_body "Applicant not found"))
     | Some applicant =>
         _ <- insertOne Trainers (approved now applicant) ;;
         oid' <- new_ObjectId (Some (VStr id)) ;;
         _ <- deleteOne Trainers (by_id oid') ;;
         ret (json (VObj [success; message "Trainer approved and added"]))
     end)
    (status_json 500 (error_body "Failed to confirm trainer")).

(** PATCH /trainers/applications/:id/reject *)
Definition patch_applications_reject (id : string) (body : doc)
  : db -> response * db :=
  try_catch
    (let feedback := lookup "feedback" body in
     oid <- new_ObjectId (Some (VStr id)) ;;
     result <- updateOne Trainers (by_id oid)
                 (USet [("status", VStr "rejected");
                        ("feedback",
                          or_else feedback (VStr "No feedback provided"))]) ;;
     if Z.eqb (modifiedCount result) 0 then
       ret (status_json 404
              (error_body "Applicant not found or already rejected"))
     else
       ret (json (VObj [success;
                        message "Application rejected with feedback"])))
    (status_json 500 (error_body "Failed to reject trainer")).

(** POST /newsletter/subscribe *)
Definition post_newsletter_subscribe (now : Z) (body : doc)
  : db -> response * db :=
  try_catch
    (let name := lookup "name" body in
     let email := lookup "email" body in
     if negb (truthy name) || negb (truthy email) then
       ret (status_json 400 (error_body "Name and email are required"))
     else
       existing <- findOne Subscriber [("email", as_cond (to_bson email))] ;;
       match existing with
       | Some _ =>
           ret (status_json 409 (error_body "You are already subscribed"))
       | None =>
           let subscriber :=
             literal [("name", name); ("email", email);
                      ("createdAt", Some (VDate now))] in
           _ <- insertOne Subscriber subscriber ;;
           ret (json (VObj [success; message "Subscription successful"]))
       end)
    (status_json 500 (error_body "Failed to subscribe")).

(** GET /newsletter/subscribers *)
Definition get_newsletter_subscribers : db -> response * db :=
  try_catch
    (subscribers <- toArray (csort "createdAt" (cfind Subscriber [])) ;;
     ret (json (docs subscribers)))
    (status_json 500 (error_body "Failed to fetch subscribers")).

(** POST /payments *)
Definition post_payments (now : Z) (body : doc) : db -> response * db :=
  try_catch
    (let payment := body in
     if negb (truthy (lookup "userEmail" payment))
        || negb (truthy (lookup "trainerId" payment)) then
       ret (status_json 400 (error_body "Invalid booking data"))
     else
       result <- insertOne Bookings
                   (set "createdAt" (VDate now)
                      (set "status" (VStr "success") payment)) ;;
       ret (status_json 201
              (VObj [message "Payment & booking saved successfully";
                     ("id", result)])))
    (status_json 500 (error_body "Failed to save booking/payment")).

(** [res.json(x)] for the result of [findOne]. *)
Definition json_doc (d : option doc) : response :=
  match d with
  | Some d => json (VObj d)
  | None => json VNull
  end.

(** GET /trainers/by-email/:email *)
Definition get_trainers_by_email (email : string)
  : db -> option response * db :=
  uncaught
    (trainer <- findOne Trainers [("email", CEq (VStr email))] ;;
     ret (json_doc trainer)).

(** GET /bookings/trainer/:trainerId *)
Definition get_bookings_trainer (trainerId : string)
  : db -> option response * db :=
  uncaught
    (bookings <- toArray (cfind Bookings [("trainerId", CEq (VStr trainerId))]) ;;
     ret (json (docs bookings))).

(** GET /trainers/email/:email *)
Definition get_trainers_email (email : string) : db -> response * db :=
  try_catch
    (trainer <- findOne Trainers [("email", CEq (VStr email))] ;;
     match trainer with
     | None => ret (status_json 404 (error_body "Trainer not found"))
     | Some trainer => ret (json (VObj trainer))
     end)
    (status_json 500 (error_body "Failed to fetch trainer")).

(** PATCH /trainers/:id/add-slot *)
Definition patch_trainers_add_slot (id : string) (body : doc)
  : db -> response * db :=
  try_catch
    (let newSlot := VObj body in
     oid <- new_ObjectId (Some (VStr id)) ;;
     result <- updateOne Trainers (by_id oid)
                 (as_push "availableSlots" newSlot) ;;
     if Z.eqb (modifiedCount result) 0 then
       ret (status_json 404 (error_body "Trainer not found"))
     else
       ret (json (VObj [success; message "Slot added successfully"])))
    (status_json 500 (error_body "Failed to add slot")).

(** POST /trainers/:id/slots *)
Definition post_trainers_slots (id : string) (body : doc)
  : db -> response * db :=
  try_catch
    (let newSlot := VObj body in
     oid <- new_ObjectId (Some (VStr id)) ;;
     _ <- updateOne Trainers (by_id oid) (as_push "availableSlots" newSlot) ;;
     ret (json (VObj [success; message "New slot added successfully"])))
    (status_json 500 (error_body "Failed to add slot")).

(** POST /forum *)
Definition post_forum (body : doc) : db -> response * db :=
  try_catch
    (let post := body in
     _ <- insertOne Forum post ;;
     ret (json (VObj [success; message "Forum post added!"])))
    (status_json 500 (error_body "Failed to add forum post")).

(** POST /reviews *)
Definition post_reviews (now : Z) (body : doc) : db -> response * db :=
  try_catch
    (let review := set "createdAt" (VDate now) body in
     _ <- insertOne Reviews review ;;
     ret (json (VObj [success; message "Review submitted successfully"])))
    (status_json 500 (error_body "Failed to submit review")).

(** GET /reviews *)
Definition get_reviews : db -> response * db :=
  try_catch
    (reviews <- toArray (csort "createdAt" (cfind Reviews [])) ;;
     ret (json (docs reviews)))
    (status_json 500 (error_body "Failed to fetch reviews")).

(** [t._id.toString() === x] for a fetched trainer [t] (its [_id] is an
    ObjectId, or a string naming itself). *)
Definition id_string_is (t : doc) (x : jsval) : bool :=
  match lookup "_id" t with
  | Some (VId o) => is_string x (ObjectId_toString o)
  | Some (VStr s) => is_string x s
  | _ => false
  end.

Definition successful_bookings (email : string) : filter :=
  [("userEmail", CEq (VStr email)); ("status", CEq (VStr "success"))].

(** The [mergedData] of GET /bookings/user/:email: [trainerInfo || null]
    under the key [trainerDetails]. *)
Definition merge (trainers : list doc) (booking : doc) : doc :=
  let trainerInfo :=
    find (fun t => id_string_is t (lookup "trainerId" booking)) trainers in
  set "trainerDetails"
    (match trainerInfo with Some t => VObj t | None => VNull end)
    booking.

(** GET /bookings/user/:email *)
Definition get_bookings_user (email : string) : db -> response * db :=
  try_catch
    (bookings <- toArray
                   (csort "createdAt"
                      (cfind Bookings (successful_bookings email))) ;;
     match bookings with
     | [] => ret (json (VArr []))
     | _ =>
         trainerIds <-
           mapM (fun b => new_ObjectId (lookup "trainerId" b)) bookings ;;
         trainers <-
           toArray (cfind Trainers [("_id", CIn (map VId trainerIds))]) ;;
         let mergedData := map (merge trainers) bookings in
         ret (json (docs mergedData))
     end)
    (status_json 500 (error_body "Failed to fetch booked trainers")).

(** *** The earlier copy of the server

    The repository keeps an earlier copy of the same server.  Its handlers
    are those above, without the slot, review and booking routes and the
    class search, and with these two differences in the application
    workflow. *)

(** POST /trainers/apply, earlier copy: the body is stored as it came, with
    [status] overwritten. *)
Definition post_trainers_apply_earlier (body : doc) : db -> response * db :=
  try_catch
    (let trainerApplication := set "status" (VStr "pending") body in
     _ <- insertOne Trainers trainerApplication ;;
     ret (json (VObj [success; message "Trainer application submitted!"])))
    (status_json 500 (error_body "Failed to submit application")).

(** The document PATCH /trainers/applications/:id/confirm inserts, earlier
    copy. *)
Definition approved_earlier (now : Z) (applicant : doc) : doc :=
  literal
    [("name", lookup "name" applicant);
     ("email", lookup "email" applicant);
     ("image", lookup "image" applicant);
     ("experience", lookup "experience" applicant);
     ("details", lookup "details" applicant);
     ("status", Some (VStr "approved"));
     ("createdAt", Some (VDate now))].

(** PATCH /trainers/applications/:id/confirm, earlier copy. *)
Definition patch_applications_confirm_earlier (now : Z) (id : string)
  : db -> response * db :=
  try_catch
    (oid <- new_ObjectId (Some (VStr id)) ;;
     applicant <- findOne Trainers (by_id oid) ;;
     match applicant with
     | None => ret (status_json 404 (error_body "Applicant not found"))
     | Some applicant =>
         _ <- insertOne Trainers (approved_earlier now applicant) ;;
         oid' <- new_ObjectId (Some (VStr id)) ;;
         _ <- deleteOne Trainers (by_id oid') ;;
         ret (json (VObj [success; message "Trainer approved and added"]))
     end)
    (status_json 500 (error_body "Failed to confirm trainer")).

End store.

(** ** A reference platform

    An instance of [Platform] to evaluate the handlers on concrete requests.
    It implements each service on the inputs the examples below use:
    ObjectIds written as 24 hexadecimal digits ([new ObjectId] of any other
    string throws; drivers before BSON 5 also take strings of 12 bytes),
    [parseInt] and [Number] on strings of decimal digits with an optional
    minus sign (no blanks, fractions, exponents or hexadecimal), search
    patterns without metacharacters, and an order by type, then by value
    (arrays and objects are not ordered among themselves).  The theorems
    hold for every [Platform]. *)

Definition hex_digit (c : ascii) : option N :=
  let n := N_of_ascii c in
  if (N.leb 48 n && N.leb n 57)%bool then Some (n - 48)%N
  else if (N.leb 97 n && N.leb n 102)%bool then Some (n - 87)%N
  else if (N.leb 65 n && N.leb n 70)%bool then Some (n - 55)%N
  else None.

Fixpoint hex_value (s : string) (acc : N) : option N :=
  match s with
  | EmptyString => Some acc
  | String c s' =>
      match hex_digit c with
      | Some d => hex_value s' (16 * acc + d)%N
      | None => None
      end
  end.

Definition oid_of_hex (s : string) : option N :=
  if Nat.eqb (String.length s) 24 then hex_value s 0%N else None.

Definition hex_char (d : N) : ascii :=
  ascii_of_N (if N.ltb d 10 then 48 + d else 87 + d)%N.

Fixpoint hex_digits (n : nat) (x : N) (acc : string) : string :=
  match n with
  | O => acc
  | S n' => hex_digits n' (x / 16)%N (String (hex_char (x mod 16)%N) acc)
  end.

Definition oid_to_hex (o : N) : string := hex_digits 24 o "".

Definition dec_digit (c : ascii) : option Z :=
  let n := N_of_ascii c in
  if (N.leb 48 n && N.leb n 57)%bool then Some (Z.of_N (n - 48)) else None.

(** The value of the longest prefix of decimal digits; [None] without one. *)
Fixpoint dec_prefix (s : string) (acc : option Z) : option Z :=
  match s with
  | EmptyString => acc
  | String c s' =>
      match dec_digit c with
      | Some d =>
          dec_prefix s' (Some (10 * match acc with Some a => a | None => 0 end + d))
      | None => acc
      end
  end.

Definition parse_int (x : string) : number :=
  match x with
  | String "-"%char s =>
      match dec_prefix s None with Some z => Fin (- z) | None => NaN end
  | s =>
      match dec_prefix s None with Some z => Fin z | None => NaN end
  end.

Fixpoint all_digits (s : string) : bool :=
  match s with
  | EmptyString => true
  | String c s' =>
      match dec_digit c with Some _ => all_digits s' | None => false end
  end.

(** Decimal digits, at least one, after an optional minus sign. *)
Definition is_integer (s : string) : bool :=
  match s with
  | EmptyString => false
  | String "-"%char EmptyString => false
  | String "-"%char s' => all_digits s'
  | _ => all_digits s
  end.

Definition to_number (x : jsval) : number :=
  match x with
  | None => NaN
  | Some VNull => Fin 0
  | Some (VBool b) => Fin (if b then 1 else 0)
  | Some (VNum n) => n
  | Some (VStr "") => Fin 0
  | Some (VStr s) => if is_integer s then parse_int s else NaN
  | Some (VDate t) => Fin t
  | Some _ => NaN
  end.

Definition lower (c : ascii) : ascii :=
  let n := N_of_ascii c in
  if (N.leb 65 n && N.leb n 90)%bool then ascii_of_N (n + 32) else c.

Fixpoint lower_string (s : string) : string :=
  match s with
  | EmptyString => EmptyString
  | String c s' => String (lower c) (lower_string s')
  end.

Fixpoint contains (needle hay : string) : bool :=
  String.prefix needle hay
  || match hay with
     | EmptyString => false
     | String _ hay' => contains needle hay'
     end.

Definition is_meta (c : ascii) : bool :=
  existsb (Ascii.eqb c)
    (list_ascii_of_string "\^$.|?*+()[]{}").

(** Only patterns without metacharacters are accepted here. *)
Definition literal_pattern (p : string) : option (string -> bool) :=
  if existsb is_meta (list_ascii_of_string p) then None
  else Some (fun s => contains (lower_string p) (lower_string s)).

Definition type_rank (v : value) : Z :=
  match v with
  | VNull => 1
  | VNum _ => 2
  | VStr _ => 3
  | VObj _ => 4
  | VArr _ => 5
  | VId _ => 7
  | VBool _ => 8
  | VDate _ => 9
  end.

Definition value_leb (a b : value) : bool :=
  match a, b with
  | VNum NaN, VNum _ => true
  | VNum (Fin _), VNum NaN => false
  | VNum (Fin x), VNum (Fin y) => Z.leb x y
  | VStr x, VStr y => String.leb x y
  | VBool x, VBool y => implb x y
  | VDate x, VDate y => Z.leb x y
  | VId x, VId y => N.leb x y
  | _, _ => Z.leb (type_rank a) (type_rank b)
  end.

(** The comparison operators of a filter, each on its own: a field passes
    when it, or one of its elements when it is an array, stands in the
    relation to the operand; [$gt] and the like compare values of one type
    only. *)
Definition passes (test : value -> bool) (f : jsval) : bool :=
  match f with
  | None => false
  | Some x =>
      test x
      || match x with
         | VArr l => existsb test l
         | _ => false
         end
  end.

Definition ordered (strict : bool) (a b : value) : bool :=
  Z.eqb (type_rank a) (type_rank b)
  && (if strict then negb (value_leb b a) else value_leb a b).

Definition operator (k : string) (x : value) : option (jsval -> bool) :=
  if String.eqb k "$eq" then Some (fun f => field_eq f x)
  else if String.eqb k "$ne" then Some (fun f => negb (field_eq f x))
  else if String.eqb k "$gt" then Some (passes (fun y => ordered true x y))
  else if String.eqb k "$gte" then Some (passes (fun y => ordered false x y))
  else if String.eqb k "$lt" then Some (passes (fun y => ordered true y x))
  else if String.eqb k "$lte" then Some (passes (fun y => ordered false y x))
  else None.

(** Only documents of these six operators are accepted here; a field has to
    pass each of them. *)
Fixpoint operators (o : doc) : option (jsval -> bool) :=
  match o with
  | [] => Some (fun _ => true)
  | (k, x) :: o' =>
      match operator k x, operators o' with
      | Some m, Some m' => Some (fun f => m f && m' f)
      | _, _ => None
      end
  end.

Definition operator_query (o : value) : option (jsval -> bool) :=
  match o with
  | VObj fields => operators fields
  | _ => None
  end.

(** [{ $each: l }] appends the elements of [l]; the other modifiers are
    not accepted here. *)
Definition each_modifier (o : value) (f : jsval) : option value :=
  match o with
  | VObj [(k, VArr l)] =>
      if String.eqb k "$each" then
        match f with
        | None => Some (VArr l)
        | Some (VArr old) => Some (VArr (old ++ l))
        | Some _ => None
        end
      else None
  | _ => None
  end.

(** The integer a double holds for an integer [z]: [z] itself up to 53
    bits, and beyond that the nearest multiple of the last bit's weight,
    ties to the even one. *)
Definition round_double (z : Z) : Z :=
  let a := Z.abs z in
  let bits := Z.log2 a + 1 in
  if Z.leb bits 53 then z
  else
    let shift := bits - 53 in
    let q := Z.shiftr a shift in
    let r := a - Z.shiftl q shift in
    let half := Z.shiftl 1 (shift - 1) in
    let q' := if Z.ltb half r || (Z.eqb r half && Z.odd q) then q + 1 else q in
    Z.sgn z * Z.shiftl q' shift.

(** A number beyond the safe integers is stored as a double. *)
Definition double_add (n z : Z) : Z := round_double (round_double n + z).

Definition node : Platform := {|
  ObjectId_from := fun v => match v with VStr s => oid_of_hex s | _ => None end;
  ObjectId_toString := oid_to_hex;
  js_Number := to_number;
  js_parseInt := parse_int;
  regex_compile_i := literal_pattern;
  bson_leb := value_leb;
  query_operator := operator_query;
  push_modifier := each_modifier;
  store_add := double_add
|}.

Definition empty_db : db := mkDb [] [] [] [] [] [] [] [] 0.

(** ** Basic facts *)

Lemma number_eqb_eq (a b : number) : number_eqb a b = true <-> a = b.
Proof.
  destruct a, b; simpl; split; intro H; try discriminate; try reflexivity.
  - apply Z.eqb_eq in H. now subst.
  - inversion H. apply Z.eqb_refl.
Qed.

Lemma value_eqb_eq (a : value) : forall b, value_eqb a b = true <-> a = b.
Proof.
  induction a using value_nested_ind; intros [] ; simpl;
    try (split; intro E; discriminate E); try tauto.
  - rewrite Bool.eqb_true_iff. split; intro E; [now subst | now inversion E].
  - rewrite number_eqb_eq. split; intro E; [now subst | now inversion E].
  - rewrite String.eqb_eq. split; intro E; [now subst | now inversion E].
  - revert l0. induction H as [| x l Hx Hl IH]; intros [| y l0];
      try (split; intro E; discriminate E); try tauto.
    rewrite andb_true_iff, Hx, IH.
    split; [intros [-> E]; now inversion E | intro E; inversion E; auto].
  - revert o0. induction H as [| [k x] o Hx Ho IH]; intros [| [k' y] o0];
      try (split; intro E; discriminate E); try tauto.
    simpl in Hx. rewrite !andb_true_iff, String.eqb_eq, Hx, IH.
    split; [intros [[-> ->] E]; now inversion E | intro E; inversion E; auto].
  - rewrite Z.eqb_eq. split; intro E; [now subst | now inversion E].
  - rewrite N.eqb_eq. split; intro E; [now subst | now inversion E].
Qed.

Lemma value_eqb_refl (a : value) : value_eqb a a = true.
Proof. now apply value_eqb_eq. Qed.

Lemma lookup_set_same (k : string) (v : value) (o : doc) :
  lookup k (set k v o) = Some v.
Proof.
  induction o as [| [k' v'] o IH]; simpl.
  - now rewrite String.eqb_refl.
  - destruct (String.eqb k k') eqn:E; simpl.
    + now rewrite String.eqb_refl.
    + now rewrite E.
Qed.

Lemma lookup_set_other (k k' : string) (v : value) (o : doc) :
  k <> k' -> lookup k' (set k v o) = lookup k' o.
Proof.
  intro Hne. induction o as [| [k0 v0] o IH]; simpl.
  - destruct (String.eqb k' k) eqn:E; [| reflexivity].
    apply String.eqb_eq in E. congruence.
  - destruct (String.eqb k k0) eqn:E; simpl.
    + apply String.eqb_eq in E. subst k0.
      destruct (String.eqb k' k) eqn:E'; [| reflexivity].
      apply String.eqb_eq in E'. congruence.
    + now rewrite IH.
Qed.

Lemma put_same (c : collection) (s : db) : put c (coll c s) s = s.
Proof. destruct s, c; reflexivity. Qed.

Lemma put_trainers_same (s : db) : put Trainers (trainers s) s = s.
Proof. apply (put_same Trainers). Qed.

Lemma coll_put_same (c : collection) (l : list doc) (s : db) :
  coll c (put c l s) = l.
Proof. destruct c; reflexivity. Qed.

Lemma coll_put_other (c c' : collection) (l : list doc) (s : db) :
  c <> c' -> coll c' (put c l s) = coll c' s.
Proof. destruct c, c'; intro H; try reflexivity; congruence. Qed.

Lemma next_oid_put (c : collection) (l : list doc) (s : db) :
  next_oid (put c l s) = next_oid s.
Proof. destruct c; reflexivity. Qed.

(** ** Store operations on documents that are not there *)

Section store_facts.
Context {platform : Platform}.

Lemma update_first_no_match (q : filter) (u : update) (l : list doc) :
  (forall d, In d l -> matches q d = false) ->
  update_first q u l = Some (l, mkUpdateResult 0 0).
Proof.
  induction l as [| d l IH]; intro H; simpl; [reflexivity |].
  rewrite (H d (or_introl eq_refl)), IH; [reflexivity |].
  intros d' Hd'. apply H. now right.
Qed.

Lemma find_no_match (q : filter) (l : list doc) :
  (forall d, In d l -> matches q d = false) -> find (matches q) l = None.
Proof.
  induction l as [| d l IH]; intro H; simpl; [reflexivity |].
  rewrite (H d (or_introl eq_refl)). apply IH.
  intros d' Hd'. apply H. now right.
Qed.

Lemma filter_ok_by_id (o : N) : filter_ok (by_id o) = true.
Proof. reflexivity. Qed.

Lemma matches_by_id (o : N) (d : doc) :
  matches (by_id o) d = field_eq (lookup "_id" d) (VId o).
Proof. unfold matches, by_id. simpl. now rewrite andb_true_r. Qed.

End store_facts.

(** ** Rejecting an application (PATCH /trainers/applications/:id/reject) *)

Section reject.
Context {platform : Platform}.

(** No document of the trainers collection is the one [id] names. *)
Definition names_no_trainer (id : string) (s : db) : Prop :=
  forall o d, ObjectId_from (VStr id) = Some o -> In d (trainers s) ->
              matches (by_id o) d = false.

(** C3, as amended: for an id that names no document of the trainers
    collection, Reject-application leaves the whole store unchanged and
    answers 404 when the id is a well-formed ObjectId string, and 500 when
    it is not (the ObjectId constructor throws inside the [try]). *)
Theorem reject_unknown_id (id : string) (body : doc) (s : db) :
  names_no_trainer id s ->
  snd (patch_applications_reject id body s) = s /\
  status (fst (patch_applications_reject id body s)) =
    match ObjectId_from (VStr id) with
    | Some _ => 404
    | None => 500
    end.
Proof.
  intro Hno.
  unfold patch_applications_reject, try_catch, bind, new_ObjectId, updateOne.
  destruct (ObjectId_from (VStr id)) as [o |] eqn:Eid; cbn [ret throw].
  - rewrite filter_ok_by_id, update_first_no_match
      by (intros d Hd; now apply (Hno o)).
    cbn. split; [apply (put_same Trainers) | reflexivity].
  - now split.
Qed.
End reject.

(** C3 as stated fails: the id ["xyz"] names no document of the empty
    store, and Reject-application answers 500, not 404. *)
Lemma reject_malformed_id_is_not_404 :
  @names_no_trainer node "xyz" empty_db /\
  status (fst (@patch_applications_reject node "xyz" [] empty_db)) = 500 /\
  status (fst (@patch_applications_reject node "xyz" [] empty_db)) <> 404.
Proof.
  split; [| split].
  - intros o d _ [].
  - reflexivity.
  - vm_compute. discriminate.
Qed.

(** The amended statement at a well-formed and at a malformed id. *)
Lemma reject_unknown_id_witness :
  (snd (@patch_applications_reject node "64b7f0c2a1d3e4f5a6b7c8d9" [] empty_db)
   = empty_db /\
   status (fst (@patch_applications_reject node "64b7f0c2a1d3e4f5a6b7c8d9" []
                  empty_db)) = 404).
Proof.
  apply (@reject_unknown_id node "64b7f0c2a1d3e4f5a6b7c8d9" [] empty_db).
  intros o d _ [].
Defined.

(** ** The first matching document *)

Section first_match.
Context {platform : Platform}.

(** [d] is the first document of [l] that [q] matches. *)
Definition first_match (q : filter) (l l1 : list doc) (d : doc)
  (l2 : list doc) : Prop :=
  l = l1 ++ d :: l2 /\
  (forall x, In x l1 -> matches q x = false) /\
  matches q d = true.

Lemma find_first_match (q : filter) (l : list doc) (d : doc) :
  find (matches q) l = Some d ->
  exists l1 l2, first_match q l l1 d l2.
Proof.
  induction l as [| x l IH]; simpl; [discriminate |].
  destruct (matches q x) eqn:E.
  - intros [= ->]. exists [], l. repeat split; [intros ? [] | assumption].
  - intro H. destruct (IH H) as (l1 & l2 & -> & Hl1 & Hd).
    exists (x :: l1), l2. repeat split; [| assumption].
    intros y [<- | Hy]; auto.
Qed.


Lemma first_match_find (q : filter) (l l1 : list doc) (d : doc)
  (l2 : list doc) :
  first_match q l l1 d l2 -> find (matches q) l = Some d.
Proof.
  intros (-> & Hl1 & Hd). induction l1 as [| x l1 IH]; simpl.
  - now rewrite Hd.
  - rewrite (Hl1 x (or_introl eq_refl)). apply IH.
    intros y Hy. apply Hl1. now right.
Qed.

Lemma first_match_update (q : filter) (u : update) (l l1 : list doc)
  (d : doc) (l2 : list doc) :
  first_match q l l1 d l2 ->
  update_first q u l =
    match apply_update u d with
    | Some d' =>
        Some (l1 ++ d' :: l2,
              mkUpdateResult 1 (if doc_eqb d d' then 0 else 1))
    | None => None
    end.
Proof.
  intros (-> & Hl1 & Hd). induction l1 as [| x l1 IH]; simpl.
  - rewrite Hd. now destruct (apply_update u d).
  - rewrite (Hl1 x (or_introl eq_refl)), IH.
    + now destruct (apply_update u d).
    + intros y Hy. apply Hl1. now right.
Qed.

Lemma first_match_update_ok (q : filter) (u : update) (l l1 : list doc)
  (d d' : doc) (l2 : list doc) :
  first_match q l l1 d l2 ->
  apply_update u d = Some d' ->
  update_first q u l =
    Some (l1 ++ d' :: l2, mkUpdateResult 1 (if doc_eqb d d' then 0 else 1)).
Proof. intros H E. now rewrite (first_match_update _ _ _ _ _ _ H), E. Qed.

Lemma first_match_update_refused (q : filter) (u : update) (l l1 : list doc)
  (d : doc) (l2 : list doc) :
  first_match q l l1 d l2 ->
  apply_update u d = None ->
  update_first q u l = None.
Proof. intros H E. now rewrite (first_match_update _ _ _ _ _ _ H), E. Qed.

Lemma first_match_delete (q : filter) (l l1 : list doc) (d : doc)
  (l2 : list doc) :
  first_match q l l1 d l2 -> delete_first q l = l1 ++ l2.
Proof.
  intros (-> & Hl1 & Hd). induction l1 as [| x l1 IH]; simpl.
  - now rewrite Hd.
  - rewrite (Hl1 x (or_introl eq_refl)), IH; [reflexivity |].
    intros y Hy. apply Hl1. now right.
Qed.

Lemma doc_eqb_eq (a b : doc) : doc_eqb a b = true <-> a = b.
Proof.
  unfold doc_eqb. rewrite value_eqb_eq.
  split; intro E; [now inversion E | now subst].
Qed.

Lemma set_changes (k : string) (v : value) (d : doc) :
  lookup k d <> Some v -> doc_eqb d (set k v d) = false.
Proof.
  intro H. destruct (doc_eqb d (set k v d)) eqn:E; [| reflexivity].
  apply doc_eqb_eq in E. exfalso. apply H.
  rewrite E at 1. apply lookup_set_same.
Qed.
End first_match.

(** ** Looking a trainer up by email *)

Section by_email.
Context {platform : Platform}.

Definition by_email (email : string) : filter := [("email", CEq (VStr email))].

(** No trainer document is matched by the email. *)
Definition no_trainer_with (email : string) (s : db) : Prop :=
  forall d, In d (trainers s) -> matches (by_email email) d = false.

(** GET /trainers/email/:email answers 404 when there is no such trainer. *)
Lemma get_trainers_email_absent (email : string) (s : db) :
  no_trainer_with email s ->
  get_trainers_email email s =
    (status_json 404 (error_body "Trainer not found"), s).
Proof.
  intro H. unfold get_trainers_email, try_catch, bind, findOne. simpl.
  fold (by_email email). now rewrite (find_no_match _ _ H).
Qed.

(** GET /trainers/by-email/:email answers 200 with a null body then. *)
Lemma get_trainers_by_email_absent (email : string) (s : db) :
  no_trainer_with email s ->
  get_trainers_by_email email s = (Some (json VNull), s).
Proof.
  intro H. unfold get_trainers_by_email, uncaught, bind, findOne. simpl.
  fold (by_email email). now rewrite (find_no_match _ _ H).
Qed.
End by_email.

(** C9: on a store without trainers the lookup of ["nobody@example.com"]
    answers 404 on /trainers/email/:email, but 200 with body null on
    /trainers/by-email/:email, where the claim asks for 404 as well. *)
Theorem by_email_route_answers_200_null :
  fst (@get_trainers_email node "nobody@example.com" empty_db) =
    mkResponse 404 (error_body "Trainer not found") /\
  fst (@get_trainers_by_email node "nobody@example.com" empty_db) =
    Some (mkResponse 200 VNull).
Proof. split; reflexivity. Qed.

(** ** Adding a slot: PATCH /trainers/:id/add-slot and POST /trainers/:id/slots *)

Section add_slot.
Context {platform : Platform}.

(** The slot list [$push] extends: a missing field counts as empty, a field
    that is not an array has none. *)
Definition slots_of (d : doc) : option (list value) :=
  match lookup "availableSlots" d with
  | None => Some []
  | Some (VArr l) => Some l
  | Some _ => None
  end.

Definition with_slot (d : doc) (slots : list value) (slot : value) : doc :=
  set "availableSlots" (VArr (slots ++ [slot])) d.

Lemma push_slot (d : doc) (slots : list value) (slot : value) :
  slots_of d = Some slots ->
  apply_update (UPush "availableSlots" slot) d = Some (with_slot d slots slot).
Proof.
  unfold slots_of, with_slot, apply_update.
  destruct (lookup "availableSlots" d) as [[] |]; intros [= <-]; reflexivity.
Qed.

Lemma push_slot_changes (d : doc) (slots : list value) (slot : value) :
  slots_of d = Some slots -> doc_eqb d (with_slot d slots slot) = false.
Proof.
  intro H. apply set_changes. unfold slots_of in H.
  destruct (lookup "availableSlots" d) as [[] |]; try discriminate.
  injection H as ->. intros [= E].
  apply (f_equal (@List.length value)) in E.
  rewrite length_app in E. simpl in E. lia.
Qed.


(** The request body is a slot to append: a document without [$] keys,
    which the store would read as modifiers of the [$push]. *)
Definition plain_slot (body : doc) : Prop :=
  operator_document (VObj body) = false.

Lemma as_push_plain (k : string) (body : doc) :
  plain_slot body -> as_push k (VObj body) = UPush k (VObj body).
Proof. intro H. unfold as_push. now rewrite H. Qed.


End add_slot.

(** A store with one trainer, whose [_id] prints as
    ["000000000000000000000001"]. *)
Definition ann : doc :=
  [("_id", VId 1); ("name", VStr "Ann"); ("email", VStr "ann@example.com");
   ("availableSlots", VArr [])].

Definition one_trainer (t : doc) : db := mkDb [] [] [] [t] [] [] [] [] 2.

Definition monday : doc := [("day", VStr "Mon"); ("time", VStr "09:00")].


(** A body that the store reads as a modifier is not appended: with
    [{ $each: [] }] nothing changes on a trainer that exists, and the two
    routes answer 404 and 200. *)
Example each_of_nothing_is_not_appended :
  let body := [("$each", VArr [])] in
  @patch_trainers_add_slot node "000000000000000000000001" body
    (one_trainer ann) =
    (mkResponse 404 (error_body "Trainer not found"), one_trainer ann) /\
  @post_trainers_slots node "000000000000000000000001" body
    (one_trainer ann) =
    (json (VObj [success; message "New slot added successfully"]),
     one_trainer ann).
Proof. split; reflexivity. Qed.



(** ** Registering a user twice (POST /users) *)

Section register.
Context {platform : Platform}.

(** What the handler makes of an existing user: a missing (or falsy) role
    becomes ["member"]. *)
Definition with_role (d : doc) : doc :=
  if truthy (lookup "role" d) then d else set "role" (VStr "member") d.


Lemma field_eq_same (v : value) : field_eq (Some v) v = true.
Proof. unfold field_eq. now rewrite value_eqb_refl. Qed.

End register.

Definition bob : doc :=
  [("_id", VId 1); ("name", VStr "Bob"); ("email", VStr "bob@example.com")].

Definition one_user (u : doc) : db := mkDb [u] [] [] [] [] [] [] [] 2.


(** ** Voting on a forum post (PATCH /forum/:id/vote) *)

Section vote.
Context {platform : Platform}.

(** The unique index on [_id]: no two documents of a collection answer to
    the same ObjectId. *)
Fixpoint key_unique (l : list doc) : Prop :=
  match l with
  | [] => True
  | d :: l' =>
      (forall o x, matches (by_id o) d = true -> In x l' ->
                   matches (by_id o) x = false) /\
      key_unique l'
  end.

Lemma key_unique_split (o : N) (l1 : list doc) (d : doc) (l2 : list doc) :
  key_unique (l1 ++ d :: l2) ->
  matches (by_id o) d = true ->
  (forall x, In x l1 -> matches (by_id o) x = false) /\
  (forall x, In x l2 -> matches (by_id o) x = false).
Proof.
  induction l1 as [| a l1 IH]; cbn [key_unique app].
  - intros [H _] Hm. split; [intros x [] | intros x Hx; now apply (H o x)].
  - intros [Ha Hl] Hm. destruct (IH Hl Hm) as [H1 H2]. split; [| exact H2].
    intros x [<- | Hx]; [| now apply H1].
    destruct (matches (by_id o) a) eqn:E; [| reflexivity].
    rewrite (Ha o d E) in Hm; [discriminate |].
    apply in_or_app. right. now left.
Qed.

Lemma first_match_unique (o : N) (l : list doc) (d : doc) :
  key_unique l -> In d l -> matches (by_id o) d = true ->
  exists l1 l2,
    first_match (by_id o) l l1 d l2 /\
    (forall x, In x l2 -> matches (by_id o) x = false).
Proof.
  intros Hu Hin Hm.
  destruct (in_split _ _ Hin) as (l1 & l2 & ->).
  destruct (key_unique_split o _ _ _ Hu Hm) as [H1 H2].
  exists l1, l2. repeat split; assumption.
Qed.

(** A vote counter as a reader sees it: a missing field counts as zero, a
    field that is not a finite number is no counter. *)
Definition counter (k : string) (d : doc) : option Z :=
  match lookup k d with
  | None => Some 0
  | Some (VNum (Fin n)) => Some n
  | Some _ => None
  end.

Definition up_vote : doc := [("voteType", VStr "up")].

(** The store after [m] requests in a row. *)
Fixpoint vote_times (m : nat) (id : string) (body : doc) (s : db) : db :=
  match m with
  | O => s
  | S m' => vote_times m' id body (snd (patch_forum_vote id body s))
  end.

Lemma inc_counter (k : string) (d : doc) (n : Z) :
  counter k d = Some n ->
  safe_integer n = true ->
  safe_integer (n + 1) = true ->
  apply_update (UInc k 1) d = Some (set k (VNum (Fin (n + 1))) d).
Proof.
  unfold counter, apply_update.
  destruct (lookup k d) as [[| | [] | | | | |] |]; try discriminate;
    intros [= <-] Hn Hn1; [| reflexivity].
  cbv zeta. now rewrite Hn, Hn1.
Qed.

Lemma safe_between (n i m : Z) :
  safe_integer n = true -> safe_integer m = true -> n <= i <= m ->
  safe_integer i = true.
Proof.
  unfold safe_integer. intros Hn Hm Hi.
  apply andb_true_iff in Hn. apply andb_true_iff in Hm.
  destruct Hn as [Hn _], Hm as [_ Hm].
  apply Z.ltb_lt in Hn. apply Z.ltb_lt in Hm.
  apply andb_true_iff. split; apply Z.ltb_lt; lia.
Qed.

Lemma put_put (c : collection) (l l' : list doc) (s : db) :
  put c l (put c l' s) = put c l s.
Proof. destruct c; reflexivity. Qed.

Lemma vote_up_step (id : string) (body : doc) (s : db) (o : N)
  (l1 : list doc) (d : doc) (l2 : list doc) (n : Z) :
  is_string (lookup "voteType" body) "up" = true ->
  ObjectId_from (VStr id) = Some o ->
  first_match (by_id o) (forum s) l1 d l2 ->
  counter "upvotes" d = Some n ->
  safe_integer n = true ->
  safe_integer (n + 1) = true ->
  patch_forum_vote id body s =
    (json (VObj [success]),
     put Forum (l1 ++ set "upvotes" (VNum (Fin (n + 1))) d :: l2) s).
Proof.
  intros Hup Hid Hfirst Hn Hsafe Hsafe1.
  unfold patch_forum_vote, try_catch, bind, new_ObjectId, updateOne.
  rewrite Hup, Hid. cbn [ret]. rewrite filter_ok_by_id.
  change (coll Forum s) with (forum s).
  now rewrite (first_match_update_ok _ _ _ _ _ _ _ Hfirst
                 (inc_counter _ _ _ Hn Hsafe Hsafe1)).
Qed.

Lemma first_match_after_set (o : N) (l l1 : list doc) (d : doc)
  (l2 : list doc) (k : string) (v : value) :
  k <> "_id" ->
  first_match (by_id o) l l1 d l2 ->
  first_match (by_id o) (l1 ++ set k v d :: l2) l1 (set k v d) l2.
Proof.
  intros Hk (_ & Hl1 & Hd). split; [reflexivity | split; [assumption |]].
  rewrite matches_by_id in *. now rewrite lookup_set_other.
Qed.

Lemma vote_up_repeated (id : string) (body : doc) (o : N)
  (l1 l2 : list doc) (m : nat) :
  is_string (lookup "voteType" body) "up" = true ->
  ObjectId_from (VStr id) = Some o ->
  forall (s : db) (d : doc) (n : Z),
    first_match (by_id o) (forum s) l1 d l2 ->
    counter "upvotes" d = Some n ->
    safe_integer n = true ->
    safe_integer (n + Z.of_nat m) = true ->
    exists d',
      vote_times m id body s = put Forum (l1 ++ d' :: l2) s /\
      counter "upvotes" d' = Some (n + Z.of_nat m) /\
      (forall k, k <> "upvotes" -> lookup k d' = lookup k d).
Proof.
  intros Hup Hid. induction m as [| m IH]; intros s d n Hfirst Hn Hsafe Hsafem.
  - exists d. cbn [vote_times Z.of_nat]. rewrite Z.add_0_r.
    destruct Hfirst as (<- & _). now rewrite (put_same Forum).
  - cbn [vote_times].
    assert (Hsafe1 : safe_integer (n + 1) = true)
      by (apply (safe_between n _ _ Hsafe Hsafem); lia).
    rewrite (vote_up_step _ _ _ _ _ _ _ _ Hup Hid Hfirst Hn Hsafe Hsafe1).
    cbn [snd].
    set (d1 := set "upvotes" (VNum (Fin (n + 1))) d).
    destruct (IH (put Forum (l1 ++ d1 :: l2) s) d1 (n + 1)) as (d' & Hs & Hc & Hk).
    + change (forum (put Forum ?l ?s)) with (coll Forum (put Forum l s)).
      rewrite coll_put_same.
      apply (first_match_after_set o (forum s)); [discriminate | assumption].
    + unfold counter, d1. now rewrite lookup_set_same.
    + exact Hsafe1.
    + replace (n + 1 + Z.of_nat m) with (n + Z.of_nat (S m)) by lia.
      exact Hsafem.
    + exists d'. rewrite Hs, put_put. split; [reflexivity | split].
      * rewrite Hc. f_equal. lia.
      * intros k Hne. rewrite (Hk k Hne). unfold d1.
        apply lookup_set_other. congruence.
Qed.

(** C8, as amended: for a post of the forum collection that has a
    generated identifier and whose [upvotes] counter reads a safe integer
    [n] (a missing field reads 0), a vote with direction "up" is answered
    with success and, as long as [n + 1] is a safe integer, leaves the post
    with [upvotes = n + 1] and every other field, [downvotes] among them, as
    it was; all other documents and collections stay; and after [m] such
    votes in a row the counter reads [n + m], as long as that is a safe
    integer. *)
Theorem vote_up_increments (id : string) (body : doc) (s : db) (o : N)
  (d : doc) (n : Z) :
  is_string (lookup "voteType" body) "up" = true ->
  ObjectId_from (VStr id) = Some o ->
  key_unique (forum s) ->
  In d (forum s) ->
  lookup "_id" d = Some (VId o) ->
  counter "upvotes" d = Some n ->
  safe_integer n = true ->
  exists l1 l2,
    forum s = l1 ++ d :: l2 /\
    (safe_integer (n + 1) = true ->
     let d1 := set "upvotes" (VNum (Fin (n + 1))) d in
     patch_forum_vote id body s =
       (json (VObj [success]), put Forum (l1 ++ d1 :: l2) s) /\
     counter "upvotes" d1 = Some (n + 1) /\
     counter "downvotes" d1 = counter "downvotes" d /\
     (forall k, k <> "upvotes" -> lookup k d1 = lookup k d)) /\
    (forall m, safe_integer (n + Z.of_nat m) = true ->
       exists dm,
         vote_times m id body s = put Forum (l1 ++ dm :: l2) s /\
         counter "upvotes" dm = Some (n + Z.of_nat m) /\
         counter "downvotes" dm = counter "downvotes" d /\
         (forall k, k <> "upvotes" -> lookup k dm = lookup k d)).
Proof.
  intros Hup Hid Hu Hin Hd Hn Hsafe.
  assert (Hm : matches (by_id o) d = true).
  { rewrite matches_by_id, Hd. apply field_eq_same. }
  destruct (first_match_unique _ _ _ Hu Hin Hm) as (l1 & l2 & Hfirst & _).
  exists l1, l2. split; [apply Hfirst |]. split.
  - intro Hsafe1. cbv zeta.
    split; [now apply (vote_up_step _ _ _ o) |]. split; [| split].
    + unfold counter. now rewrite lookup_set_same.
    + unfold counter. now rewrite lookup_set_other by discriminate.
    + intros k Hk. apply lookup_set_other. congruence.
  - intros m Hsafem.
    destruct (vote_up_repeated id body o l1 l2 m Hup Hid s d n Hfirst Hn
                Hsafe Hsafem)
      as (dm & Hs & Hc & Hk).
    exists dm. repeat split; try assumption.
    unfold counter. now rewrite Hk by discriminate.
Qed.
End vote.

Definition post3 : doc :=
  [("_id", VId 1); ("title", VStr "Stretching"); ("upvotes", VNum (Fin 3));
   ("downvotes", VNum (Fin 1))].

Definition one_post (p : doc) : db := mkDb [] [] [] [] [p] [] [] [] 2.

(** C8 as stated fails for posts that are in the store: a post whose
    [upvotes] is 2^53 (a double in the store) keeps it under a vote that
    answers success; and a post that POST /forum stored with the text
    ["3"] as [upvotes] is not a counter: the vote answers 500 and changes
    nothing. *)
Lemma vote_up_is_not_always_one_more :
  (let s := one_post (set "upvotes" (VNum (Fin (2 ^ 53))) post3) in
   @patch_forum_vote node "000000000000000000000001" up_vote s =
     (json (VObj [success]), s)) /\
  (let s := snd (post_forum [("title", VStr "Hi"); ("upvotes", VStr "3")]
                   empty_db) in
   forum s = [[("_id", VId 0); ("title", VStr "Hi"); ("upvotes", VStr "3")]] /\
   @patch_forum_vote node "000000000000000000000000" up_vote s =
     (mkResponse 500 (error_body "Failed to update vote"), s)).
Proof. split; [| split]; reflexivity. Qed.

(** C8, amended, on a forum with one post that has three up-votes. *)
Lemma vote_up_increments_witness :
  exists l1 l2,
    forum (one_post post3) = l1 ++ post3 :: l2 /\
    (safe_integer (3 + 1) = true ->
     let d1 := set "upvotes" (VNum (Fin (3 + 1))) post3 in
     @patch_forum_vote node "000000000000000000000001" up_vote (one_post post3) =
       (json (VObj [success]), put Forum (l1 ++ d1 :: l2) (one_post post3)) /\
     counter "upvotes" d1 = Some (3 + 1) /\
     counter "downvotes" d1 = counter "downvotes" post3 /\
     (forall k, k <> "upvotes" -> lookup k d1 = lookup k post3)) /\
    (forall m, safe_integer (3 + Z.of_nat m) = true ->
       exists dm,
         @vote_times node m "000000000000000000000001" up_vote
           (one_post post3) =
           put Forum (l1 ++ dm :: l2) (one_post post3) /\
         counter "upvotes" dm = Some (3 + Z.of_nat m) /\
         counter "downvotes" dm = counter "downvotes" post3 /\
         (forall k, k <> "upvotes" -> lookup k dm = lookup k post3)).
Proof.
  apply (@vote_up_increments node "000000000000000000000001" up_vote
           (one_post post3) 1%N post3 3).
  - reflexivity.
  - reflexivity.
  - split; [intros o x _ [] | exact I].
  - left. reflexivity.
  - reflexivity.
  - reflexivity.
  - reflexivity.
Defined.

Example three_votes_on_post3 :
  forum (@vote_times node 3 "000000000000000000000001" up_vote (one_post post3)) =
    [[("_id", VId 1); ("title", VStr "Stretching"); ("upvotes", VNum (Fin 6));
      ("downvotes", VNum (Fin 1))]].
Proof. reflexivity. Qed.

(** ** The order of a sorted list *)

Section sorting.
Context {platform : Platform}.

Lemma insert_desc_perm (k : string) (x : doc) (l : list doc) :
  Permutation (insert_desc k x l) (x :: l).
Proof.
  induction l as [| y l IH]; simpl; [reflexivity |].
  destruct (bson_leb (sort_key k y) (sort_key k x)); [reflexivity |].
  rewrite IH. apply perm_swap.
Qed.

Lemma sort_desc_perm (k : string) (l : list doc) :
  Permutation (sort_desc k l) l.
Proof.
  induction l as [| x l IH]; simpl; [reflexivity |].
  rewrite insert_desc_perm. now constructor.
Qed.

Lemma sort_desc_In (k : string) (l : list doc) (x : doc) :
  In x (sort_desc k l) <-> In x l.
Proof.
  split; apply Permutation_in;
    [apply sort_desc_perm | symmetry; apply sort_desc_perm].
Qed.

(** The store's order compares any two values. *)
Definition total_order : Prop :=
  forall a b, bson_leb a b = true \/ bson_leb b a = true.

(** Each document sorts no later than the one before it. *)
Fixpoint descending (k : string) (l : list doc) : Prop :=
  match l with
  | [] => True
  | x :: l' =>
      match l' with
      | [] => True
      | y :: _ => bson_leb (sort_key k y) (sort_key k x) = true
      end /\ descending k l'
  end.

Lemma insert_desc_descending (k : string) (x : doc) (l : list doc) :
  total_order -> descending k l -> descending k (insert_desc k x l).
Proof.
  intro Htot. induction l as [| y l IH]; intro Hl; cbn [insert_desc].
  - split; exact I.
  - destruct (bson_leb (sort_key k y) (sort_key k x)) eqn:E.
    + split; [exact E | exact Hl].
    + destruct Hl as [Hy Hl]. specialize (IH Hl).
      split; [| exact IH].
      destruct l as [| z l]; cbn [insert_desc] in *.
      * destruct (Htot (sort_key k y) (sort_key k x)) as [H | H];
          [congruence | exact H].
      * destruct (bson_leb (sort_key k z) (sort_key k x)).
        -- destruct (Htot (sort_key k y) (sort_key k x)) as [H | H];
             [congruence | exact H].
        -- exact Hy.
Qed.

Lemma sort_desc_descending (k : string) (l : list doc) :
  total_order -> descending k (sort_desc k l).
Proof.
  intro Htot. induction l as [| x l IH]; cbn [sort_desc]; [exact I |].
  now apply insert_desc_descending.
Qed.

Lemma descending_firstn (k : string) (n : nat) (l : list doc) :
  descending k l -> descending k (firstn n l).
Proof.
  revert l. induction n as [| n IH]; intros [| x l] H; cbn [firstn]; try exact I.
  destruct H as [Hx Hl]. split; [| now apply IH].
  destruct l as [| y l]; [now destruct n |].
  destruct n; [exact I | exact Hx].
Qed.


End sorting.

(** The order of [node] compares any two values. *)
Lemma value_leb_total : @total_order node.
Proof.
  intros a b. unfold bson_leb, node, value_leb.
  destruct a as [| x | [| x] | x | x | x | x | x],
           b as [| y | [| y] | y | y | y | y | y];
    cbn [type_rank];
    try (left; reflexivity); try (right; reflexivity).
  - destruct x, y; auto.
  - destruct (Z.leb_spec x y); [now left | right; apply Z.leb_le; lia].
  - destruct (String.leb_total x y) as [H | H]; auto.
  - destruct (Z.leb_spec x y); [now left | right; apply Z.leb_le; lia].
  - destruct (N.leb_spec x y); [now left | right; apply N.leb_le; lia].
Qed.

(** ** Listing classes by page (GET /classes) *)

Section pagination.
Context {platform : Platform}.

(** The [query] of the handler: a case-insensitive pattern on [name] when a
    search word is given, everything otherwise. *)
Definition classes_query (search : option string) : filter :=
  let search := match search with Some x => x | None => "" end in
  if String.eqb search "" then [] else [("name", CRegexI search)].

Lemma ceil_div_spec (a b : Z) :
  0 < b -> b * (ceil_div a b - 1) < a <= b * ceil_div a b.
Proof.
  intro Hb. unfold ceil_div.
  pose proof (Z.div_mod (- a) b ltac:(lia)) as Hdm.
  pose proof (Z.mod_pos_bound (- a) b Hb) as Hr.
  nia.
Qed.




End pagination.

Definition class_at (t : Z) : doc :=
  [("_id", VId (Z.to_N t)); ("name", VStr "Yoga"); ("createdAt", VDate t)].

Definition eight_classes : db :=
  mkDb [] [] (map class_at [1; 2; 3; 4; 5; 6; 7; 8]) [] [] [] [] [] 9.




Example page_two_of_eight :
  fst (@get_classes node (Some "2") (Some "6") None eight_classes) =
    json (VObj [("data", docs [class_at 2; class_at 1]);
                ("currentPage", VNum (Fin 2));
                ("totalPages", VNum (Fin 2));
                ("totalClasses", VNum (Fin 8))]).
Proof. reflexivity. Qed.

(** ** Submitting an application (POST /trainers/apply) *)

Section submit.
Context {platform : Platform}.

(** What the handler stores for a payload. *)
Definition submitted (now : Z) (body : doc) (s : db) : doc :=
  ("_id", VId (next_oid s)) :: newTrainer now body.

Lemma post_trainers_apply_inserts (now : Z) (body : doc) (s : db) :
  post_trainers_apply now body s =
    (json (VObj [success; ("insertedId", VId (next_oid s))]),
     put Trainers (trainers s ++ [submitted now body s]) (bump_oid s)).
Proof. reflexivity. Qed.

(** C2, as amended: for every payload the handler appends one document to
    the trainers collection, with [age] and [experience] the numbers
    [Number] makes of the payload's, each of [expertise], [availableDays],
    [availableSlots] the payload's value when that is an array and the empty
    list otherwise, [socials] the payload's value when truthy and otherwise
    the map with empty [facebook], [instagram] and [linkedin], and [status]
    the payload's value when truthy and otherwise ["pending"]. *)
Theorem submit_stores_normalised (now : Z) (body : doc) (s : db) :
  let d := submitted now body s in
  snd (post_trainers_apply now body s) =
    put Trainers (trainers s ++ [d]) (bump_oid s) /\
  status (fst (post_trainers_apply now body s)) = 200 /\
  lookup "age" d = Some (VNum (js_Number (lookup "age" body))) /\
  lookup "experience" d = Some (VNum (js_Number (lookup "experience" body))) /\
  (forall k, In k ["expertise"; "availableDays"; "availableSlots"] ->
     lookup k d =
       Some (match lookup k body with
             | Some (VArr l) => VArr l
             | _ => VArr []
             end)) /\
  lookup "socials" d =
    Some (if truthy (lookup "socials" body)
          then to_bson (lookup "socials" body)
          else VObj [("facebook", VStr ""); ("instagram", VStr "");
                     ("linkedin", VStr "")]) /\
  lookup "status" d =
    Some (if truthy (lookup "status" body)
          then to_bson (lookup "status" body)
          else VStr "pending").
Proof.
  intro d. rewrite post_trainers_apply_inserts. cbn [fst snd status json].
  repeat split.
  - intros k Hk. simpl in Hk.
    destruct Hk as [<- | [<- | [<- | []]]]; reflexivity.
  - cbn. unfold or_else. destruct (lookup "socials" body); [| reflexivity].
    now destruct (truthy (Some v)).
  - cbn. unfold or_else. destruct (lookup "status" body); [| reflexivity].
    now destruct (truthy (Some v)).
Qed.
End submit.

Definition eve : doc := [("name", VStr "Eve"); ("status", VStr "approved")].

(** C2 as stated fails: a payload that brings [status: "approved"] is stored
    with that status, and its missing [socials] is not stored as the empty
    map. *)
Lemma submit_keeps_payload_status :
  let d := @submitted node 0 eve empty_db in
  snd (@post_trainers_apply node 0 eve empty_db) =
    put Trainers [d] (bump_oid empty_db) /\
  lookup "status" d = Some (VStr "approved") /\
  lookup "status" d <> Some (VStr "pending") /\
  lookup "socials" d <> Some (VObj []).
Proof.
  cbv zeta. repeat split; try reflexivity; discriminate.
Qed.

(** ** Approving an application (PATCH /trainers/applications/:id/confirm) *)

Section approve.
Context {platform : Platform}.

Definition plain_fields : list string :=
  ["name"; "email"; "age"; "image"; "experience"; "details"].

Definition defaulted_fields : list string :=
  ["expertise"; "availableDays"; "availableSlots"; "socials"].

(** The shape POST /trainers/apply gives a document: the plain fields are
    there, the list fields and [socials] hold a truthy value. *)
Definition application (d : doc) : Prop :=
  (forall k, In k plain_fields -> lookup k d <> None) /\
  (forall k, In k defaulted_fields -> truthy (lookup k d) = true).

Lemma truthy_or_else (x : jsval) (v : value) :
  truthy (Some v) = true -> truthy (Some (or_else x v)) = true.
Proof.
  intro Hv. unfold or_else. destruct x as [w |]; [| assumption].
  destruct (truthy (Some w)) eqn:E; assumption.
Qed.

Lemma submitted_is_application (now : Z) (body : doc) (s : db) :
  application (submitted now body s).
Proof.
  split; intros k Hk; simpl in Hk.
  - destruct Hk as [<- | [<- | [<- | [<- | [<- | [<- | []]]]]]]; discriminate.
  - destruct Hk as [<- | [<- | [<- | [<- | []]]]];
      try (cbn; now destruct (lookup _ body) as [[] |]).
    cbn [submitted newTrainer literal map lookup String.eqb Ascii.eqb
           Bool.eqb fst snd to_bson].
    now apply truthy_or_else.
Qed.

(** The ObjectId generator has not yet reached the identifiers in use. *)
Definition generator_ahead (c : collection) (s : db) : Prop :=
  forall d o, In d (coll c s) -> lookup "_id" d = Some (VId o) ->
              (o < next_oid s)%N.

(** What GET /trainers/applications/pending lists. *)
Definition pending_list (s : db) : list doc :=
  List.filter (matches pending) (trainers s).

Lemma get_pending_lists (s : db) :
  get_trainers_applications_pending s = (json (docs (pending_list s)), s).
Proof. reflexivity. Qed.

Lemma approved_plain (now : Z) (d : doc) (k : string) :
  In k plain_fields -> lookup k (approved now d) = Some (to_bson (lookup k d)).
Proof.
  intro Hk. simpl in Hk.
  destruct Hk as [<- | [<- | [<- | [<- | [<- | [<- | []]]]]]]; reflexivity.
Qed.

Lemma approved_defaulted (now : Z) (d : doc) (k : string) :
  In k defaulted_fields ->
  lookup k (approved now d) =
    Some (or_else (lookup k d)
            (if String.eqb k "socials" then VObj [] else VArr [])).
Proof.
  intro Hk. simpl in Hk.
  destruct Hk as [<- | [<- | [<- | [<- | []]]]]; reflexivity.
Qed.

Lemma or_else_truthy (x : jsval) (v : value) :
  truthy x = true -> Some (or_else x v) = x.
Proof.
  unfold or_else. destruct x as [w |]; [| discriminate].
  now intros ->.
Qed.

Lemma confirm_result (now : Z) (id : string) (s : db) (o : N)
  (l1 : list doc) (d : doc) (l2 : list doc) :
  ObjectId_from (VStr id) = Some o ->
  first_match (by_id o) (trainers s) l1 d l2 ->
  patch_applications_confirm now id s =
    (json (VObj [success; message "Trainer approved and added"]),
     put Trainers
       (l1 ++ l2 ++ [("_id", VId (next_oid s)) :: approved now d])
       (bump_oid s)).
Proof.
  intros Hid Hfirst.
  unfold patch_applications_confirm, try_catch, bind, new_ObjectId, findOne.
  rewrite Hid. cbn [ret]. rewrite filter_ok_by_id.
  change (coll Trainers s) with (trainers s).
  rewrite (first_match_find _ _ _ _ _ Hfirst).
  unfold insertOne.
  change (lookup "_id" (approved now d)) with (@None value).
  cbv iota beta. unfold deleteOne. rewrite filter_ok_by_id, coll_put_same.
  change (coll Trainers s) with (trainers s).
  set (new := ("_id", VId (next_oid s)) :: approved now d).
  assert (Hf : first_match (by_id o) (trainers s ++ [new]) l1 d (l2 ++ [new])).
  { destruct Hfirst as (-> & H1 & Hd). repeat split; try assumption.
    now rewrite <- app_assoc. }
  now rewrite (first_match_delete _ _ _ _ _ Hf), put_put.
Qed.

(** What stands in for a list field or [socials] that the application does
    not hold. *)
Definition default_of (k : string) : value :=
  if String.eqb k "socials" then VObj [] else VArr [].

(** C1: for a pending application in the trainers collection, approving it
    by its id is answered with success and replaces it: no document of the
    collection answers to the id any more, so the pending list, which
    showed the application, does not show it; and the collection has a new
    document with status ["approved"] and the creation time of the request.
    The new document takes name, email, age, image, experience and details
    as the application has them (null for a field it lacks), and expertise,
    availableDays, availableSlots and socials as the application has them
    unless the value is missing or falsy; so for a document of the shape
    Submit writes, all ten fields are carried over unchanged. *)
Theorem approve_application (now : Z) (id : string) (s : db) (o : N) (d : doc) :
  ObjectId_from (VStr id) = Some o ->
  key_unique (trainers s) ->
  generator_ahead Trainers s ->
  In d (trainers s) ->
  lookup "_id" d = Some (VId o) ->
  lookup "status" d = Some (VStr "pending") ->
  let new := ("_id", VId (next_oid s)) :: approved now d in
  let s' := snd (patch_applications_confirm now id s) in
  In d (pending_list s) /\
  status (fst (patch_applications_confirm now id s)) = 200 /\
  fst (get_trainers_applications_pending s') = json (docs (pending_list s')) /\
  ~ In d (pending_list s') /\
  (forall x, In x (trainers s') -> matches (by_id o) x = false) /\
  In new (trainers s') /\
  ~ In new (trainers s) /\
  lookup "status" new = Some (VStr "approved") /\
  lookup "createdAt" new = Some (VDate now) /\
  (forall k, In k plain_fields ->
             lookup k new = Some (to_bson (lookup k d))) /\
  (forall k, In k defaulted_fields ->
             lookup k new = Some (or_else (lookup k d) (default_of k))) /\
  (application d ->
   forall k, In k (plain_fields ++ defaulted_fields) ->
             lookup k new = lookup k d).
Proof.
  intros Hid Hu Hgen Hin Hd Hpending new s'.
  assert (Hm : matches (by_id o) d = true).
  { rewrite matches_by_id, Hd. apply field_eq_same. }
  destruct (first_match_unique _ _ _ Hu Hin Hm) as (l1 & l2 & Hfirst & Hl2).
  assert (Hs' : trainers s' = l1 ++ l2 ++ [new]).
  { unfold s'. rewrite (confirm_result now id s o l1 d l2 Hid Hfirst).
    cbn [snd]. apply (coll_put_same Trainers). }
  assert (Hnew : matches (by_id o) new = false).
  { rewrite matches_by_id. unfold new. cbn [lookup String.eqb Ascii.eqb Bool.eqb].
    unfold field_eq. cbn [value_eqb]. rewrite orb_false_r.
    apply N.eqb_neq. specialize (Hgen d o Hin Hd). lia. }
  assert (Hgone : forall x, In x (trainers s') -> matches (by_id o) x = false).
  { intros x Hx. rewrite Hs' in Hx.
    destruct Hfirst as (_ & Hl1 & _).
    apply in_app_or in Hx. destruct Hx as [Hx | Hx]; [now apply Hl1 |].
    apply in_app_or in Hx. destruct Hx as [Hx | [<- | []]]; [now apply Hl2 |].
    exact Hnew. }
  assert (Hskip : forall k, In k (plain_fields ++ defaulted_fields) ->
                            lookup k new = lookup k (approved now d)).
  { intros k Hk. simpl in Hk.
    repeat (destruct Hk as [<- | Hk]; [reflexivity |]). destruct Hk. }
  repeat apply conj.
  - apply filter_In. split; [assumption |].
    unfold matches, pending. simpl. now rewrite Hpending.
  - now rewrite (confirm_result now id s o l1 d l2 Hid Hfirst).
  - reflexivity.
  - intro Hd'. apply filter_In in Hd'. destruct Hd' as [Hd' _].
    rewrite (Hgone d Hd') in Hm. discriminate.
  - exact Hgone.
  - rewrite Hs'. apply in_or_app. right. apply in_or_app. right. now left.
  - intro Hold. specialize (Hgen new (next_oid s) Hold eq_refl). lia.
  - reflexivity.
  - reflexivity.
  - intros k Hk. rewrite Hskip by (apply in_or_app; now left).
    now apply approved_plain.
  - intros k Hk. rewrite Hskip by (apply in_or_app; now right).
    now apply approved_defaulted.
  - intros [Hplain Hdef] k Hk. rewrite (Hskip k Hk).
    apply in_app_or in Hk. destruct Hk as [Hk | Hk].
    + rewrite (approved_plain now d k Hk).
      specialize (Hplain k Hk). now destruct (lookup k d).
    + rewrite (approved_defaulted now d k Hk).
      now apply or_else_truthy, Hdef.
Qed.
End approve.

Definition ada_payload : doc :=
  [("name", VStr "Ada"); ("email", VStr "ada@example.com"); ("age", VStr "31");
   ("image", VStr "ada.png"); ("experience", VNum (Fin 4));
   ("expertise", VArr [VStr "yoga"])].

(** The application POST /trainers/apply stores for Ada at time 10. *)
Definition ada : doc := @submitted node 10 ada_payload empty_db.

Definition ada_applied : db := snd (@post_trainers_apply node 10 ada_payload empty_db).

(** C1 on the store after Ada's application, approved at time 20. *)
Lemma approve_application_witness :
  let new := ("_id", VId (next_oid ada_applied)) :: approved 20 ada in
  let s' :=
    snd (@patch_applications_confirm node 20 "000000000000000000000000"
           ada_applied) in
  In ada (@pending_list node ada_applied) /\
  status (fst (@patch_applications_confirm node 20 "000000000000000000000000"
                 ada_applied)) = 200 /\
  fst (@get_trainers_applications_pending node s') =
    json (docs (@pending_list node s')) /\
  ~ In ada (@pending_list node s') /\
  (forall x, In x (trainers s') -> @matches node (by_id 0) x = false) /\
  In new (trainers s') /\
  ~ In new (trainers ada_applied) /\
  lookup "status" new = Some (VStr "approved") /\
  lookup "createdAt" new = Some (VDate 20) /\
  (forall k, In k plain_fields ->
             lookup k new = Some (to_bson (lookup k ada))) /\
  (forall k, In k defaulted_fields ->
             lookup k new = Some (or_else (lookup k ada) (default_of k))) /\
  (application ada ->
   forall k, In k (plain_fields ++ defaulted_fields) ->
             lookup k new = lookup k ada).
Proof.
  apply (@approve_application node 20 "000000000000000000000000" ada_applied
           0%N ada).
  - reflexivity.
  - split; [intros o x _ [] | exact I].
  - intros d o [<- | []] [= <-]. reflexivity.
  - left. reflexivity.
  - reflexivity.
  - reflexivity.
Defined.

Example ada_approved :
  @patch_applications_confirm node 20 "000000000000000000000000" ada_applied =
    (mkResponse 200
       (VObj [("success", VBool true);
              ("message", VStr "Trainer approved and added")]),
     mkDb [] [] []
       [[("_id", VId 1); ("name", VStr "Ada");
         ("email", VStr "ada@example.com"); ("age", VNum (Fin 31));
         ("image", VStr "ada.png"); ("experience", VNum (Fin 4));
         ("details", VStr ""); ("expertise", VArr [VStr "yoga"]);
         ("availableDays", VArr []); ("availableSlots", VArr []);
         ("socials", default_socials); ("status", VStr "approved");
         ("createdAt", VDate 20)]]
       [] [] [] [] 2).
Proof. reflexivity. Qed.


(** ** Bookings of a user with their trainers (GET /bookings/user/:email) *)

Section bookings.
Context {platform : Platform}.

(** The trainer document a reference names: its [_id] is an ObjectId that
    prints as the reference. *)
Definition names (x : jsval) (t : doc) : bool :=
  match lookup "_id" t with
  | Some (VId o) => is_string x (ObjectId_toString o)
  | _ => false
  end.

(** A booking with its [trainerDetails]: the first trainer of the
    collection that the booking's [trainerId] names, or null. *)
Definition with_details (s : db) (b : doc) : doc :=
  set "trainerDetails"
    (match find (names (lookup "trainerId" b)) (trainers s) with
     | Some t => VObj t
     | None => VNull
     end)
    b.

(** The successful bookings of a user, newest first. *)
Definition bookings_of (email : string) (s : db) : list doc :=
  sort_desc "createdAt"
    (List.filter (matches (successful_bookings email)) (bookings s)).

(** Printing and parsing agree on the identifiers of the trainers. *)
Definition ids_print_parse (s : db) : Prop :=
  forall t o, In t (trainers s) -> lookup "_id" t = Some (VId o) ->
              ObjectId_from (VStr (ObjectId_toString o)) = Some o.

Definition well_formed_ref (b : doc) : Prop :=
  exists t o, lookup "trainerId" b = Some (VStr t) /\
              ObjectId_from (VStr t) = Some o.

Definition malformed_ref (b : doc) : Prop :=
  exists t, lookup "trainerId" b = Some (VStr t) /\
            ObjectId_from (VStr t) = None.

Definition string_ref (b : doc) : Prop :=
  exists t, lookup "trainerId" b = Some (VStr t).

(** The identifier [new ObjectId(b.trainerId)] yields for a well-formed
    reference. *)
Definition ref_oid (b : doc) : N :=
  match lookup "trainerId" b with
  | Some (VStr t) =>
      match ObjectId_from (VStr t) with Some o => o | None => 0%N end
  | _ => 0%N
  end.

Lemma mapM_ret {A B} (f : A -> M B) (g : A -> B) (l : list A) (s : db) :
  (forall x, In x l -> f x s = (Ok (g x), s)) ->
  mapM f l s = (Ok (map g l), s).
Proof.
  induction l as [| x l IH]; intro H; [reflexivity |].
  cbn [mapM map]. unfold bind at 1. rewrite (H x (or_introl eq_refl)).
  unfold bind at 1. rewrite IH; [reflexivity |].
  intros y Hy. apply H. now right.
Qed.

Lemma mapM_throw {A B} (f : A -> M B) (l : list A) (s : db) :
  (forall x, In x l -> f x s = (Throw, s) \/ exists y, f x s = (Ok y, s)) ->
  (exists x, In x l /\ f x s = (Throw, s)) ->
  mapM f l s = (Throw, s).
Proof.
  induction l as [| x l IH]; intros Hall (x0 & Hin & Hx0); [destruct Hin |].
  cbn [mapM]. unfold bind at 1.
  destruct (Hall x (or_introl eq_refl)) as [Hx | (y & Hx)]; rewrite Hx;
    [reflexivity |].
  unfold bind at 1. rewrite IH; [reflexivity | |].
  - intros z Hz. apply Hall. now right.
  - destruct Hin as [<- | Hin]; [congruence |]. now exists x0.
Qed.

Lemma find_filter {A} (p p' q : A -> bool) (l : list A) :
  (forall x, In x l -> p' x = (q x && p x)%bool) ->
  find p (List.filter q l) = find p' l.
Proof.
  induction l as [| x l IH]; intro H; [reflexivity |].
  cbn [List.filter find]. rewrite (H x (or_introl eq_refl)).
  assert (IH' : find p (List.filter q l) = find p' l).
  { apply IH. intros y Hy. apply H. now right. }
  destruct (q x); cbn [andb find]; [now rewrite IH' | exact IH'].
Qed.

Lemma no_string_among_ids (s : string) (ids : list N) :
  existsb (field_eq (Some (VStr s))) (map VId ids) = false.
Proof. induction ids as [| o ids IH]; [reflexivity | exact IH]. Qed.

Lemma id_among_ids (o : N) (ids : list N) :
  In o ids -> existsb (field_eq (Some (VId o))) (map VId ids) = true.
Proof.
  intro H. apply existsb_exists. exists (VId o).
  split; [now apply in_map | apply field_eq_same].
Qed.

(** Looking for the trainer among the fetched ones finds the one the whole
    collection has. *)
Lemma find_fetched (s : db) (ids : list N) (b : doc) :
  ids_print_parse s ->
  well_formed_ref b ->
  In (ref_oid b) ids ->
  find (fun t => id_string_is t (lookup "trainerId" b))
    (List.filter (matches [("_id", CIn (map VId ids))]) (trainers s)) =
  find (names (lookup "trainerId" b)) (trainers s).
Proof.
  intros Hpp (tid & ob & Htid & Hob) Hin.
  apply find_filter. intros t Ht.
  unfold names, id_string_is, matches.
  cbn [forallb fst snd cond_matches]. rewrite andb_true_r.
  destruct (lookup "_id" t) as [[| | | s' | | | | o'] |] eqn:Eid;
    try now rewrite andb_false_r.
  - now rewrite no_string_among_ids.
  - destruct (is_string (lookup "trainerId" b) (ObjectId_toString o')) eqn:E;
      [| now rewrite andb_false_r].
    rewrite andb_true_r. symmetry. apply id_among_ids.
    rewrite Htid in E. cbn [is_string] in E. apply String.eqb_eq in E.
    pose proof (Hpp t o' Ht Eid) as Hrt. rewrite <- E, Hob in Hrt.
    injection Hrt as <-.
    unfold ref_oid in Hin. now rewrite Htid, Hob in Hin.
Qed.

(** C6, as amended.  When every successful booking of the user carries a
    well-formed ObjectId string as [trainerId], the answer lists exactly
    these bookings (those of the collection whose [userEmail] is the email
    and whose [status] is ["success"], each once), newest first, each with
    [trainerDetails] set to the trainer document the reference names, or to
    null when there is none.  When the references are strings and one of
    them is malformed, the answer is 500. *)
Theorem bookings_with_trainers (email : string) (s : db) :
  Permutation (bookings_of email s)
    (List.filter (matches (successful_bookings email)) (bookings s)) /\
  (forall b,
     In b (bookings_of email s) <->
     In b (bookings s) /\
     field_eq (lookup "userEmail" b) (VStr email) = true /\
     field_eq (lookup "status" b) (VStr "success") = true) /\
  (total_order -> descending "createdAt" (bookings_of email s)) /\
  (ids_print_parse s ->
   (forall b, In b (bookings_of email s) -> well_formed_ref b) ->
   get_bookings_user email s =
     (json (docs (map (with_details s) (bookings_of email s))), s)) /\
  ((forall b, In b (bookings_of email s) -> string_ref b) ->
   (exists b, In b (bookings_of email s) /\ malformed_ref b) ->
   get_bookings_user email s =
     (status_json 500 (error_body "Failed to fetch booked trainers"), s)).
Proof.
  split; [apply sort_desc_perm | split; [| split; [| split]]].
  - intro b. unfold bookings_of. rewrite sort_desc_In, filter_In.
    unfold matches, successful_bookings.
    cbn [forallb fst snd cond_matches]. rewrite andb_true_r, andb_true_iff.
    reflexivity.
  - intro Htotal. now apply sort_desc_descending.
  - intros Hpp Hwf.
    unfold get_bookings_user, try_catch, bind at 1, toArray.
    cbn [cur_filter csort cfind filter_ok successful_bookings forallb cond_ok
           snd andb negb cur_skip Z.ltb Z.compare cur_coll].
    change (run_cursor _ (coll Bookings s)) with (bookings_of email s).
    destruct (bookings_of email s) as [| b0 bs] eqn:Ebs; [reflexivity |].
    rewrite <- Ebs in *. unfold bind.
    rewrite (mapM_ret _ ref_oid).
    + cbn [toArray cur_filter cfind filter_ok forallb cond_ok snd andb negb
             cur_skip Z.ltb Z.compare cur_coll ret].
      apply (f_equal (fun l => (json (docs l), s))).
      apply map_ext_in. intros b Hb.
      unfold merge, with_details.
      change (run_cursor _ (coll Trainers s))
        with (List.filter (matches [("_id", CIn (map VId (map ref_oid (bookings_of email s))))])
                (trainers s)).
      rewrite (find_fetched s _ b Hpp (Hwf b Hb)); [reflexivity |].
      now apply in_map.
    + intros b Hb. destruct (Hwf b Hb) as (t & o & Ht & Ho).
      unfold new_ObjectId, ref_oid. now rewrite Ht, Ho.
  - intros Hstr Hbad.
    unfold get_bookings_user, try_catch, bind at 1, toArray.
    cbn [cur_filter csort cfind filter_ok successful_bookings forallb cond_ok
           snd andb negb cur_skip Z.ltb Z.compare cur_coll].
    change (run_cursor _ (coll Bookings s)) with (bookings_of email s).
    destruct (bookings_of email s) as [| b0 bs] eqn:Ebs.
    { destruct Hbad as (b & [] & _). }
    rewrite <- Ebs in *. unfold bind at 1.
    rewrite mapM_throw; [reflexivity | | ].
    + intros b Hb. destruct (Hstr b Hb) as (t & Ht).
      unfold new_ObjectId. rewrite Ht.
      destruct (ObjectId_from (VStr t)) as [o |]; [right; now exists o | now left].
    + destruct Hbad as (b & Hb & t & Ht & Hnone). exists b. split; [assumption |].
      unfold new_ObjectId. now rewrite Ht, Hnone.
Qed.
End bookings.

Definition kim_booking (trainerId : string) (t : Z) : doc :=
  [("_id", VId (Z.to_N (10 + t))); ("userEmail", VStr "kim@example.com");
   ("trainerId", VStr trainerId); ("status", VStr "success");
   ("createdAt", VDate t)].

Definition booked (bs : list doc) : db := mkDb [] [] [] [ann] [] [] bs [] 20.

(** C6 as stated fails: a successful booking whose [trainerId] is ["abc"]
    is not returned with a null [trainerDetails]; the answer is 500. *)
Lemma bookings_malformed_reference_fails :
  let s := booked [kim_booking "abc" 1] in
  List.filter (@matches node (successful_bookings "kim@example.com"))
    (bookings s) = [kim_booking "abc" 1] /\
  @get_bookings_user node "kim@example.com" s =
    (mkResponse 500 (error_body "Failed to fetch booked trainers"), s).
Proof. split; reflexivity. Qed.

(** Five bookings in no order: three of Kim's that succeeded (two name
    Ann, one names nobody), one of Kim's that did not, one of Lee's. *)
Definition five_bookings : db :=
  booked [kim_booking "000000000000000000000001" 2;
          set "status" (VStr "failed")
            (kim_booking "000000000000000000000001" 5);
          kim_booking "000000000000000000000002" 3;
          set "userEmail" (VStr "lee@example.com")
            (kim_booking "000000000000000000000001" 4);
          kim_booking "000000000000000000000001" 1].

(** C6, amended, on the five bookings: Kim's three successful ones, the
    newest first, with Ann or null as [trainerDetails]. *)
Lemma bookings_with_trainers_witness :
  @get_bookings_user node "kim@example.com" five_bookings =
    (json (docs [set "trainerDetails" VNull
                   (kim_booking "000000000000000000000002" 3);
                 set "trainerDetails" (VObj ann)
                   (kim_booking "000000000000000000000001" 2);
                 set "trainerDetails" (VObj ann)
                   (kim_booking "000000000000000000000001" 1)]),
     five_bookings) /\
  @descending node "createdAt"
    [kim_booking "000000000000000000000002" 3;
     kim_booking "000000000000000000000001" 2;
     kim_booking "000000000000000000000001" 1].
Proof.
  destruct (@bookings_with_trainers node "kim@example.com" five_bookings)
    as (_ & _ & Hdesc & Hget & _).
  split; [| exact (Hdesc value_leb_total)].
  rewrite Hget; [reflexivity | |].
  - intros t o [<- | []] [= <-]. reflexivity.
  - intros b Hb. vm_compute in Hb.
    destruct Hb as [<- | [<- | [<- | []]]].
    + exists "000000000000000000000002", 2%N. split; reflexivity.
    + exists "000000000000000000000001", 1%N. split; reflexivity.
    + exists "000000000000000000000001", 1%N. split; reflexivity.
Defined.

Example bookings_of_kim :
  fst (@get_bookings_user node "kim@example.com"
         (booked [kim_booking "000000000000000000000001" 1;
                  kim_booking "000000000000000000000002" 2])) =
    json (docs [set "trainerDetails" VNull
                  (kim_booking "000000000000000000000002" 2);
                set "trainerDetails" (VObj ann)
                  (kim_booking "000000000000000000000001" 1)]).
Proof. reflexivity. Qed.

(** ** Creating an entity and listing it *)

Section create.
Context {platform : Platform}.

Inductive resource : Type :=
| RUsers | RClasses | RTestimonials | RForum | RReviews | RSubscribers
| RBookings | RApplications.

(** The Create handler of a resource. *)
Definition create (r : resource) (now : Z) (body : doc)
  : db -> response * db :=
  match r with
  | RUsers => post_users body
  | RClasses => post_classes now body
  | RTestimonials => post_testimonials now body
  | RForum => post_forum body
  | RReviews => post_reviews now body
  | RSubscribers => post_newsletter_subscribe now body
  | RBookings => post_payments now body
  | RApplications => post_trainers_apply now body
  end.

Definition collection_of (r : resource) : collection :=
  match r with
  | RUsers => Users
  | RClasses => Classes
  | RTestimonials => Testimonials
  | RForum => Forum
  | RReviews => Reviews
  | RSubscribers => Subscriber
  | RBookings => Bookings
  | RApplications => Trainers
  end.

(** The fields each Create handler checks. *)
Definition required (r : resource) : list string :=
  match r with
  | RUsers => ["email"]
  | RClasses => ["name"; "image"; "details"]
  | RTestimonials => ["name"; "review"]
  | RSubscribers => ["name"; "email"]
  | RBookings => ["userEmail"; "trainerId"]
  | RForum | RReviews | RApplications => []
  end.

(** The status a successful Create sends: four handlers say 201, the other
    four answer with [res.json] alone. *)
Definition created_status (r : resource) : Z :=
  match r with
  | RUsers | RClasses | RTestimonials | RBookings => 201
  | RForum | RReviews | RSubscribers | RApplications => 200
  end.

(** The document a Create handler hands to [insertOne]. *)
Definition entity (r : resource) (now : Z) (body : doc) : doc :=
  match r with
  | RUsers => set "role" (VStr "member") body
  | RClasses =>
      set "totalBookings" (VNum (Fin 0)) (set "createdAt" (VDate now) body)
  | RTestimonials => set "createdAt" (VDate now) body
  | RForum => body
  | RReviews => set "createdAt" (VDate now) body
  | RSubscribers =>
      literal [("name", lookup "name" body); ("email", lookup "email" body);
               ("createdAt", Some (VDate now))]
  | RBookings =>
      set "createdAt" (VDate now) (set "status" (VStr "success") body)
  | RApplications => newTrainer now body
  end.

Definition email_of (body : doc) : filter :=
  [("email", as_cond (to_bson (lookup "email" body)))].

(** The email of the request is a value (a string, say), not an operator
    document that the store would run as a query. *)
Definition plain_email (body : doc) : Prop :=
  operator_document (to_bson (lookup "email" body)) = false.

(** No document of [l] has the email of the request. *)
Definition new_email (body : doc) (l : list doc) : Prop :=
  forall d, In d l ->
            field_eq (lookup "email" d) (to_bson (lookup "email" body)) = false.

(** A request that creates: the required fields are truthy; a body that is
    stored as it came brings no [_id] of its own; the email of a user or
    subscriber is a value and is new; a booking refers to its trainer by a
    string. *)
Definition acceptable (r : resource) (body : doc) (s : db) : Prop :=
  (forall k, In k (required r) -> truthy (lookup k body) = true) /\
  match r with
  | RUsers =>
      lookup "_id" body = None /\ plain_email body /\
      new_email body (users s)
  | RSubscribers => plain_email body /\ new_email body (subscriber s)
  | RBookings =>
      lookup "_id" body = None /\
      exists t, lookup "trainerId" body = Some (VStr t)
  | RApplications => True
  | RClasses | RTestimonials | RForum | RReviews => lookup "_id" body = None
  end.

(** A list response that carries [d]: status 200 and [d] in the array that
    is the body, or its [data] or [posts]. *)
Definition listed (resp : option response) (d : doc) : Prop :=
  exists r l,
    resp = Some r /\ status r = 200 /\ In d l /\
    (body r = docs l \/
     exists rest,
       body r = VObj (("data", docs l) :: rest) \/
       body r = VObj (("posts", docs l) :: rest)).

(** The List operation of each resource returns [d]; for the paginated
    ones, on some page. *)
Definition retrievable (r : resource) (d : doc) (s : db) : Prop :=
  match r with
  | RUsers => listed (Some (fst (get_users s))) d
  | RClasses =>
      exists p, 0 < p /\
        forall page, parseInt page = Fin p ->
                     listed (Some (fst (get_classes page None None s))) d
  | RTestimonials => listed (Some (fst (get_testimonials s))) d
  | RForum =>
      exists p, 0 < p /\
        forall page, parseInt page = Fin p ->
                     listed (Some (fst (get_forum page s))) d
  | RReviews => listed (Some (fst (get_reviews s))) d
  | RSubscribers => listed (Some (fst (get_newsletter_subscribers s))) d
  | RBookings =>
      exists t, lookup "trainerId" d = Some (VStr t) /\
                listed (fst (get_bookings_trainer t s)) d
  | RApplications => listed (Some (fst (get_trainers s))) d
  end.

Lemma insertOne_fresh (c : collection) (d : doc) (s : db) :
  lookup "_id" d = None ->
  insertOne c d s =
    (Ok (VId (next_oid s)),
     put c (coll c s ++ [("_id", VId (next_oid s)) :: d]) (bump_oid s)).
Proof. intro H. unfold insertOne. now rewrite H. Qed.

Lemma filter_all (l : list doc) : List.filter (matches []) l = l.
Proof.
  induction l as [| x l IH]; [reflexivity |].
  cbn [List.filter matches forallb]. now rewrite IH.
Qed.

Lemma page_cover {A} (l : list A) (x : A) :
  In x l ->
  exists p, 0 < p /\ In x (firstn 6 (skipn (Z.to_nat ((p - 1) * 6)) l)).
Proof.
  intro H. destruct (In_nth_error _ _ H) as [n Hn].
  exists (Z.of_nat (n / 6) + 1). split; [lia |].
  replace (Z.to_nat ((Z.of_nat (n / 6) + 1 - 1) * 6)) with (n / 6 * 6)%nat by lia.
  apply (nth_error_In _ (n mod 6)).
  rewrite nth_error_firstn.
  assert (Hlt : (n mod 6 < 6)%nat) by (apply Nat.mod_upper_bound; lia).
  apply Nat.ltb_lt in Hlt. rewrite Hlt, nth_error_skipn.
  replace (n / 6 * 6 + n mod 6)%nat with n; [assumption |].
  pose proof (Nat.div_mod_eq n 6). lia.
Qed.

Lemma or_num_positive (p d : Z) : 0 < p -> or_num (Fin p) d = p.
Proof.
  intro H. unfold or_num. destruct (Z.eqb p 0) eqn:E; [| reflexivity].
  apply Z.eqb_eq in E. lia.
Qed.

Lemma listed_all (k : string) (l : list doc) (d : doc) :
  In d l ->
  listed (Some (json (docs (sort_desc k (List.filter (matches []) l))))) d.
Proof.
  intro H. eexists _, _. repeat split; [| left; reflexivity].
  rewrite filter_all. now apply sort_desc_In.
Qed.

Lemma listed_page (key : string) (rest : list (string * value))
  (l : list doc) (d : doc) (p : Z) :
  key = "data" \/ key = "posts" ->
  In d (firstn 6 (skipn (Z.to_nat ((p - 1) * 6)) l)) ->
  listed (Some (json (VObj ((key, docs (take_limit 6 (skipn (Z.to_nat ((p - 1) * 6)) l))) :: rest)))) d.
Proof.
  intros Hkey H. eexists _, _. repeat split; [exact H |].
  right. exists rest. destruct Hkey as [-> | ->]; [left | right]; reflexivity.
Qed.

Lemma skip_not_negative (p : Z) : 0 < p -> Z.ltb ((p - 1) * 6) 0 = false.
Proof. intro H. apply Z.ltb_ge. lia. Qed.

Lemma last_In {A} (l : list A) (x : A) : In x (l ++ [x]).
Proof. apply in_or_app. right. now left. Qed.

Ltac required_truthy Hreq :=
  repeat match goal with
    | |- context [truthy (lookup ?k ?b)] =>
        rewrite (Hreq k) by (simpl; tauto)
    end;
  cbn [negb orb].

Lemma no_id_after_set (k : string) (v : value) (d : doc) :
  k <> "_id" -> lookup "_id" d = None -> lookup "_id" (set k v d) = None.
Proof. intros Hk H. now rewrite lookup_set_other. Qed.

Lemma email_of_plain (body : doc) :
  plain_email body ->
  email_of body = [("email", CEq (to_bson (lookup "email" body)))].
Proof. intro H. unfold email_of, as_cond. now rewrite H. Qed.

Lemma new_email_no_match (body : doc) (l : list doc) :
  plain_email body -> new_email body l ->
  forall d, In d l -> matches (email_of body) d = false.
Proof.
  intros Hplain Hnew d Hd. rewrite (email_of_plain _ Hplain).
  unfold matches. cbn [forallb fst snd cond_matches].
  now rewrite (Hnew d Hd).
Qed.

Lemma create_result (r : resource) (now : Z) (body : doc) (s : db) :
  acceptable r body s ->
  exists resp,
    create r now body s =
      (resp,
       put (collection_of r)
         (coll (collection_of r) s
          ++ [("_id", VId (next_oid s)) :: entity r now body])
         (bump_oid s)) /\
    status resp = created_status r.
Proof.
  destruct r; intros [Hreq Hacc]; cbn [required] in Hreq;
    cbn [create collection_of entity created_status].
  - destruct Hacc as (Hid & Hplain & Hnew).
    unfold post_users, try_catch, bind, findOne. required_truthy Hreq.
    fold (email_of body).
    replace (filter_ok (email_of body)) with true
      by (now rewrite (email_of_plain _ Hplain)).
    change (coll Users s) with (users s).
    rewrite (find_no_match _ _ (new_email_no_match _ _ Hplain Hnew)),
      insertOne_fresh
      by (apply no_id_after_set; [discriminate | assumption]).
    eexists. split; reflexivity.
  - unfold post_classes, try_catch, bind. required_truthy Hreq.
    rewrite insertOne_fresh
      by (repeat apply no_id_after_set; try discriminate; assumption).
    eexists. split; reflexivity.
  - unfold post_testimonials, try_catch, bind. required_truthy Hreq.
    rewrite insertOne_fresh
      by (repeat apply no_id_after_set; try discriminate; assumption).
    eexists. split; reflexivity.
  - unfold post_forum, try_catch, bind.
    rewrite insertOne_fresh by assumption.
    eexists. split; reflexivity.
  - unfold post_reviews, try_catch, bind.
    rewrite insertOne_fresh
      by (repeat apply no_id_after_set; try discriminate; assumption).
    eexists. split; reflexivity.
  - destruct Hacc as (Hplain & Hnew).
    unfold post_newsletter_subscribe, try_catch, bind, findOne.
    required_truthy Hreq. fold (email_of body).
    replace (filter_ok (email_of body)) with true
      by (now rewrite (email_of_plain _ Hplain)).
    change (coll Subscriber s) with (subscriber s).
    rewrite (find_no_match _ _ (new_email_no_match _ _ Hplain Hnew)),
      insertOne_fresh by reflexivity.
    eexists. split; reflexivity.
  - destruct Hacc as [Hid _].
    unfold post_payments, try_catch, bind. required_truthy Hreq.
    rewrite insertOne_fresh
      by (repeat apply no_id_after_set; try discriminate; assumption).
    eexists. split; reflexivity.
  - rewrite post_trainers_apply_inserts.
    eexists. split; reflexivity.
Qed.

Lemma retrievable_last (r : resource) (d : doc) (s : db) (l : list doc) :
  coll (collection_of r) s = l ++ [d] ->
  (r = RBookings -> exists t, lookup "trainerId" d = Some (VStr t)) ->
  retrievable r d s.
Proof.
  intros Hl Hb. pose proof (last_In l d) as Hin. rewrite <- Hl in Hin.
  destruct r; cbn [retrievable collection_of coll] in *.
  - unfold get_users, try_catch, bind, toArray.
    cbn [cur_filter cfind filter_ok forallb negb cur_skip Z.ltb Z.compare
           cur_coll fst ret].
    eexists _, _. repeat split; [| left; reflexivity].
    unfold run_cursor. cbn [cur_filter cur_sort cur_skip cur_limit cfind].
    rewrite filter_all. exact Hin.
  - assert (Hs : In d (sort_desc "createdAt" (List.filter (matches []) (classes s))))
      by (rewrite filter_all; now apply sort_desc_In).
    destruct (page_cover _ _ Hs) as (p & Hp & Hpage).
    exists p. split; [assumption |]. intros page Hparse.
    unfold get_classes, try_catch, bind, countDocuments, toArray.
    rewrite Hparse, (or_num_positive _ _ Hp).
    cbn [parseInt or_num String.eqb cur_filter cur_skip cur_coll climit cskip
           csort cfind filter_ok forallb negb ret fst].
    rewrite (skip_not_negative _ Hp).
    apply listed_page; [now left | exact Hpage].
  - apply listed_all. exact Hin.
  - assert (Hs : In d (sort_desc "createdAt" (List.filter (matches []) (forum s))))
      by (rewrite filter_all; now apply sort_desc_In).
    destruct (page_cover _ _ Hs) as (p & Hp & Hpage).
    exists p. split; [assumption |]. intros page Hparse.
    unfold get_forum, try_catch, bind, countDocuments, toArray.
    rewrite Hparse, (or_num_positive _ _ Hp).
    cbn [cur_filter cur_skip cur_coll climit cskip csort cfind filter_ok
           forallb negb ret fst].
    rewrite (skip_not_negative _ Hp).
    apply listed_page; [now right | exact Hpage].
  - apply listed_all. exact Hin.
  - apply listed_all. exact Hin.
  - destruct (Hb eq_refl) as (t & Ht). exists t. split; [assumption |].
    unfold get_bookings_trainer, uncaught, bind, toArray.
    cbn [cur_filter cfind filter_ok forallb cond_ok snd andb negb cur_skip
           Z.ltb Z.compare cur_coll fst ret].
    eexists _, _. repeat split; [| left; reflexivity].
    unfold run_cursor. cbn [cur_filter cur_sort cur_skip cur_limit cfind].
    apply filter_In. split; [exact Hin |].
    unfold matches. cbn [forallb fst snd cond_matches]. rewrite Ht.
    now rewrite field_eq_same.
  - apply listed_all. exact Hin.
Qed.

(** C4, as amended: a Create request with its required fields truthy (and,
    see [acceptable], no [_id] of its own, for users and subscribers an
    email that is a value and that no stored document has, a string
    [trainerId] for bookings) stores one document; the
    response status is 201 for Users, Classes, Testimonials and Bookings and
    200 for Forum, Reviews, Subscribers and trainer applications; and the
    List operation of the resource returns the stored document afterwards
    (on one of the pages, for Classes and Forum). *)
Theorem create_then_list (r : resource) (now : Z) (body : doc) (s : db) :
  acceptable r body s ->
  let d := ("_id", VId (next_oid s)) :: entity r now body in
  status (fst (create r now body s)) = created_status r /\
  snd (create r now body s) =
    put (collection_of r) (coll (collection_of r) s ++ [d]) (bump_oid s) /\
  retrievable r d (snd (create r now body s)).
Proof.
  intros Hacc d.
  destruct (create_result r now body s Hacc) as (resp & Hres & Hstatus).
  rewrite Hres. cbn [fst snd]. split; [assumption | split; [reflexivity |]].
  apply (retrievable_last r d _ (coll (collection_of r) s)).
  - apply coll_put_same.
  - intros ->. destruct Hacc as [_ [_ (t & Ht)]]. exists t.
    unfold d. cbn [entity lookup String.eqb Ascii.eqb Bool.eqb].
    rewrite !lookup_set_other by discriminate. exact Ht.
Qed.
End create.

Definition hello : doc := [("title", VStr "Hello"); ("author", VStr "kim")].

(** C4 as stated fails: a forum post is created and listed, but the
    response status is 200, not 201. *)
Lemma forum_create_answers_200 :
  acceptable RForum hello empty_db /\
  status (fst (@create node RForum 0 hello empty_db)) = 200 /\
  status (fst (@create node RForum 0 hello empty_db)) <> 201 /\
  @retrievable node RForum (("_id", VId 0) :: hello)
    (snd (@create node RForum 0 hello empty_db)).
Proof.
  split; [split; [intros k [] | reflexivity] |].
  split; [reflexivity | split; [discriminate |]].
  apply (@retrievable_last node RForum _ _ []); [reflexivity | discriminate].
Qed.

(** The other successful answers without 201, and two creations that fail
    although the checked fields are there: a body that brings a taken
    [_id], and a booking that no list route finds again. *)
Example other_creates_answer_200 :
  status (fst (@create node RReviews 0 [("rating", VNum (Fin 5))] empty_db)) = 200 /\
  status (fst (@create node RSubscribers 0
                 [("name", VStr "Kim"); ("email", VStr "kim@example.com")]
                 empty_db)) = 200 /\
  status (fst (@create node RApplications 0 ada_payload empty_db)) = 200.
Proof. repeat split. Qed.

Example create_with_taken_id :
  let s := one_user [("_id", VStr "u1"); ("email", VStr "bob@example.com")] in
  @post_users node [("_id", VStr "u1"); ("email", VStr "eve@example.com")] s =
    (mkResponse 500 (error_body "Failed to save user"), s).
Proof. reflexivity. Qed.

(** An email that is an operator document is a query to the store: with
    [{ $ne: "x" }] the handler finds Bob and registers nobody. *)
Example operator_email_finds_a_user :
  let body := [("email", VObj [("$ne", VStr "x")])] in
  status (fst (@post_users node body (one_user bob))) = 200 /\
  users (snd (@post_users node body (one_user bob))) =
    [set "role" (VStr "member") bob].
Proof. split; reflexivity. Qed.

Example booking_without_string_keys :
  let body := [("userEmail", VNum (Fin 7)); ("trainerId", VNum (Fin 5))] in
  let s' := snd (@create node RBookings 0 body empty_db) in
  status (fst (@create node RBookings 0 body empty_db)) = 201 /\
  (forall t, fst (@get_bookings_trainer node t s') = Some (json (docs []))) /\
  (forall e, fst (@get_bookings_user node e s') = json (docs [])).
Proof. cbv zeta. split; [reflexivity | split; intro; reflexivity]. Qed.

Definition pilates : doc :=
  [("name", VStr "Pilates"); ("image", VStr "pilates.png");
   ("details", VStr "Core strength")].

(** C4, amended, for a ninth class, and for a user whose email is new to
    a store that knows Bob. *)
Lemma create_then_list_witness :
  (let d := ("_id", VId (next_oid eight_classes))
            :: @entity node RClasses 100 pilates in
   status (fst (@create node RClasses 100 pilates eight_classes)) = 201 /\
   snd (@create node RClasses 100 pilates eight_classes) =
     put Classes (classes eight_classes ++ [d]) (bump_oid eight_classes) /\
   @retrievable node RClasses d
     (snd (@create node RClasses 100 pilates eight_classes))) /\
  (let body := [("email", VStr "eve@example.com")] in
   let d := ("_id", VId 2) :: @entity node RUsers 100 body in
   status (fst (@create node RUsers 100 body (one_user bob))) = 201 /\
   snd (@create node RUsers 100 body (one_user bob)) =
     put Users [bob; d] (bump_oid (one_user bob)) /\
   @retrievable node RUsers d
     (snd (@create node RUsers 100 body (one_user bob)))).
Proof.
  split.
  - apply (@create_then_list node RClasses 100 pilates eight_classes).
    split; [| reflexivity].
    intros k Hk. simpl in Hk.
    destruct Hk as [<- | [<- | [<- | []]]]; reflexivity.
  - apply (@create_then_list node RUsers 100
             [("email", VStr "eve@example.com")] (one_user bob)).
    split; [| split; [reflexivity | split; [reflexivity |]]].
    + intros k [<- | []]. reflexivity.
    + intros d [<- | []]. reflexivity.
Defined.

Example ninth_class_on_first_page :
  fst (@get_classes node None None None
         (snd (@create node RClasses 100 pilates eight_classes))) =
    json (VObj [("data",
                  docs [("_id", VId 9) :: @entity node RClasses 100 pilates;
                        class_at 8; class_at 7; class_at 6; class_at 5;
                        class_at 4]);
                ("currentPage", VNum (Fin 1));
                ("totalPages", VNum (Fin 2));
                ("totalClasses", VNum (Fin 9))]).
Proof. reflexivity. Qed.

(** ** The application workflow of the earlier copy *)

Section earlier.
Context {platform : Platform}.

(** The earlier Submit stores the payload unchanged but for [status], which
    is always ["pending"]; nothing is coerced or defaulted. *)
Lemma submit_earlier_stores_body (body : doc) (s : db) :
  lookup "_id" body = None ->
  let d := ("_id", VId (next_oid s)) :: set "status" (VStr "pending") body in
  post_trainers_apply_earlier body s =
    (json (VObj [success; message "Trainer application submitted!"]),
     put Trainers (trainers s ++ [d]) (bump_oid s)) /\
  lookup "status" d = Some (VStr "pending") /\
  (forall k, k <> "status" -> k <> "_id" -> lookup k d = lookup k body).
Proof.
  intros Hid d. split; [| split].
  - unfold post_trainers_apply_earlier, try_catch, bind.
    rewrite insertOne_fresh
      by (apply no_id_after_set; [discriminate | assumption]).
    reflexivity.
  - unfold d. cbn [lookup String.eqb Ascii.eqb Bool.eqb].
    apply lookup_set_same.
  - intros k Hk Hk'. unfold d. cbn [lookup].
    destruct (String.eqb k "_id") eqn:E.
    + apply String.eqb_eq in E. contradiction.
    + apply lookup_set_other. congruence.
Qed.

(** The earlier Approve carries over name, email, image, experience and
    details only. *)
Lemma approved_earlier_drops_fields (now : Z) (d : doc) (k : string) :
  In k ["age"; "expertise"; "availableDays"; "availableSlots"; "socials"] ->
  lookup k (approved_earlier now d) = None.
Proof.
  intro Hk. simpl in Hk.
  destruct Hk as [<- | [<- | [<- | [<- | [<- | []]]]]]; reflexivity.
Qed.
End earlier.

(** ** The identifiers of a collection stay unique

    The hypotheses [key_unique] and [generator_ahead] of the theorems above
    hold in the empty store and are kept by the store operations the
    application workflow uses. *)

Section identifiers.
Context {platform : Platform}.

(** Unique identifiers, all of them behind the generator. *)
Definition wf_ids (n : N) (l : list doc) : Prop :=
  key_unique l /\
  forall d o, In d l -> matches (by_id o) d = true -> (o < n)%N.



Lemma key_unique_app_last (l : list doc) (x : doc) :
  key_unique l ->
  (forall o d, matches (by_id o) x = true -> In d l ->
               matches (by_id o) d = false) ->
  key_unique (l ++ [x]).
Proof.
  induction l as [| a l IH]; cbn [key_unique app]; intros Hl Hx.
  - split; [intros o y _ [] | exact I].
  - destruct Hl as [Ha Hl]. split.
    + intros o y Hm Hy. apply in_app_or in Hy. destruct Hy as [Hy | [<- | []]].
      * now apply (Ha o).
      * destruct (matches (by_id o) x) eqn:E; [| reflexivity].
        rewrite (Hx o a E (or_introl eq_refl)) in Hm. discriminate.
    + apply IH; [assumption |]. intros o d Hm Hd. apply (Hx o d Hm). now right.
Qed.


Lemma key_unique_remove (l1 : list doc) (d : doc) (l2 : list doc) :
  key_unique (l1 ++ d :: l2) -> key_unique (l1 ++ l2).
Proof.
  induction l1 as [| a l1 IH]; cbn [key_unique app].
  - now intros [_ H].
  - intros [Ha Hu]. split; [| now apply IH].
    intros o y Hm Hy. apply (Ha o y Hm).
    apply in_app_or in Hy. apply in_or_app.
    destruct Hy as [Hy | Hy]; [now left | right; now right].
Qed.

(** [insertOne] of a document without [_id]. *)
Lemma wf_ids_insert (n : N) (l : list doc) (d : doc) :
  wf_ids n l -> wf_ids (N.succ n) (l ++ [("_id", VId n) :: d]).
Proof.
  intros [Hu Hn].
  assert (Hnew : forall o, matches (by_id o) (("_id", VId n) :: d) = true -> o = n).
  { intros o. rewrite matches_by_id. cbn [lookup String.eqb Ascii.eqb Bool.eqb].
    unfold field_eq. cbn [value_eqb]. rewrite orb_false_r.
    intro E. apply N.eqb_eq in E. congruence. }
  split.
  - apply key_unique_app_last; [assumption |].
    intros o x Hm Hx. apply Hnew in Hm. subst o.
    destruct (matches (by_id n) x) eqn:E; [| reflexivity].
    specialize (Hn x n Hx E). lia.
  - intros x o Hx Hm. apply in_app_or in Hx. destruct Hx as [Hx | [<- | []]].
    + specialize (Hn x o Hx Hm). lia.
    + apply Hnew in Hm. lia.
Qed.


(** [deleteOne]. *)
Lemma wf_ids_delete (n : N) (l1 : list doc) (d : doc) (l2 : list doc) :
  wf_ids n (l1 ++ d :: l2) -> wf_ids n (l1 ++ l2).
Proof.
  intros [Hu Hn]. split; [now apply key_unique_remove in Hu |].
  intros x o Hx Hm. apply (Hn x o); [| assumption].
  apply in_app_or in Hx. apply in_or_app.
  destruct Hx as [Hx | Hx]; [now left | right; now right].
Qed.

(** Submit and Approve keep the trainers collection well-formed. *)
Lemma submit_keeps_wf_ids (now : Z) (body : doc) (s : db) :
  wf_ids (next_oid s) (trainers s) ->
  let s' := snd (post_trainers_apply now body s) in
  wf_ids (next_oid s') (trainers s').
Proof.
  intros H s'. unfold s'. rewrite post_trainers_apply_inserts. cbn [snd].
  change (trainers (put Trainers ?l ?x)) with (coll Trainers (put Trainers l x)).
  rewrite coll_put_same, next_oid_put. now apply wf_ids_insert.
Qed.

Lemma approve_keeps_wf_ids (now : Z) (id : string) (s : db) (o : N)
  (l1 : list doc) (d : doc) (l2 : list doc) :
  ObjectId_from (VStr id) = Some o ->
  first_match (by_id o) (trainers s) l1 d l2 ->
  wf_ids (next_oid s) (trainers s) ->
  let s' := snd (patch_applications_confirm now id s) in
  wf_ids (next_oid s') (trainers s').
Proof.
  intros Hid Hfirst H s'. unfold s'.
  rewrite (confirm_result now id s o l1 d l2 Hid Hfirst). cbn [snd].
  change (trainers (put Trainers ?l ?x)) with (coll Trainers (put Trainers l x)).
  rewrite coll_put_same, next_oid_put, app_assoc.
  apply wf_ids_insert. apply (wf_ids_delete _ l1 d l2).
  destruct Hfirst as (<- & _). exact H.
Qed.
End identifiers.

(** * The remaining routes of index.js *)

Section more_handlers.
Context {platform : Platform}.

(** GET /classes/featured *)
Definition get_classes_featured : db -> response * db :=
  try_catch
    (featuredClasses <-
       toArray (climit 6 (csort "totalBookings" (cfind Classes []))) ;;
     ret (json (docs featuredClasses)))
    (status_json 500 (error_body "Failed to fetch featured classes")).

(** GET /trainers/:id *)
Definition get_trainers_id (id : string) : db -> response * db :=
  try_catch
    (oid <- new_ObjectId (Some (VStr id)) ;;
     trainer <- findOne Trainers (by_id oid) ;;
     match trainer with
     | None => ret (status_json 404 (error_body "Trainer not found"))
     | Some trainer => ret (json (VObj trainer))
     end)
    (status_json 500 (error_body "Failed to fetch trainer")).

(** [{ _id: new ObjectId(id), status: "pending" }]. *)
Definition pending_by_id (o : N) : filter :=
  [("_id", CEq (VId o)); ("status", CEq (VStr "pending"))].

(** GET /trainers/applications/:id *)
Definition get_trainers_applications_id (id : string) : db -> response * db :=
  try_catch
    (oid <- new_ObjectId (Some (VStr id)) ;;
     applicant <- findOne Trainers (pending_by_id oid) ;;
     match applicant with
     | None => ret (status_json 404 (error_body "Applicant not found"))
     | Some applicant => ret (json (VObj applicant))
     end)
    (status_json 500 (error_body "Failed to fetch applicant details")).

(** [{ status: { $in: ["pending", "rejected"] } }]. *)
Definition pending_or_rejected : filter :=
  [("status", CIn [VStr "pending"; VStr "rejected"])].

(** GET /trainers/applications/status/filter *)
Definition get_trainers_applications_status_filter : db -> response * db :=
  try_catch
    (applications <-
       toArray (csort "createdAt" (cfind Trainers pending_or_rejected)) ;;
     ret (json (docs applications)))
    (status_json 500
       (error_body "Failed to fetch filtered trainer applications")).

(** The [userDoc] of PATCH /trainers/:id/remove-trainer. *)
Definition userDoc (now : Z) (trainer : doc) : doc :=
  literal
    [("name", lookup "name" trainer);
     ("email", lookup "email" trainer);
     ("image", Some (or_else (lookup "image" trainer) (VStr "")));
     ("role", Some (VStr "member"));
     ("createdAt", Some (VDate now))].

(** PATCH /trainers/:id/remove-trainer *)
Definition patch_trainers_remove_trainer (now : Z) (id : string)
  : db -> response * db :=
  try_catch
    (let trainerId := id in
     oid <- new_ObjectId (Some (VStr trainerId)) ;;
     trainer <- findOne Trainers (by_id oid) ;;
     match trainer with
     | None => ret (status_json 404 (VObj [message "Trainer not found"]))
     | Some trainer =>
         _ <- insertOne Users (userDoc now trainer) ;;
         oid' <- new_ObjectId (Some (VStr trainerId)) ;;
         _ <- deleteOne Trainers (by_id oid') ;;
         ret (json (VObj [success;
                          message "Trainer removed and converted to member successfully"]))
     end)
    (status_json 500 (error_body "Failed to remove trainer")).

(** The integer [splice] makes of its [start] argument: a number is
    truncated (NaN is 0), [undefined] is 0, anything else goes through
    [Number]. *)
Definition to_integer (x : jsval) : Z :=
  match x with
  | None => 0
  | Some (VNum NaN) => 0
  | Some (VNum (Fin z)) => z
  | Some v => match js_Number (Some v) with NaN => 0 | Fin z => z end
  end.

(** [a.splice(start, 1)]: what is left of [a].  A negative [start] counts
    from the end; a [start] at or past the end removes nothing. *)
Definition splice_one (start : Z) (a : list value) : list value :=
  let len := Z.of_nat (List.length a) in
  let actualStart :=
    if Z.ltb start 0 then Z.max (len + start) 0 else Z.min start len in
  firstn (Z.to_nat actualStart) a ++ skipn (S (Z.to_nat actualStart)) a.

(** PATCH /trainers/:id/remove-slot; [splice] on anything but an array
    throws. *)
Definition patch_trainers_remove_slot (id : string) (body : doc)
  : db -> response * db :=
  try_catch
    (let slotIndex := lookup "slotIndex" body in
     oid <- new_ObjectId (Some (VStr id)) ;;
     trainer <- findOne Trainers (by_id oid) ;;
     match trainer with
     | None => ret (status_json 404 (error_body "Trainer not found"))
     | Some trainer =>
         match lookup "availableSlots" trainer with
         | Some (VArr availableSlots) =>
             let availableSlots :=
               splice_one (to_integer slotIndex) availableSlots in
             oid' <- new_ObjectId (Some (VStr id)) ;;
             _ <- updateOne Trainers (by_id oid')
                    (USet [("availableSlots", VArr availableSlots)]) ;;
             ret (json (VObj [success; message "Slot removed successfully"]))
         | _ => throw
         end
     end)
    (status_json 500 (error_body "Failed to remove slot")).

(** GET /reviews/trainer/:trainerId *)
Definition get_reviews_trainer (trainerId : string) : db -> response * db :=
  try_catch
    (reviews <-
       toArray (cfind Reviews [("trainerId", CEq (VStr trainerId))]) ;;
     ret (json (docs reviews)))
    (status_json 500 (error_body "Failed to fetch reviews")).

End more_handlers.

(** * Routing

    The router tries the registered routes in the order of the [app.get],
    [app.post], [app.patch] and [app.delete] calls and runs the first whose
    method and path pattern match (no handler passes the request on).  A
    path is the list of its non-empty segments; a literal segment matches
    without regard to case, a [:name] segment matches any one segment. *)

Inductive method : Type := GET | POST | PATCH | DELETE.

Inductive segment : Type :=
| Lit (s : string)
| Par (name : string).

(** One name per registered handler. *)
Inductive route : Type :=
| GetUsers | PostUsers | PostTestimonials | GetTestimonials | PostClasses
| GetClasses | GetClassesFeatured | PostTrainers | GetTrainers | GetTrainersId
| GetForum | PatchForumVote | PostTrainersApply | GetTrainersApplications
| GetTrainersApplicationsPending | GetTrainersApplicationsId
| PatchApplicationsConfirm | PatchApplicationsReject
| PostNewsletterSubscribe | GetNewsletterSubscribers
| PatchTrainersRemoveTrainer | PostPayments | GetTrainersByEmail
| GetBookingsTrainer | DeleteTrainersSlots | GetTrainersEmail
| PatchTrainersRemoveSlot | PatchTrainersAddSlot | PostTrainersSlots
| PostForum | GetTrainersApplicationsStatusFilter | PostReviews
| GetReviewsTrainer | GetReviews | GetBookingsUser | GetRoot.

(** The registrations of index.js, in source order. *)
Definition routes : list (method * list segment * route) :=
  [(GET, [Lit "users"], GetUsers);
   (POST, [Lit "users"], PostUsers);
   (POST, [Lit "testimonials"], PostTestimonials);
   (GET, [Lit "testimonials"], GetTestimonials);
   (POST, [Lit "classes"], PostClasses);
   (GET, [Lit "classes"], GetClasses);
   (GET, [Lit "classes"; Lit "featured"], GetClassesFeatured);
   (POST, [Lit "trainers"], PostTrainers);
   (GET, [Lit "trainers"], GetTrainers);
   (GET, [Lit "trainers"; Par "id"], GetTrainersId);
   (GET, [Lit "forum"], GetForum);
   (PATCH, [Lit "forum"; Par "id"; Lit "vote"], PatchForumVote);
   (POST, [Lit "trainers"; Lit "apply"], PostTrainersApply);
   (GET, [Lit "trainers"; Lit "applications"], GetTrainersApplications);
   (GET, [Lit "trainers"; Lit "applications"; Lit "pending"],
     GetTrainersApplicationsPending);
   (GET, [Lit "trainers"; Lit "applications"; Par "id"],
     GetTrainersApplicationsId);
   (PATCH, [Lit "trainers"; Lit "applications"; Par "id"; Lit "confirm"],
     PatchApplicationsConfirm);
   (PATCH, [Lit "trainers"; Lit "applications"; Par "id"; Lit "reject"],
     PatchApplicationsReject);
   (POST, [Lit "newsletter"; Lit "subscribe"], PostNewsletterSubscribe);
   (GET, [Lit "newsletter"; Lit "subscribers"], GetNewsletterSubscribers);
   (PATCH, [Lit "trainers"; Par "id"; Lit "remove-trainer"],
     PatchTrainersRemoveTrainer);
   (POST, [Lit "payments"], PostPayments);
   (GET, [Lit "trainers"; Lit "by-email"; Par "email"], GetTrainersByEmail);
   (GET, [Lit "bookings"; Lit "trainer"; Par "trainerId"], GetBookingsTrainer);
   (DELETE, [Lit "trainers"; Par "trainerId"; Lit "slots"], DeleteTrainersSlots);
   (GET, [Lit "trainers"; Lit "email"; Par "email"], GetTrainersEmail);
   (PATCH, [Lit "trainers"; Par "id"; Lit "remove-slot"],
     PatchTrainersRemoveSlot);
   (PATCH, [Lit "trainers"; Par "id"; Lit "add-slot"], PatchTrainersAddSlot);
   (POST, [Lit "trainers"; Par "id"; Lit "slots"], PostTrainersSlots);
   (POST, [Lit "forum"], PostForum);
   (GET, [Lit "trainers"; Lit "applications"; Lit "status"; Lit "filter"],
     GetTrainersApplicationsStatusFilter);
   (POST, [Lit "reviews"], PostReviews);
   (GET, [Lit "reviews"; Lit "trainer"; Par "trainerId"], GetReviewsTrainer);
   (GET, [Lit "reviews"], GetReviews);
   (GET, [Lit "bookings"; Lit "user"; Par "email"], GetBookingsUser);
   (GET, [], GetRoot)].

Definition method_eqb (a b : method) : bool :=
  match a, b with
  | GET, GET | POST, POST | PATCH, PATCH | DELETE, DELETE => true
  | _, _ => false
  end.

(** The parameters a pattern binds on a path; [None] when it does not
    match. *)
Fixpoint match_path (pattern : list segment) (path : list string)
  : option (list (string * string)) :=
  match pattern, path with
  | [], [] => Some []
  | Lit s :: pattern', x :: path' =>
      if String.eqb (lower_string x) (lower_string s)
      then match_path pattern' path'
      else None
  | Par name :: pattern', x :: path' =>
      match match_path pattern' path' with
      | Some params => Some ((name, x) :: params)
      | None => None
      end
  | _, _ => None
  end.

Fixpoint resolve_in (table : list (method * list segment * route))
  (m : method) (path : list string)
  : option (route * list (string * string)) :=
  match table with
  | [] => None
  | (m', pattern, r) :: table' =>
      if method_eqb m m' then
        match match_path pattern path with
        | Some params => Some (r, params)
        | None => resolve_in table' m path
        end
      else resolve_in table' m path
  end.

(** The handler a request reaches, with its path parameters. *)
Definition resolve (m : method) (path : list string)
  : option (route * list (string * string)) :=
  resolve_in routes m path.

(** The path of a pattern with its parameters filled in. *)
Fixpoint fill (pattern : list segment) (args : list string) : list string :=
  match pattern with
  | [] => []
  | Lit s :: pattern' => s :: fill pattern' args
  | Par _ :: pattern' =>
      match args with
      | x :: args' => x :: fill pattern' args'
      | [] => "" :: fill pattern' []
      end
  end.

Fixpoint params_of (pattern : list segment) (args : list string)
  : list (string * string) :=
  match pattern with
  | [] => []
  | Lit _ :: pattern' => params_of pattern' args
  | Par name :: pattern' =>
      match args with
      | x :: args' => (name, x) :: params_of pattern' args'
      | [] => (name, "") :: params_of pattern' []
      end
  end.

Fixpoint count_params (pattern : list segment) : nat :=
  match pattern with
  | [] => O
  | Lit _ :: pattern' => count_params pattern'
  | Par _ :: pattern' => S (count_params pattern')
  end.

(** Equal without regard to case. *)
Definition same_word (a b : string) : bool :=
  String.eqb (lower_string a) (lower_string b).

Ltac split_tests :=
  repeat match goal with
    | |- context [if String.eqb ?a ?b then _ else _] =>
        destruct (String.eqb a b) eqn:?
    end.

Ltac closed_tests :=
  repeat match goal with
    | |- context [String.eqb (lower_string ?a) (lower_string ?b)] =>
        tryif is_var a then fail else
          (let v := eval vm_compute in
                    (String.eqb (lower_string a) (lower_string b)) in
           change (String.eqb (lower_string a) (lower_string b)) with v;
           cbn -[lower_string String.eqb])
    end.

Ltac open_tests :=
  repeat (match goal with
          | |- context [String.eqb ?a ?b] => destruct (String.eqb a b)
          end;
          cbn -[lower_string String.eqb]; closed_tests).

Lemma method_eqb_eq (a b : method) : method_eqb a b = true -> a = b.
Proof. destruct a, b; simpl; intro H; try discriminate; reflexivity. Qed.

Definition route_eq_dec (a b : route) : {a = b} + {a <> b}.
Proof. decide equality. Defined.

(** [p1] matches every path that [p2] matches. *)
Fixpoint shadows (p1 p2 : list segment) : bool :=
  match p1, p2 with
  | [], [] => true
  | Par _ :: p1', _ :: p2' => shadows p1' p2'
  | Lit a :: p1', Lit b :: p2' => same_word a b && shadows p1' p2'
  | _, _ => false
  end.

(** No entry of [table] for route [r] is the first to match: each comes
    after an entry ([seen] holds the earlier ones) of the same method whose
    pattern shadows it. *)
Fixpoint never_first (seen : list (method * list segment))
  (table : list (method * list segment * route)) (r : route) : bool :=
  match table with
  | [] => true
  | (m, p, r') :: table' =>
      (if route_eq_dec r' r
       then existsb (fun e => method_eqb m (fst e) && shadows (snd e) p) seen
       else true)
      && never_first (seen ++ [(m, p)]) table' r
  end.

Lemma shadows_match (p1 p2 : list segment) (path : list string) :
  shadows p1 p2 = true ->
  match_path p2 path <> None -> match_path p1 path <> None.
Proof.
  revert p2 path.
  induction p1 as [| [a | n] p1 IH]; intros [| [b | n'] p2] path Hs;
    cbn [shadows] in Hs; try discriminate; try exact (fun H => H).
  - apply andb_true_iff in Hs. destruct Hs as [Hab Hs].
    unfold same_word in Hab. apply String.eqb_eq in Hab.
    destruct path as [| x path]; cbn [match_path]; [exact (fun H => H) |].
    rewrite Hab.
    destruct (String.eqb (lower_string x) (lower_string b)); [| exact (fun H => H)].
    now apply IH.
  - destruct path as [| x path]; cbn [match_path]; [exact (fun H => H) |].
    destruct (String.eqb (lower_string x) (lower_string b)); [| intro H; now contradiction H].
    intro H. specialize (IH p2 path Hs H).
    now destruct (match_path p1 path).
  - destruct path as [| x path]; cbn [match_path]; [exact (fun H => H) |].
    intro H.
    assert (H' : match_path p2 path <> None) by now destruct (match_path p2 path).
    specialize (IH p2 path Hs H'). now destruct (match_path p1 path).
Qed.

Lemma never_first_sound (m : method) (path : list string) (r : route)
  (table : list (method * list segment * route)) :
  forall seen,
    (forall p1, In (m, p1) seen -> match_path p1 path = None) ->
    never_first seen table r = true ->
    forall params, resolve_in table m path <> Some (r, params).
Proof.
  induction table as [| [[m' p] r'] table IH]; intros seen Hseen Hnf params;
    cbn [resolve_in]; [discriminate |].
  cbn [never_first] in Hnf. apply andb_true_iff in Hnf. destruct Hnf as [Hr Hnf].
  destruct (method_eqb m m') eqn:Em.
  - apply method_eqb_eq in Em. subst m'.
    destruct (match_path p path) as [ps |] eqn:Ep.
    + intros [= -> _]. destruct (route_eq_dec r r) as [_ | Hne]; [| now apply Hne].
      apply existsb_exists in Hr. destruct Hr as ([m1 p1] & Hin & Hsh).
      cbn [fst snd] in Hsh. apply andb_true_iff in Hsh. destruct Hsh as [Hm Hsh].
      apply method_eqb_eq in Hm. subst m1.
      apply (shadows_match p1 p path Hsh); [congruence | now apply Hseen].
    + apply (IH (seen ++ [(m, p)])); [| assumption].
      intros p1 Hin. apply in_app_or in Hin.
      destruct Hin as [Hin | [[= <-] | []]]; [now apply Hseen | assumption].
  - apply (IH (seen ++ [(m', p)])); [| assumption].
    intros p1 Hin. apply in_app_or in Hin.
    destruct Hin as [Hin | [[= E _] | []]]; [now apply Hseen |].
    subst m'. destruct m; discriminate.
Qed.

(** X1: no request reaches the handler registered for GET
    /trainers/applications (the applications of one email): GET /trainers/:id
    is registered before it and matches the same paths, so such a request
    runs the trainer-by-id handler with [id = "applications"]. *)
Theorem applications_by_email_unreachable (m : method) (path : list string) :
  (forall params, resolve m path <> Some (GetTrainersApplications, params)) /\
  (forall x y,
     path = [x; y] ->
     match_path [Lit "trainers"; Lit "applications"] path = Some [] ->
     resolve GET path = Some (GetTrainersId, [("id", y)])).
Proof.
  split.
  - apply (never_first_sound m path GetTrainersApplications routes []);
      [intros p1 [] | vm_compute; reflexivity].
  - intros x y -> H. cbn -[lower_string String.eqb] in H.
    destruct (String.eqb (lower_string x) (lower_string "trainers")) eqn:Ex;
      [| discriminate].
    destruct (String.eqb (lower_string y) (lower_string "applications")) eqn:Ey;
      [| discriminate].
    apply String.eqb_eq in Ex. apply String.eqb_eq in Ey.
    unfold resolve, routes. cbn -[lower_string String.eqb].
    rewrite Ex. closed_tests. reflexivity.
Qed.

Lemma applications_by_email_unreachable_witness :
  resolve GET ["trainers"; "Applications"] =
    Some (GetTrainersId, [("id", "Applications")]).
Proof.
  apply (proj2 (applications_by_email_unreachable GET
                  ["trainers"; "Applications"]) "trainers" "Applications");
    reflexivity.
Defined.

(** X2: every other registered route is reached by the paths of its own
    pattern, with the path parameters bound to the segments given; the one
    exception is GET /trainers/applications/:id for [id = "pending"], which
    is the pending list. *)
Theorem registered_routes_reached (m : method) (pattern : list segment)
  (r : route) (args : list string) :
  In (m, pattern, r) routes ->
  r <> GetTrainersApplications ->
  List.length args = count_params pattern ->
  (r = GetTrainersApplicationsId ->
   forall x, args = [x] -> same_word x "pending" = false) ->
  resolve m (fill pattern args) = Some (r, params_of pattern args).
Proof.
  intros Hin Hne Hlen Hpending. unfold routes in Hin. simpl in Hin.
  unfold same_word in Hpending.
  repeat (destruct Hin as [Hin | Hin];
          [injection Hin as <- <- <-;
           cbn [count_params] in Hlen;
           repeat (destruct args as [| ? args]; try discriminate Hlen);
           try (contradiction Hne; reflexivity);
           unfold resolve, routes; cbn -[lower_string String.eqb];
           closed_tests;
           try rewrite (Hpending eq_refl _ eq_refl);
           open_tests;
           reflexivity |]).
  destruct Hin.
Qed.

(** X2 for the reject route and an application id. *)
Lemma registered_routes_reached_witness :
  resolve PATCH
    (fill [Lit "trainers"; Lit "applications"; Par "id"; Lit "reject"]
       ["64b7f0c2a1d3e4f5a6b7c8d9"]) =
    Some (PatchApplicationsReject,
          params_of [Lit "trainers"; Lit "applications"; Par "id"; Lit "reject"]
            ["64b7f0c2a1d3e4f5a6b7c8d9"]).
Proof.
  apply (registered_routes_reached PATCH
           [Lit "trainers"; Lit "applications"; Par "id"; Lit "reject"]
           PatchApplicationsReject ["64b7f0c2a1d3e4f5a6b7c8d9"]).
  - unfold routes. simpl. do 17 right. left. reflexivity.
  - discriminate.
  - reflexivity.
  - discriminate.
Defined.

Example pending_is_not_an_id :
  resolve GET ["trainers"; "applications"; "Pending"] =
    Some (GetTrainersApplicationsPending, []).
Proof. reflexivity. Qed.

(** * Validation and repeated requests *)

Section validation.
Context {platform : Platform}.

(** One of the fields is missing or falsy. *)
Definition lacks (fields : list string) (body : doc) : Prop :=
  exists k, In k fields /\ truthy (lookup k body) = false.

Ltac missing_field H :=
  let k := fresh "k" in
  let Hk := fresh "Hk" in
  let Hf := fresh "Hf" in
  destruct H as (k & Hk & Hf); cbn [In] in Hk;
  repeat (destruct Hk as [<- | Hk]; [rewrite Hf; cbn [negb orb];
                                     rewrite ?orb_true_r; reflexivity |]);
  destruct Hk.

(** X3: each Create handler that checks fields answers 400 and leaves the
    store as it is when one of them is missing or falsy (an empty string,
    0, false or null count as missing). *)
Theorem create_rejects_missing_field (now : Z) (body : doc) (s : db) :
  (lacks ["email"] body ->
   post_users body s = (status_json 400 (error_body "Email is required"), s)) /\
  (lacks ["name"; "review"] body ->
   post_testimonials now body s =
     (status_json 400 (error_body "Name and review are required"), s)) /\
  (lacks ["name"; "image"; "details"] body ->
   post_classes now body s =
     (status_json 400
        (error_body "Class name, image, and details are required"), s)) /\
  (lacks ["name"; "image"; "experience"] body ->
   post_trainers now body s =
     (status_json 400
        (error_body "Name, image, and experience are required"), s)) /\
  (lacks ["name"; "email"] body ->
   post_newsletter_subscribe now body s =
     (status_json 400 (error_body "Name and email are required"), s)) /\
  (lacks ["userEmail"; "trainerId"] body ->
   post_payments now body s =
     (status_json 400 (error_body "Invalid booking data"), s)).
Proof.
  repeat apply conj; intro H.
  - unfold post_users, try_catch. missing_field H.
  - unfold post_testimonials, try_catch. missing_field H.
  - unfold post_classes, try_catch. missing_field H.
  - unfold post_trainers, try_catch. missing_field H.
  - unfold post_newsletter_subscribe, try_catch. missing_field H.
  - unfold post_payments, try_catch. missing_field H.
Qed.

(** What [insertOne] does: it throws and changes nothing, or it appends one
    document that has the fields handed in (but for [_id]). *)
Lemma insertOne_cases (c : collection) (d : doc) (s : db) :
  insertOne c d s = (Throw, s) \/
  exists id d' s0,
    insertOne c d s = (Ok id, put c (coll c s ++ [d']) s0) /\
    (s0 = s \/ s0 = bump_oid s) /\
    (forall k, k <> "_id" -> lookup k d' = lookup k d).
Proof.
  unfold insertOne.
  destruct (lookup "_id" d) as [[| b | n | str | l | o | t | o] |] eqn:E;
    try (destruct (existsb _ (coll c s)); [now left |];
         right; eexists _, d, s; split; [reflexivity |];
         split; [now left | reflexivity]).
  - right. eexists _, _, _. split; [reflexivity |]. split; [now right |].
    intros k Hk. apply lookup_set_other. congruence.
  - now left.
  - right. eexists _, _, _. split; [reflexivity |]. split; [now right |].
    intros k Hk. cbn [lookup].
    destruct (String.eqb k "_id") eqn:Ek; [| reflexivity].
    apply String.eqb_eq in Ek. contradiction.
Qed.

Lemma users_put_users (l : list doc) (s : db) : users (put Users l s) = l.
Proof. apply (coll_put_same Users). Qed.

Lemma with_role_stable (d : doc) : with_role (with_role d) = with_role d.
Proof.
  unfold with_role at 2 3. destruct (truthy (lookup "role" d)) eqn:E.
  - unfold with_role. now rewrite E.
  - unfold with_role. now rewrite lookup_set_same.
Qed.

Lemma with_role_keeps_email (d : doc) :
  lookup "email" (with_role d) = lookup "email" d.
Proof.
  unfold with_role. destruct (truthy (lookup "role" d)); [reflexivity |].
  apply lookup_set_other. discriminate.
Qed.

Lemma matches_email_of (body d d' : doc) :
  lookup "email" d' = lookup "email" d ->
  matches (email_of body) d' = matches (email_of body) d.
Proof. intro H. unfold matches, email_of. cbn [forallb fst snd]. now rewrite H. Qed.

(** POST /users for an email some document matches. *)
Lemma post_users_existing (body : doc) (s : db) (l1 : list doc) (d0 : doc)
  (l2 : list doc) :
  truthy (lookup "email" body) = true ->
  filter_ok (email_of body) = true ->
  first_match (email_of body) (users s) l1 d0 l2 ->
  post_users body s =
    (status_json 200
       (VObj [message "User already exists"; ("user", VObj (with_role d0))]),
     put Users (l1 ++ with_role d0 :: l2) s).
Proof.
  intros Ht Hok Hfirst.
  unfold post_users, try_catch, bind, findOne, updateOne.
  rewrite Ht. cbn [negb]. fold (email_of body).
  rewrite Hok.
  change (coll Users s) with (users s).
  rewrite (first_match_find _ _ _ _ _ Hfirst).
  unfold with_role.
  destruct (truthy (lookup "role" d0)) eqn:Hrole; cbn [negb ret].
  - destruct Hfirst as (Hl & _). rewrite <- Hl. now rewrite (put_same Users).
  - rewrite (first_match_update_ok _ _ _ _ _ (set "role" (VStr "member") d0)
               _ Hfirst) by reflexivity.
    reflexivity.
Qed.

Lemma truthy_some (x : jsval) : truthy x = true -> exists v, x = Some v.
Proof. destruct x as [v |]; [now exists v | discriminate]. Qed.

(** X4: sending the same registration again changes nothing, when the
    email is a value (not an operator document): the store after the second
    POST /users is the store after the first, and the second answer is 200
    where the first was 201 or 200 (and 400 or 500 again where the first
    was). *)
Theorem register_again_changes_nothing (body : doc) (s : db) :
  plain_email body ->
  let first := post_users body s in
  let second := post_users body (snd first) in
  snd second = snd first /\
  status (fst second) =
    (if Z.eqb (status (fst first)) 201 then 200 else status (fst first)).
Proof.
  intro Hplain. cbv zeta.
  assert (Hok : filter_ok (email_of body) = true)
    by (now rewrite (email_of_plain _ Hplain)).
  destruct (truthy (lookup "email" body)) eqn:Ht.
  2:{ assert (H : forall s', post_users body s' =
                    (status_json 400 (error_body "Email is required"), s')).
      { intro s'. unfold post_users, try_catch. now rewrite Ht. }
      rewrite !H. now split. }
  destruct (find (matches (email_of body)) (users s)) as [d0 |] eqn:Efind.
  - destruct (find_first_match _ _ _ Efind) as (l1 & l2 & Hfirst).
    rewrite (post_users_existing body s l1 d0 l2 Ht Hok Hfirst). cbn [fst snd].
    assert (Hfirst' : first_match (email_of body)
                        (users (put Users (l1 ++ with_role d0 :: l2) s))
                        l1 (with_role d0) l2).
    { rewrite users_put_users. destruct Hfirst as (_ & Hl1 & Hd).
      split; [reflexivity | split; [assumption |]].
      rewrite (matches_email_of body d0); [assumption |].
      apply with_role_keeps_email. }
    rewrite (post_users_existing body _ l1 (with_role d0) l2 Ht Hok Hfirst').
    cbn [fst snd status status_json]. rewrite with_role_stable, put_put.
    now split.
  - assert (Hnone : forall x, In x (users s) -> matches (email_of body) x = false)
      by (intros x Hx; apply (find_none _ _ Efind x Hx)).
    assert (Hpost : post_users body s =
              match insertOne Users (set "role" (VStr "member") body) s with
              | (Ok id, s') =>
                  (status_json 201
                     (VObj [message "User registered successfully";
                            ("insertedId", id)]), s')
              | (Throw, s') =>
                  (status_json 500 (error_body "Failed to save user"), s')
              end).
    { unfold post_users, try_catch, bind, findOne.
      rewrite Ht. cbn [negb]. fold (email_of body).
      rewrite Hok.
      change (coll Users s) with (users s). rewrite Efind.
      now destruct (insertOne Users (set "role" (VStr "member") body) s) as [[id |] s']. }
    destruct (insertOne_cases Users (set "role" (VStr "member") body) s)
      as [Hthrow | (id & d' & s0 & Hins & _ & Hfields)].
    + rewrite Hpost, Hthrow. cbn [fst snd]. rewrite Hpost, Hthrow. now split.
    + rewrite Hpost, Hins. cbn [fst snd status status_json Z.eqb Pos.eqb].
      destruct (truthy_some _ Ht) as (v & Hv).
      assert (Hemail : lookup "email" d' = Some v).
      { rewrite Hfields by discriminate.
        rewrite lookup_set_other by discriminate. exact Hv. }
      assert (Hrole : lookup "role" d' = Some (VStr "member")).
      { rewrite Hfields by discriminate. apply lookup_set_same. }
      assert (Hfirst : first_match (email_of body)
                         (users (put Users (coll Users s ++ [d']) s0))
                         (users s) d' []).
      { rewrite users_put_users. split; [reflexivity | split; [assumption |]].
        rewrite (email_of_plain _ Hplain). unfold matches.
        cbn [forallb fst snd cond_matches]. rewrite Hemail, Hv.
        cbn [to_bson]. now rewrite field_eq_same. }
      rewrite (post_users_existing body _ _ d' [] Ht Hok Hfirst).
      cbn [fst snd status status_json].
      unfold with_role. rewrite Hrole. cbn [truthy String.eqb negb].
      rewrite put_put. now split.
Qed.
End validation.

(** X4 for Eve, who is new to a store that knows Bob: registered on the
    first request, found on the second. *)
Lemma register_again_changes_nothing_witness :
  let body := [("email", VStr "eve@example.com")] in
  let first := @post_users node body (one_user bob) in
  let second := @post_users node body (snd first) in
  snd second = snd first /\
  status (fst first) = 201 /\ status (fst second) = 200 /\
  List.length (users (snd second)) = 2%nat.
Proof.
  intros body first second.
  destruct (@register_again_changes_nothing node body (one_user bob) eq_refl)
    as [Hstore Hstatus].
  split; [exact Hstore | split; [reflexivity | split; [exact Hstatus |]]].
  reflexivity.
Defined.

(** An email that is an operator document is registered on every request:
    the stored object is no string for [$gt] to compare. *)
Example operator_email_registers_again :
  let body := [("email", VObj [("$gt", VStr "")])] in
  let first := @post_users node body empty_db in
  let second := @post_users node body (snd first) in
  status (fst first) = 201 /\ status (fst second) = 201 /\
  List.length (users (snd second)) = 2%nat.
Proof. repeat split. Qed.

(** X3 for a class without image. *)
Lemma create_rejects_missing_field_witness :
  post_classes 5 [("name", VStr "Yoga"); ("image", VStr "");
                        ("details", VStr "Stretch")] empty_db =
    (status_json 400
       (error_body "Class name, image, and details are required"), empty_db).
Proof.
  apply (proj1 (proj2 (proj2
           (@create_rejects_missing_field node 5
              [("name", VStr "Yoga"); ("image", VStr "");
               ("details", VStr "Stretch")] empty_db)))).
  exists "image". split; [simpl; tauto | reflexivity].
Defined.

(** * Subscribing, rejecting, approving and voting again *)

Section repeated.
Context {platform : Platform}.

Lemma matches_email_value (body d : doc) :
  plain_email body ->
  matches (email_of body) d =
    field_eq (lookup "email" d) (to_bson (lookup "email" body)).
Proof.
  intro Hplain. rewrite (email_of_plain _ Hplain).
  unfold matches. cbn [forallb fst snd cond_matches].
  apply andb_true_r.
Qed.

(** X5: subscribing again with the same name and email changes nothing,
    when the email is a value (not an operator document): the second POST
    /newsletter/subscribe leaves the store of the first and answers 409
    where the first answered 200 (and 409 or 400 again where the first
    did). *)
Theorem subscribe_again_is_conflict (now now' : Z) (body : doc) (s : db) :
  plain_email body ->
  let first := post_newsletter_subscribe now body s in
  let second := post_newsletter_subscribe now' body (snd first) in
  snd second = snd first /\
  status (fst second) =
    (if Z.eqb (status (fst first)) 200 then 409 else status (fst first)).
Proof.
  intro Hplain. cbv zeta.
  assert (Hok : filter_ok (email_of body) = true)
    by (now rewrite (email_of_plain _ Hplain)).
  destruct (truthy (lookup "name" body) && truthy (lookup "email" body))%bool
    eqn:Ht.
  2:{ assert (H : forall t s', post_newsletter_subscribe t body s' =
                    (status_json 400 (error_body "Name and email are required"), s')).
      { intros t s'. unfold post_newsletter_subscribe, try_catch.
        apply andb_false_iff in Ht. destruct Ht as [-> | ->];
          cbn [negb orb]; rewrite ?orb_true_r; reflexivity. }
      rewrite !H. now split. }
  apply andb_true_iff in Ht. destruct Ht as [Hname Hemail].
  assert (Hfound : forall t s' l1 d0 l2,
            first_match (email_of body) (subscriber s') l1 d0 l2 ->
            post_newsletter_subscribe t body s' =
              (status_json 409 (error_body "You are already subscribed"), s')).
  { intros t s' l1 d0 l2 Hfirst.
    unfold post_newsletter_subscribe, try_catch, bind, findOne.
    rewrite Hname, Hemail. cbn [negb orb]. fold (email_of body).
    rewrite Hok.
    change (coll Subscriber s') with (subscriber s').
    now rewrite (first_match_find _ _ _ _ _ Hfirst). }
  destruct (find (matches (email_of body)) (subscriber s)) as [d0 |] eqn:Efind.
  - destruct (find_first_match _ _ _ Efind) as (l1 & l2 & Hfirst).
    rewrite (Hfound now s l1 d0 l2 Hfirst). cbn [fst snd].
    rewrite (Hfound now' s l1 d0 l2 Hfirst). now split.
  - set (d' := ("_id", VId (next_oid s))
               :: literal [("name", lookup "name" body);
                           ("email", lookup "email" body);
                           ("createdAt", Some (VDate now))]).
    assert (Hpost : post_newsletter_subscribe now body s =
              (json (VObj [success; message "Subscription successful"]),
               put Subscriber (subscriber s ++ [d']) (bump_oid s))).
    { unfold post_newsletter_subscribe, try_catch, bind, findOne.
      rewrite Hname, Hemail. cbn [negb orb]. fold (email_of body).
      rewrite Hok.
      change (coll Subscriber s) with (subscriber s). rewrite Efind.
      reflexivity. }
    rewrite Hpost. cbn [fst snd status json Z.eqb Pos.eqb].
    assert (Hfirst : first_match (email_of body)
                       (subscriber (put Subscriber (subscriber s ++ [d'])
                                      (bump_oid s)))
                       (subscriber s) d' []).
    { change (subscriber (put Subscriber ?l ?x))
        with (coll Subscriber (put Subscriber l x)).
      rewrite coll_put_same. split; [reflexivity | split].
      - intros x Hx. apply (find_none _ _ Efind x Hx).
      - rewrite (matches_email_value _ _ Hplain).
        change (lookup "email" d') with (Some (to_bson (lookup "email" body))).
        apply field_eq_same. }
    rewrite (Hfound now' _ _ _ _ Hfirst). now split.
Qed.

(** *** Rejecting an application that exists *)

(** The update Reject-application sends. *)
Definition rejected (feedback : jsval) (d : doc) : doc :=
  set "feedback" (or_else feedback (VStr "No feedback provided"))
    (set "status" (VStr "rejected") d).

(** Already rejected, with this feedback. *)
Definition already_rejected (feedback : jsval) (d : doc) : Prop :=
  lookup "status" d = Some (VStr "rejected") /\
  lookup "feedback" d =
    Some (or_else feedback (VStr "No feedback provided")).

Lemma set_same (k : string) (v : value) (d : doc) :
  lookup k d = Some v -> set k v d = d.
Proof.
  induction d as [| [k' v'] d IH]; cbn [lookup set]; [discriminate |].
  destruct (String.eqb k k') eqn:E.
  - apply String.eqb_eq in E. subst k'. now intros [= ->].
  - intro H. now rewrite IH.
Qed.

Lemma rejected_same_iff (feedback : jsval) (d : doc) :
  rejected feedback d = d <-> already_rejected feedback d.
Proof.
  unfold rejected, already_rejected. split.
  - intro H. split.
    + rewrite <- H. rewrite lookup_set_other by discriminate.
      apply lookup_set_same.
    + rewrite <- H at 1. apply lookup_set_same.
  - intros [Hs Hf]. rewrite (set_same "status" _ d Hs). now apply set_same.
Qed.

Lemma reject_result (id : string) (body : doc) (s : db) (o : N)
  (l1 : list doc) (d : doc) (l2 : list doc) :
  ObjectId_from (VStr id) = Some o ->
  first_match (by_id o) (trainers s) l1 d l2 ->
  let d' := rejected (lookup "feedback" body) d in
  patch_applications_reject id body s =
    (if doc_eqb d d'
     then status_json 404
            (error_body "Applicant not found or already rejected")
     else json (VObj [success; message "Application rejected with feedback"]),
     put Trainers (l1 ++ d' :: l2) s).
Proof.
  intros Hid Hfirst d'.
  unfold patch_applications_reject, try_catch, bind, new_ObjectId, updateOne.
  rewrite Hid. cbn [ret]. rewrite filter_ok_by_id.
  change (coll Trainers s) with (trainers s).
  rewrite (first_match_update_ok _ _ _ _ _ d' _ Hfirst) by reflexivity.
  cbn [modifiedCount]. now destruct (doc_eqb d d').
Qed.

(** X6: rejecting an application that exists sets its status to
    ["rejected"] and its feedback to the one sent, or to ["No feedback
    provided"] when none (or a falsy one) is sent, keeps every other field
    and answers 200; but when the document is already rejected with exactly
    this feedback, nothing is modified and the answer is 404. *)
Theorem reject_existing (id : string) (body : doc) (s : db) (o : N)
  (l1 : list doc) (d : doc) (l2 : list doc) :
  ObjectId_from (VStr id) = Some o ->
  first_match (by_id o) (trainers s) l1 d l2 ->
  let feedback := lookup "feedback" body in
  let d' := rejected feedback d in
  (already_rejected feedback d ->
   patch_applications_reject id body s =
     (status_json 404 (error_body "Applicant not found or already rejected"),
      s)) /\
  (~ already_rejected feedback d ->
   patch_applications_reject id body s =
     (json (VObj [success; message "Application rejected with feedback"]),
      put Trainers (l1 ++ d' :: l2) s)) /\
  lookup "status" d' = Some (VStr "rejected") /\
  lookup "feedback" d' = Some (or_else feedback (VStr "No feedback provided")) /\
  (forall k, k <> "status" -> k <> "feedback" -> lookup k d' = lookup k d).
Proof.
  intros Hid Hfirst feedback d'.
  pose proof (reject_result id body s o l1 d l2 Hid Hfirst) as Hres.
  cbv zeta in Hres. fold feedback in Hres. fold d' in Hres.
  repeat apply conj.
  - intro Hal. apply rejected_same_iff in Hal. fold d' in Hal.
    rewrite Hres, Hal.
    replace (doc_eqb d d) with true by (symmetry; now apply doc_eqb_eq).
    destruct Hfirst as (<- & _). now rewrite put_trainers_same.
  - intro Hnot. rewrite Hres.
    destruct (doc_eqb d d') eqn:E; [| reflexivity].
    apply doc_eqb_eq in E. exfalso. apply Hnot.
    apply rejected_same_iff. now symmetry.
  - unfold d', rejected. rewrite lookup_set_other by discriminate.
    apply lookup_set_same.
  - apply lookup_set_same.
  - intros k Hs Hf. unfold d', rejected.
    rewrite !lookup_set_other by congruence. reflexivity.
Qed.
End repeated.

(** X5 for Kim, who subscribes twice. *)
Lemma subscribe_again_is_conflict_witness :
  let kim := [("name", VStr "Kim"); ("email", VStr "kim@example.com")] in
  let first := @post_newsletter_subscribe node 1 kim empty_db in
  let second := @post_newsletter_subscribe node 2 kim (snd first) in
  snd second = snd first /\
  status (fst first) = 200 /\ status (fst second) = 409 /\
  List.length (subscriber (snd second)) = 1%nat.
Proof.
  intros kim first second.
  destruct (@subscribe_again_is_conflict node 1 2 kim empty_db eq_refl)
    as [Hstore Hstatus].
  split; [exact Hstore | split; [reflexivity | split; [exact Hstatus |]]].
  reflexivity.
Defined.

(** X6 for Ada's application and a feedback. *)
Lemma reject_existing_witness :
  @patch_applications_reject node "000000000000000000000000"
    [("feedback", VStr "Too junior")] ada_applied =
    (json (VObj [success; message "Application rejected with feedback"]),
     put Trainers
       ([] ++ rejected (Some (VStr "Too junior")) ada :: []) ada_applied).
Proof.
  apply (proj1 (proj2
           (@reject_existing node "000000000000000000000000"
              [("feedback", VStr "Too junior")] ada_applied 0%N [] ada []
              eq_refl
              (conj eq_refl (conj (fun x (H : In x []) => match H with end)
                                  eq_refl))))).
  intros [H _]. discriminate H.
Defined.

(** * Looking up, approving and removing by identifier *)

Section by_identifier.
Context {platform : Platform}.

(** No document of the collection answers to the identifier. *)
Definition unknown_id (o : N) (l : list doc) : Prop :=
  forall d, In d l -> matches (by_id o) d = false.

Lemma pending_by_id_none (o : N) (l : list doc) :
  unknown_id o l -> find (matches (pending_by_id o)) l = None.
Proof.
  intro H. apply find_no_match. intros d Hd.
  unfold matches, pending_by_id. cbn [forallb fst snd cond_matches].
  specialize (H d Hd). rewrite matches_by_id in H. now rewrite H.
Qed.

(** X7: the four handlers that look a trainer up by [:id] before anything
    else (GET /trainers/:id, GET /trainers/applications/:id, PATCH
    /trainers/:id/remove-trainer, PATCH /trainers/:id/remove-slot) answer
    500 for a malformed id and 404 for a well-formed id that no document
    answers to, and leave the store unchanged in both cases. *)
Theorem lookup_of_unknown_id (now : Z) (id : string) (body : doc) (s : db) :
  (forall o, ObjectId_from (VStr id) = Some o -> unknown_id o (trainers s)) ->
  let code := match ObjectId_from (VStr id) with Some _ => 404 | None => 500 end in
  (status (fst (get_trainers_id id s)) = code /\
   snd (get_trainers_id id s) = s) /\
  (status (fst (get_trainers_applications_id id s)) = code /\
   snd (get_trainers_applications_id id s) = s) /\
  (status (fst (patch_trainers_remove_trainer now id s)) = code /\
   snd (patch_trainers_remove_trainer now id s) = s) /\
  (status (fst (patch_trainers_remove_slot id body s)) = code /\
   snd (patch_trainers_remove_slot id body s) = s).
Proof.
  intros Hun code. unfold code.
  unfold get_trainers_id, get_trainers_applications_id,
    patch_trainers_remove_trainer, patch_trainers_remove_slot,
    try_catch, bind, new_ObjectId, findOne.
  destruct (ObjectId_from (VStr id)) as [o |]; cbn [ret throw].
  - rewrite filter_ok_by_id.
    replace (filter_ok (pending_by_id o)) with true by reflexivity.
    change (coll Trainers s) with (trainers s).
    rewrite (find_no_match _ _ (Hun o eq_refl)),
      (pending_by_id_none _ _ (Hun o eq_refl)).
    repeat split.
  - repeat split.
Qed.

(** A document found by its identifier. *)
Lemma get_trainers_id_found (id : string) (s : db) (o : N) (l1 : list doc)
  (d : doc) (l2 : list doc) :
  ObjectId_from (VStr id) = Some o ->
  first_match (by_id o) (trainers s) l1 d l2 ->
  get_trainers_id id s = (json (VObj d), s).
Proof.
  intros Hid Hfirst.
  unfold get_trainers_id, try_catch, bind, new_ObjectId, findOne.
  rewrite Hid. cbn [ret]. rewrite filter_ok_by_id.
  change (coll Trainers s) with (trainers s).
  now rewrite (first_match_find _ _ _ _ _ Hfirst).
Qed.

Lemma matches_pending_by_id (o : N) (d : doc) :
  matches (pending_by_id o) d =
    (matches (by_id o) d && field_eq (lookup "status" d) (VStr "pending"))%bool.
Proof.
  unfold matches, pending_by_id, by_id. cbn [forallb fst snd cond_matches].
  now rewrite !andb_true_r.
Qed.

(** X8: with unique identifiers, GET /trainers/:id returns the document
    that has the id, whatever its status, while GET
    /trainers/applications/:id returns it only when its status is
    ["pending"] and answers 404 for an approved or rejected one. *)
Theorem application_detail_only_pending (id : string) (s : db) (o : N)
  (d : doc) :
  ObjectId_from (VStr id) = Some o ->
  key_unique (trainers s) ->
  In d (trainers s) ->
  lookup "_id" d = Some (VId o) ->
  get_trainers_id id s = (json (VObj d), s) /\
  get_trainers_applications_id id s =
    (if field_eq (lookup "status" d) (VStr "pending")
     then json (VObj d)
     else status_json 404 (error_body "Applicant not found"),
     s).
Proof.
  intros Hid Hu Hin Hd.
  assert (Hm : matches (by_id o) d = true).
  { rewrite matches_by_id, Hd. apply field_eq_same. }
  destruct (first_match_unique _ _ _ Hu Hin Hm) as (l1 & l2 & Hfirst & Hl2).
  split; [now apply (get_trainers_id_found id s o l1 d l2) |].
  unfold get_trainers_applications_id, try_catch, bind, new_ObjectId, findOne.
  rewrite Hid. cbn [ret].
  replace (filter_ok (pending_by_id o)) with true by reflexivity.
  change (coll Trainers s) with (trainers s).
  destruct Hfirst as (Hl & Hl1 & _).
  destruct (field_eq (lookup "status" d) (VStr "pending")) eqn:Est.
  - assert (Hf : first_match (pending_by_id o) (trainers s) l1 d l2).
    { split; [assumption | split].
      - intros x Hx. rewrite matches_pending_by_id, (Hl1 x Hx). reflexivity.
      - now rewrite matches_pending_by_id, Hm, Est. }
    now rewrite (first_match_find _ _ _ _ _ Hf).
  - rewrite find_no_match; [reflexivity |].
    intros x Hx. rewrite matches_pending_by_id. rewrite Hl in Hx.
    apply in_app_or in Hx. destruct Hx as [Hx | [<- | Hx]].
    + now rewrite (Hl1 x Hx).
    + now rewrite Est, andb_false_r.
    + now rewrite (Hl2 x Hx).
Qed.

(** *** Approving again *)

Lemma confirm_unknown (now : Z) (id : string) (s : db) (o : N) :
  ObjectId_from (VStr id) = Some o ->
  unknown_id o (trainers s) ->
  patch_applications_confirm now id s =
    (status_json 404 (error_body "Applicant not found"), s).
Proof.
  intros Hid Hun.
  unfold patch_applications_confirm, try_catch, bind, new_ObjectId, findOne.
  rewrite Hid. cbn [ret]. rewrite filter_ok_by_id.
  change (coll Trainers s) with (trainers s).
  now rewrite (find_no_match _ _ Hun).
Qed.

(** X9: an application can be approved once: after Approve-application
    has answered for a document of a well-formed store, the same request
    again answers 404 and changes nothing, and GET /trainers/:id no longer
    finds the id. *)
Theorem approve_again_is_not_found (now now' : Z) (id : string) (s : db)
  (o : N) (d : doc) :
  ObjectId_from (VStr id) = Some o ->
  wf_ids (next_oid s) (trainers s) ->
  In d (trainers s) ->
  lookup "_id" d = Some (VId o) ->
  let s' := snd (patch_applications_confirm now id s) in
  status (fst (patch_applications_confirm now id s)) = 200 /\
  patch_applications_confirm now' id s' =
    (status_json 404 (error_body "Applicant not found"), s') /\
  get_trainers_id id s' =
    (status_json 404 (error_body "Trainer not found"), s') /\
  List.length (trainers s') = List.length (trainers s).
Proof.
  intros Hid [Hu Hahead] Hin Hd s'.
  assert (Hm : matches (by_id o) d = true).
  { rewrite matches_by_id, Hd. apply field_eq_same. }
  destruct (first_match_unique _ _ _ Hu Hin Hm) as (l1 & l2 & Hfirst & Hl2).
  pose proof (confirm_result now id s o l1 d l2 Hid Hfirst) as Hres.
  set (new := ("_id", VId (next_oid s)) :: approved now d) in *.
  assert (Hs' : trainers s' = l1 ++ l2 ++ [new]).
  { unfold s'. rewrite Hres. cbn [snd]. apply (coll_put_same Trainers). }
  assert (Hun : unknown_id o (trainers s')).
  { intros x Hx. rewrite Hs' in Hx. destruct Hfirst as (_ & Hl1 & _).
    apply in_app_or in Hx. destruct Hx as [Hx | Hx]; [now apply Hl1 |].
    apply in_app_or in Hx. destruct Hx as [Hx | [<- | []]]; [now apply Hl2 |].
    rewrite matches_by_id. unfold new. cbn [lookup String.eqb Ascii.eqb Bool.eqb].
    unfold field_eq. cbn [value_eqb]. rewrite orb_false_r.
    apply N.eqb_neq. specialize (Hahead d o Hin Hm). lia. }
  repeat apply conj.
  - now rewrite Hres.
  - now apply (confirm_unknown now' id s' o).
  - unfold get_trainers_id, try_catch, bind, new_ObjectId, findOne.
    rewrite Hid. cbn [ret]. rewrite filter_ok_by_id.
    change (coll Trainers s') with (trainers s').
    now rewrite (find_no_match _ _ Hun).
  - rewrite Hs'. destruct Hfirst as (-> & _).
    rewrite !length_app. cbn [List.length]. lia.
Qed.
End by_identifier.

(** X7 for an id that is no ObjectId. *)
Lemma lookup_of_unknown_id_witness :
  (status (fst (@get_trainers_id node "applications" ada_applied)) = 500 /\
   snd (@get_trainers_id node "applications" ada_applied) = ada_applied) /\
  (status (fst (@get_trainers_applications_id node "applications" ada_applied))
   = 500 /\
   snd (@get_trainers_applications_id node "applications" ada_applied)
   = ada_applied) /\
  (status (fst (@patch_trainers_remove_trainer node 7 "applications"
                  ada_applied)) = 500 /\
   snd (@patch_trainers_remove_trainer node 7 "applications" ada_applied)
   = ada_applied) /\
  (status (fst (@patch_trainers_remove_slot node "applications" []
                  ada_applied)) = 500 /\
   snd (@patch_trainers_remove_slot node "applications" [] ada_applied)
   = ada_applied).
Proof.
  apply (@lookup_of_unknown_id node 7 "applications" [] ada_applied).
  intros o H. discriminate H.
Defined.

(** Ada's application after a rejection. *)
Definition ada_rejected : db :=
  snd (@patch_applications_reject node "000000000000000000000000"
         [("feedback", VStr "Too junior")] ada_applied).

(** X8 for the rejected application. *)
Lemma application_detail_only_pending_witness :
  @get_trainers_id node "000000000000000000000000" ada_rejected =
    (json (VObj (rejected (Some (VStr "Too junior")) ada)), ada_rejected) /\
  @get_trainers_applications_id node "000000000000000000000000" ada_rejected =
    (status_json 404 (error_body "Applicant not found"), ada_rejected).
Proof.
  apply (@application_detail_only_pending node "000000000000000000000000"
           ada_rejected 0%N (rejected (Some (VStr "Too junior")) ada)).
  - reflexivity.
  - split; [intros o x _ [] | exact I].
  - left. reflexivity.
  - reflexivity.
Defined.

(** X9 for Ada's application. *)
Lemma approve_again_is_not_found_witness :
  let s' :=
    snd (@patch_applications_confirm node 20 "000000000000000000000000"
           ada_applied) in
  status (fst (@patch_applications_confirm node 20 "000000000000000000000000"
                 ada_applied)) = 200 /\
  @patch_applications_confirm node 30 "000000000000000000000000" s' =
    (status_json 404 (error_body "Applicant not found"), s') /\
  @get_trainers_id node "000000000000000000000000" s' =
    (status_json 404 (error_body "Trainer not found"), s') /\
  List.length (trainers s') = List.length (trainers ada_applied).
Proof.
  apply (@approve_again_is_not_found node 20 30 "000000000000000000000000"
           ada_applied 0%N ada).
  - reflexivity.
  - split; [split; [intros o x _ [] | exact I] |].
    intros d o [<- | []] H. vm_compute in H.
    destruct o; [reflexivity | discriminate H].
  - left. reflexivity.
  - reflexivity.
Defined.

(** * Votes that are not up-votes, and votes on no post *)

Section votes.
Context {platform : Platform}.

(** X10: a vote whose [voteType] is anything but the string ["up"] (a
    missing one included) counts as a down-vote: [downvotes] goes from [n]
    to [n + 1], for safe integers [n] and [n + 1], and every other field,
    [upvotes] among them, stays. *)
Theorem vote_not_up_is_down (id : string) (body : doc) (s : db) (o : N)
  (l1 : list doc) (d : doc) (l2 : list doc) (n : Z) :
  is_string (lookup "voteType" body) "up" = false ->
  ObjectId_from (VStr id) = Some o ->
  first_match (by_id o) (forum s) l1 d l2 ->
  counter "downvotes" d = Some n ->
  safe_integer n = true ->
  safe_integer (n + 1) = true ->
  let d' := set "downvotes" (VNum (Fin (n + 1))) d in
  patch_forum_vote id body s =
    (json (VObj [success]), put Forum (l1 ++ d' :: l2) s) /\
  counter "downvotes" d' = Some (n + 1) /\
  (forall k, k <> "downvotes" -> lookup k d' = lookup k d).
Proof.
  intros Hup Hid Hfirst Hn Hsafe Hsafe1 d'. repeat apply conj.
  - unfold patch_forum_vote, try_catch, bind, new_ObjectId, updateOne.
    rewrite Hup, Hid. cbn [ret]. rewrite filter_ok_by_id.
    change (coll Forum s) with (forum s).
    now rewrite (first_match_update_ok _ _ _ _ _ _ _ Hfirst
                   (inc_counter _ _ _ Hn Hsafe Hsafe1)).
  - unfold counter, d'. now rewrite lookup_set_same.
  - intros k Hk. apply lookup_set_other. congruence.
Qed.

(** X11: a vote on an id no post answers to is answered with success and
    changes nothing (the handler does not look at the update's result); a
    malformed id gives 500; and a post whose counter holds something that
    is not a number makes the store refuse the increment: 500, nothing
    changed. *)
Theorem vote_without_effect (id : string) (body : doc) (s : db) :
  (ObjectId_from (VStr id) = None ->
   patch_forum_vote id body s =
     (status_json 500 (error_body "Failed to update vote"), s)) /\
  (forall o,
     ObjectId_from (VStr id) = Some o ->
     (forall d, In d (forum s) -> matches (by_id o) d = false) ->
     patch_forum_vote id body s = (json (VObj [success]), s)) /\
  (forall o l1 d l2,
     ObjectId_from (VStr id) = Some o ->
     first_match (by_id o) (forum s) l1 d l2 ->
     counter (if is_string (lookup "voteType" body) "up"
              then "upvotes" else "downvotes") d = None ->
     lookup (if is_string (lookup "voteType" body) "up"
             then "upvotes" else "downvotes") d <> Some (VNum NaN) ->
     patch_forum_vote id body s =
       (status_json 500 (error_body "Failed to update vote"), s)).
Proof.
  repeat apply conj.
  - intro Hid. unfold patch_forum_vote, try_catch, bind, new_ObjectId.
    now rewrite Hid.
  - intros o Hid Hun.
    unfold patch_forum_vote, try_catch, bind, new_ObjectId, updateOne.
    rewrite Hid. cbn [ret]. rewrite filter_ok_by_id.
    change (coll Forum s) with (forum s).
    rewrite (update_first_no_match _ _ _ Hun).
    destruct s; reflexivity.
  - intros o l1 d l2 Hid Hfirst Hc Hnan.
    unfold patch_forum_vote, try_catch, bind, new_ObjectId, updateOne.
    rewrite Hid. cbn [ret]. rewrite filter_ok_by_id.
    change (coll Forum s) with (forum s).
    rewrite (first_match_update_refused _ _ _ _ _ _ Hfirst); [reflexivity |].
    destruct (is_string (lookup "voteType" body) "up");
      unfold counter in Hc; unfold apply_update;
      match goal with
      | |- context [lookup ?k d] =>
          destruct (lookup k d) as [[| | [] | | | | |] |];
          try discriminate Hc; try reflexivity; now contradiction Hnan
      end.
Qed.
End votes.

Definition no_vote_type : doc := [("userId", VStr "kim")].

(** X10 for a vote without [voteType]. *)
Lemma vote_not_up_is_down_witness :
  let d' := set "downvotes" (VNum (Fin (1 + 1))) post3 in
  @patch_forum_vote node "000000000000000000000001" no_vote_type
    (one_post post3) =
    (json (VObj [success]), put Forum ([] ++ d' :: []) (one_post post3)) /\
  counter "downvotes" d' = Some (1 + 1) /\
  (forall k, k <> "downvotes" -> lookup k d' = lookup k post3).
Proof.
  apply (@vote_not_up_is_down node "000000000000000000000001" no_vote_type
           (one_post post3) 1%N [] post3 [] 1).
  - reflexivity.
  - reflexivity.
  - split; [reflexivity | split; [intros x [] | reflexivity]].
  - reflexivity.
  - reflexivity.
  - reflexivity.
Defined.

(** X11 for a vote on an id of no post. *)
Lemma vote_without_effect_witness :
  @patch_forum_vote node "000000000000000000000009" up_vote (one_post post3) =
    (json (VObj [success]), one_post post3).
Proof.
  apply (proj1 (proj2 (@vote_without_effect node "000000000000000000000009"
                         up_vote (one_post post3))) 9%N).
  - reflexivity.
  - intros d [<- | []]. reflexivity.
Defined.

(** * Removing a trainer, removing a slot *)

Section removing.
Context {platform : Platform}.

Lemma remove_trainer_result (now : Z) (id : string) (s : db) (o : N)
  (l1 : list doc) (d : doc) (l2 : list doc) :
  ObjectId_from (VStr id) = Some o ->
  first_match (by_id o) (trainers s) l1 d l2 ->
  patch_trainers_remove_trainer now id s =
    (json (VObj [success;
                 message "Trainer removed and converted to member successfully"]),
     put Trainers (l1 ++ l2)
       (put Users (users s ++ [("_id", VId (next_oid s)) :: userDoc now d])
          (bump_oid s))).
Proof.
  intros Hid Hfirst.
  unfold patch_trainers_remove_trainer, try_catch, bind, new_ObjectId, findOne.
  rewrite Hid. cbn [ret]. rewrite filter_ok_by_id.
  change (coll Trainers s) with (trainers s).
  rewrite (first_match_find _ _ _ _ _ Hfirst).
  unfold insertOne.
  change (lookup "_id" (userDoc now d)) with (@None value).
  cbv iota beta. unfold deleteOne. rewrite filter_ok_by_id.
  rewrite (coll_put_other Users Trainers) by discriminate.
  change (coll Trainers (bump_oid s)) with (trainers s).
  now rewrite (first_match_delete _ _ _ _ _ Hfirst).
Qed.

(** X12: removing a trainer that exists deletes the trainer document, so
    that GET /trainers/:id answers 404 for the id afterwards, and appends to
    the users collection, without looking for a user of that email, one
    document with the trainer's name and email, the trainer's image (or the
    empty string), role ["member"] and the time of the request; all other
    trainers and users stay. *)
Theorem remove_trainer_makes_member (now : Z) (id : string) (s : db) (o : N)
  (d : doc) :
  ObjectId_from (VStr id) = Some o ->
  key_unique (trainers s) ->
  In d (trainers s) ->
  lookup "_id" d = Some (VId o) ->
  let s' := snd (patch_trainers_remove_trainer now id s) in
  let u := ("_id", VId (next_oid s)) :: userDoc now d in
  status (fst (patch_trainers_remove_trainer now id s)) = 200 /\
  users s' = users s ++ [u] /\
  (exists l1 l2, trainers s = l1 ++ d :: l2 /\ trainers s' = l1 ++ l2) /\
  get_trainers_id id s' =
    (status_json 404 (error_body "Trainer not found"), s') /\
  lookup "name" u = Some (to_bson (lookup "name" d)) /\
  lookup "email" u = Some (to_bson (lookup "email" d)) /\
  lookup "image" u = Some (or_else (lookup "image" d) (VStr "")) /\
  lookup "role" u = Some (VStr "member") /\
  lookup "createdAt" u = Some (VDate now).
Proof.
  intros Hid Hu Hin Hd s' u.
  assert (Hm : matches (by_id o) d = true).
  { rewrite matches_by_id, Hd. apply field_eq_same. }
  destruct (first_match_unique _ _ _ Hu Hin Hm) as (l1 & l2 & Hfirst & Hl2).
  pose proof (remove_trainer_result now id s o l1 d l2 Hid Hfirst) as Hres.
  assert (Ht : trainers s' = l1 ++ l2).
  { unfold s'. rewrite Hres. cbn [snd]. apply (coll_put_same Trainers). }
  repeat apply conj; try reflexivity.
  - now rewrite Hres.
  - unfold s'. rewrite Hres. cbn [snd].
    change (users (put Trainers ?l ?x)) with (coll Users (put Trainers l x)).
    rewrite (coll_put_other Trainers Users) by discriminate.
    apply (coll_put_same Users).
  - exists l1, l2. split; [apply Hfirst | exact Ht].
  - unfold get_trainers_id, try_catch, bind, new_ObjectId, findOne.
    rewrite Hid. cbn [ret]. rewrite filter_ok_by_id.
    change (coll Trainers s') with (trainers s'). rewrite Ht.
    rewrite find_no_match; [reflexivity |].
    intros x Hx. destruct Hfirst as (_ & Hl1 & _).
    apply in_app_or in Hx. destruct Hx as [Hx | Hx]; [now apply Hl1 | now apply Hl2].
Qed.

(** *** Slots by index *)

Lemma splice_one_inside (i : nat) (a : list value) :
  (i < List.length a)%nat ->
  splice_one (Z.of_nat i) a = firstn i a ++ skipn (S i) a /\
  List.length (splice_one (Z.of_nat i) a) = (List.length a - 1)%nat.
Proof.
  intro Hi. unfold splice_one.
  replace (Z.ltb (Z.of_nat i) 0) with false by (symmetry; apply Z.ltb_ge; lia).
  replace (Z.to_nat (Z.min (Z.of_nat i) (Z.of_nat (List.length a)))) with i by lia.
  split; [reflexivity |].
  rewrite length_app, length_firstn, length_skipn. lia.
Qed.

Lemma splice_one_beyond (i : Z) (a : list value) :
  Z.of_nat (List.length a) <= i -> splice_one i a = a.
Proof.
  intro Hi. unfold splice_one.
  replace (Z.ltb i 0) with false by (symmetry; apply Z.ltb_ge; lia).
  replace (Z.to_nat (Z.min i (Z.of_nat (List.length a)))) with (List.length a)
    by lia.
  rewrite firstn_all, skipn_all2 by lia. apply app_nil_r.
Qed.

Lemma splice_one_from_end (i : nat) (a : list value) :
  (0 < i <= List.length a)%nat ->
  splice_one (- Z.of_nat i) a =
    firstn (List.length a - i) a ++ skipn (S (List.length a - i)) a.
Proof.
  intro Hi. unfold splice_one.
  replace (Z.ltb (- Z.of_nat i) 0) with true by (symmetry; apply Z.ltb_lt; lia).
  replace (Z.to_nat (Z.max (Z.of_nat (List.length a) + - Z.of_nat i) 0))
    with (List.length a - i)%nat by lia.
  reflexivity.
Qed.

Lemma remove_slot_result (id : string) (body : doc) (s : db) (o : N)
  (l1 : list doc) (d : doc) (l2 : list doc) (slots : list value) :
  ObjectId_from (VStr id) = Some o ->
  first_match (by_id o) (trainers s) l1 d l2 ->
  lookup "availableSlots" d = Some (VArr slots) ->
  patch_trainers_remove_slot id body s =
    (json (VObj [success; message "Slot removed successfully"]),
     put Trainers
       (l1 ++ set "availableSlots"
                (VArr (splice_one (to_integer (lookup "slotIndex" body)) slots))
                d :: l2) s).
Proof.
  intros Hid Hfirst Hslots.
  unfold patch_trainers_remove_slot, try_catch, bind, new_ObjectId, findOne,
    updateOne.
  rewrite Hid. cbn [ret]. rewrite filter_ok_by_id.
  change (coll Trainers s) with (trainers s).
  rewrite (first_match_find _ _ _ _ _ Hfirst), Hslots. cbv iota beta.
  now rewrite (first_match_update_ok _ _ _ _ _
                 (set "availableSlots"
                    (VArr (splice_one (to_integer (lookup "slotIndex" body))
                             slots)) d) _ Hfirst) by reflexivity.
Qed.

(** X13: PATCH /trainers/:id/remove-slot on a trainer with a slot list
    always answers 200 and stores the list [splice(slotIndex, 1)] leaves:
    without the slot at [slotIndex] when that is an index of the list;
    unchanged when [slotIndex] is at or past the end; without its first
    slot when no [slotIndex] is sent; without the [i]-th slot from the end
    for [slotIndex = -i].  A trainer whose [availableSlots] is not an array
    makes it answer 500 and change nothing. *)
Theorem remove_slot_by_index (id : string) (body : doc) (s : db) (o : N)
  (l1 : list doc) (d : doc) (l2 : list doc) :
  ObjectId_from (VStr id) = Some o ->
  first_match (by_id o) (trainers s) l1 d l2 ->
  let stored (slots : list value) :=
    (json (VObj [success; message "Slot removed successfully"]),
     put Trainers (l1 ++ set "availableSlots" (VArr slots) d :: l2) s) in
  (forall slots i,
     lookup "availableSlots" d = Some (VArr slots) ->
     lookup "slotIndex" body = Some (VNum (Fin (Z.of_nat i))) ->
     (i < List.length slots)%nat ->
     patch_trainers_remove_slot id body s =
       stored (firstn i slots ++ skipn (S i) slots)) /\
  (forall slots i,
     lookup "availableSlots" d = Some (VArr slots) ->
     lookup "slotIndex" body = Some (VNum (Fin i)) ->
     Z.of_nat (List.length slots) <= i ->
     patch_trainers_remove_slot id body s =
       (json (VObj [success; message "Slot removed successfully"]), s)) /\
  (forall slots,
     lookup "availableSlots" d = Some (VArr slots) ->
     lookup "slotIndex" body = None ->
     patch_trainers_remove_slot id body s = stored (skipn 1 slots)) /\
  (forall slots i,
     lookup "availableSlots" d = Some (VArr slots) ->
     lookup "slotIndex" body = Some (VNum (Fin (- Z.of_nat i))) ->
     (0 < i <= List.length slots)%nat ->
     patch_trainers_remove_slot id body s =
       stored (firstn (List.length slots - i) slots
               ++ skipn (S (List.length slots - i)) slots)) /\
  ((forall slots, lookup "availableSlots" d <> Some (VArr slots)) ->
   patch_trainers_remove_slot id body s =
     (status_json 500 (error_body "Failed to remove slot"), s)).
Proof.
  intros Hid Hfirst stored. unfold stored. repeat apply conj.
  - intros slots i Hs Hi Hlt.
    rewrite (remove_slot_result id body s o l1 d l2 slots Hid Hfirst Hs), Hi.
    cbn [to_integer]. now rewrite (proj1 (splice_one_inside i slots Hlt)).
  - intros slots i Hs Hi Hge.
    rewrite (remove_slot_result id body s o l1 d l2 slots Hid Hfirst Hs), Hi.
    cbn [to_integer]. rewrite (splice_one_beyond i slots Hge).
    rewrite (set_same _ _ _ Hs). destruct Hfirst as (<- & _).
    now rewrite put_trainers_same.
  - intros slots Hs Hi.
    rewrite (remove_slot_result id body s o l1 d l2 slots Hid Hfirst Hs), Hi.
    cbn [to_integer]. unfold splice_one.
    destruct slots; reflexivity.
  - intros slots i Hs Hi Hlt.
    rewrite (remove_slot_result id body s o l1 d l2 slots Hid Hfirst Hs), Hi.
    cbn [to_integer]. now rewrite (splice_one_from_end i slots Hlt).
  - intro Hno.
    unfold patch_trainers_remove_slot, try_catch, bind, new_ObjectId, findOne.
    rewrite Hid. cbn [ret]. rewrite filter_ok_by_id.
    change (coll Trainers s) with (trainers s).
    rewrite (first_match_find _ _ _ _ _ Hfirst).
    destruct (lookup "availableSlots" d) as [[| | | | slots | | |] |];
      try reflexivity.
    now contradiction (Hno slots).
Qed.

Lemma set_set (k : string) (v v' : value) (d : doc) :
  set k v (set k v' d) = set k v d.
Proof.
  induction d as [| [k' w] d IH]; cbn [set].
  - now rewrite String.eqb_refl.
  - destruct (String.eqb k k') eqn:E; cbn [set].
    + now rewrite String.eqb_refl.
    + now rewrite E, IH.
Qed.

(** X14: adding a slot (a document without [$] keys) and then removing
    the slot at the index it got (the former length of the list) gives back
    the store as it was. *)
Theorem add_then_remove_slot (id : string) (slot body : doc) (s : db) (o : N)
  (l1 : list doc) (d : doc) (l2 : list doc) (slots : list value) :
  plain_slot slot ->
  ObjectId_from (VStr id) = Some o ->
  first_match (by_id o) (trainers s) l1 d l2 ->
  lookup "availableSlots" d = Some (VArr slots) ->
  lookup "slotIndex" body =
    Some (VNum (Fin (Z.of_nat (List.length slots)))) ->
  let added := snd (patch_trainers_add_slot id slot s) in
  trainers added = l1 ++ with_slot d slots (VObj slot) :: l2 /\
  patch_trainers_remove_slot id body added =
    (json (VObj [success; message "Slot removed successfully"]), s).
Proof.
  intros Hplain Hid Hfirst Hslots Hidx added.
  assert (Hadd : added = put Trainers (l1 ++ with_slot d slots (VObj slot) :: l2) s).
  { unfold added, patch_trainers_add_slot, try_catch, bind, new_ObjectId,
      updateOne.
    rewrite Hid. cbn [ret]. rewrite filter_ok_by_id.
    change (coll Trainers s) with (trainers s).
    rewrite (as_push_plain _ _ Hplain).
    assert (Hso : slots_of d = Some slots) by (unfold slots_of; now rewrite Hslots).
    rewrite (first_match_update_ok _ _ _ _ _ _ _ Hfirst (push_slot _ _ _ Hso)).
    cbn [modifiedCount]. rewrite (push_slot_changes _ _ _ Hso). reflexivity. }
  split; [rewrite Hadd; apply (coll_put_same Trainers) |].
  assert (Hfirst' : first_match (by_id o) (trainers added) l1
                      (with_slot d slots (VObj slot)) l2).
  { rewrite Hadd.
    change (trainers (put Trainers ?l ?x)) with (coll Trainers (put Trainers l x)).
    rewrite coll_put_same.
    apply (first_match_after_set o (trainers s)); [discriminate | assumption]. }
  rewrite (remove_slot_result id body added o l1 _ l2 (slots ++ [VObj slot])
             Hid Hfirst')
    by apply lookup_set_same.
  rewrite Hidx. cbn [to_integer].
  assert (Hlen : (List.length slots < List.length (slots ++ [VObj slot]))%nat)
    by (rewrite length_app; cbn; lia).
  rewrite (proj1 (splice_one_inside _ _ Hlen)).
  rewrite firstn_app, firstn_all, Nat.sub_diag. cbn [firstn].
  rewrite skipn_all2 by (rewrite length_app; cbn; lia).
  rewrite !app_nil_r. unfold with_slot. rewrite set_set, (set_same _ _ _ Hslots).
  rewrite Hadd, put_put. destruct Hfirst as (<- & _).
  now rewrite put_trainers_same.
Qed.
End removing.

Definition tuesday : doc := [("day", VStr "Tue"); ("time", VStr "10:00")].

(** A trainer with two slots. *)
Definition bea : doc :=
  [("_id", VId 1); ("name", VStr "Bea"); ("email", VStr "bea@example.com");
   ("availableSlots", VArr [VObj monday; VObj tuesday])].

Lemma first_of_one (p : Platform) (o : N) (t : doc) :
  @matches p (by_id o) t = true ->
  @first_match p (by_id o) (trainers (one_trainer t)) [] t [].
Proof. intro H. split; [reflexivity | split; [intros x [] | exact H]]. Qed.

(** X12 for the trainer Ann. *)
Lemma remove_trainer_makes_member_witness :
  let s' :=
    snd (@patch_trainers_remove_trainer node 40 "000000000000000000000001"
           (one_trainer ann)) in
  let u := ("_id", VId (next_oid (one_trainer ann))) :: userDoc 40 ann in
  status (fst (@patch_trainers_remove_trainer node 40
                 "000000000000000000000001" (one_trainer ann))) = 200 /\
  users s' = users (one_trainer ann) ++ [u] /\
  (exists l1 l2, trainers (one_trainer ann) = l1 ++ ann :: l2 /\
                 trainers s' = l1 ++ l2) /\
  @get_trainers_id node "000000000000000000000001" s' =
    (status_json 404 (error_body "Trainer not found"), s') /\
  lookup "name" u = Some (to_bson (lookup "name" ann)) /\
  lookup "email" u = Some (to_bson (lookup "email" ann)) /\
  lookup "image" u = Some (or_else (lookup "image" ann) (VStr "")) /\
  lookup "role" u = Some (VStr "member") /\
  lookup "createdAt" u = Some (VDate 40).
Proof.
  apply (@remove_trainer_makes_member node 40 "000000000000000000000001"
           (one_trainer ann) 1%N ann).
  - reflexivity.
  - split; [intros o x _ [] | exact I].
  - left. reflexivity.
  - reflexivity.
Defined.

Example ann_becomes_member :
  snd (@patch_trainers_remove_trainer node 40 "000000000000000000000001"
         (one_trainer ann)) =
    mkDb [[("_id", VId 2); ("name", VStr "Ann");
           ("email", VStr "ann@example.com"); ("image", VStr "");
           ("role", VStr "member"); ("createdAt", VDate 40)]]
      [] [] [] [] [] [] [] 3.
Proof. reflexivity. Qed.

(** X13 for Bea: her second slot removed by index 1. *)
Lemma remove_slot_by_index_witness :
  @patch_trainers_remove_slot node "000000000000000000000001"
    [("slotIndex", VNum (Fin (Z.of_nat 1)))] (one_trainer bea) =
    (json (VObj [success; message "Slot removed successfully"]),
     put Trainers
       ([] ++ set "availableSlots"
                (VArr (firstn 1 [VObj monday; VObj tuesday]
                       ++ skipn 2 [VObj monday; VObj tuesday])) bea :: [])
       (one_trainer bea)).
Proof.
  apply (proj1 (@remove_slot_by_index node "000000000000000000000001"
                  [("slotIndex", VNum (Fin (Z.of_nat 1)))] (one_trainer bea)
                  1%N [] bea [] eq_refl (first_of_one node 1 bea eq_refl))
           [VObj monday; VObj tuesday] 1%nat).
  - reflexivity.
  - reflexivity.
  - simpl. lia.
Defined.

Example remove_slot_edges :
  (* no index: the first slot goes *)
  trainers (snd (@patch_trainers_remove_slot node "000000000000000000000001"
                   [] (one_trainer bea))) =
    [set "availableSlots" (VArr [VObj tuesday]) bea] /\
  (* index -1: the last slot goes *)
  trainers (snd (@patch_trainers_remove_slot node "000000000000000000000001"
                   [("slotIndex", VNum (Fin (-1)))] (one_trainer bea))) =
    [set "availableSlots" (VArr [VObj monday]) bea] /\
  (* index 2: nothing goes, and the answer is still a success *)
  @patch_trainers_remove_slot node "000000000000000000000001"
    [("slotIndex", VNum (Fin 2))] (one_trainer bea) =
    (json (VObj [success; message "Slot removed successfully"]),
     one_trainer bea).
Proof. repeat split. Qed.

(** X14 for Bea: a third slot added and removed again. *)
Lemma add_then_remove_slot_witness :
  let added :=
    snd (@patch_trainers_add_slot node "000000000000000000000001" monday
           (one_trainer bea)) in
  trainers added =
    [] ++ with_slot bea [VObj monday; VObj tuesday] (VObj monday) :: [] /\
  @patch_trainers_remove_slot node "000000000000000000000001"
    [("slotIndex", VNum (Fin 2))] added =
    (json (VObj [success; message "Slot removed successfully"]),
     one_trainer bea).
Proof.
  apply (@add_then_remove_slot node "000000000000000000000001" monday
           [("slotIndex", VNum (Fin 2))] (one_trainer bea) 1%N [] bea []
           [VObj monday; VObj tuesday]).
  - reflexivity.
  - reflexivity.
  - apply first_of_one. reflexivity.
  - reflexivity.
  - reflexivity.
Defined.

(** * The order of the lists and their pages *)

Section ordering.
Context {platform : Platform}.

Lemma sorted_list (c : collection) (k : string) (s : db) :
  toArray (csort k (cfind c [])) s = (Ok (sort_desc k (coll c s)), s).
Proof.
  unfold toArray, run_cursor.
  cbn [cur_filter cur_sort cur_skip cur_limit cur_coll csort cfind filter_ok
         forallb negb Z.ltb Z.compare take_limit Z.eqb Z.to_nat skipn].
  now rewrite filter_all.
Qed.

(** X15: GET /testimonials, /trainers, /reviews and
    /newsletter/subscribers each answer 200 with all documents of their
    collection, each once, and, when the store's order compares any two
    values, in descending order of [createdAt]. *)
Theorem lists_are_newest_first (s : db) :
  let answers (h : db -> response * db) (c : collection) :=
    exists l, h s = (json (docs l), s) /\
              Permutation l (coll c s) /\
              (total_order -> descending "createdAt" l) in
  answers get_testimonials Testimonials /\
  answers get_trainers Trainers /\
  answers get_reviews Reviews /\
  answers get_newsletter_subscribers Subscriber.
Proof.
  cbv zeta.
  repeat apply conj;
    (eexists; split;
     [unfold get_testimonials, get_trainers, get_reviews,
        get_newsletter_subscribers, try_catch, bind;
      rewrite sorted_list; reflexivity
     | split; [apply sort_desc_perm | intro H; now apply sort_desc_descending]]).
Qed.

(** X16: GET /classes/featured answers with [min 6 n] of the [n] classes,
    the first six in descending order of [totalBookings]; each is a class
    of the collection. *)
Theorem featured_classes (s : db) :
  let top := firstn 6 (sort_desc "totalBookings" (classes s)) in
  get_classes_featured s = (json (docs top), s) /\
  List.length top = Nat.min 6 (List.length (classes s)) /\
  (forall d, In d top -> In d (classes s)) /\
  (total_order -> descending "totalBookings" top).
Proof.
  cbv zeta. repeat apply conj.
  - unfold get_classes_featured, try_catch, bind, toArray, run_cursor.
    cbn [cur_filter cur_sort cur_skip cur_limit cur_coll climit csort cfind
           filter_ok forallb negb Z.ltb Z.compare take_limit Z.eqb Z.to_nat
           skipn coll].
    now rewrite filter_all.
  - rewrite length_firstn.
    now rewrite (Permutation_length (sort_desc_perm "totalBookings" (classes s))).
  - intros d Hd. apply (sort_desc_In "totalBookings").
    rewrite <- (firstn_skipn 6 (sort_desc _ _)). apply in_or_app. now left.
  - intro H. apply descending_firstn. now apply sort_desc_descending.
Qed.

(** *** Pages of the forum *)

(** The posts a response of GET /forum carries. *)
Definition posts_of (r : response) : list value :=
  match body r with
  | VObj (("posts", VArr l) :: _) => l
  | _ => []
  end.

Lemma pages_concat {A} (size n : nat) (l : list A) :
  (List.length l <= n * size)%nat ->
  List.concat (map (fun i => firstn size (skipn (i * size) l)) (seq 0 n)) = l.
Proof.
  revert l. induction n as [| n IH]; intros l Hl.
  - destruct l; [reflexivity | cbn in Hl; lia].
  - cbn [seq map List.concat]. rewrite <- seq_shift, map_map.
    cbn [Nat.mul skipn].
    rewrite (map_ext _ (fun i => firstn size (skipn (i * size) (skipn size l)))).
    + rewrite IH; [apply firstn_skipn |]. rewrite length_skipn. lia.
    + intro i. rewrite skipn_skipn. f_equal. f_equal. lia.
Qed.

Lemma get_forum_page (page : option string) (s : db) (p : Z) :
  parseInt page = Fin p -> 0 < p ->
  get_forum page s =
    (json (VObj [("posts",
                   docs (firstn 6 (skipn (Z.to_nat ((p - 1) * 6))
                                     (sort_desc "createdAt" (forum s)))));
                 ("totalPages",
                   VNum (Fin (ceil_div (Z.of_nat (List.length (forum s))) 6)));
                 ("currentPage", VNum (Fin p))]), s).
Proof.
  intros Hparse Hp.
  unfold get_forum, try_catch, bind, countDocuments, toArray, run_cursor.
  rewrite Hparse, (or_num_positive _ _ Hp).
  cbn [cur_filter cur_sort cur_skip cur_limit cur_coll climit cskip csort cfind
         filter_ok forallb negb ret coll].
  rewrite (skip_not_negative _ Hp), filter_all. reflexivity.
Qed.

(** X17: going through the pages 1 to [totalPages] of GET /forum gives
    every post once, in the order of the whole sorted list, six to a page;
    the page after the last is empty.  (The store is taken to sort the
    same collection the same way on every request.) *)
Theorem forum_pages_cover (page_of : nat -> option string) (s : db) :
  let total := ceil_div (Z.of_nat (List.length (forum s))) 6 in
  (forall i, (i <= Z.to_nat total)%nat ->
             parseInt (page_of i) = Fin (Z.of_nat i + 1)) ->
  List.concat
    (map (fun i => posts_of (fst (get_forum (page_of i) s)))
       (seq 0 (Z.to_nat total))) =
    map VObj (sort_desc "createdAt" (forum s)) /\
  posts_of (fst (get_forum (page_of (Z.to_nat total)) s)) = [].
Proof.
  intros total Hpages.
  assert (Hpage : forall i, (i <= Z.to_nat total)%nat ->
            posts_of (fst (get_forum (page_of i) s)) =
              map VObj (firstn 6 (skipn (i * 6)
                                    (sort_desc "createdAt" (forum s))))).
  { intros i Hi. rewrite (get_forum_page _ s _ (Hpages i Hi)) by lia.
    cbn [fst posts_of body json docs].
    replace (Z.to_nat ((Z.of_nat i + 1 - 1) * 6)) with (i * 6)%nat by lia.
    reflexivity. }
  pose proof (ceil_div_spec (Z.of_nat (List.length (forum s))) 6 ltac:(lia))
    as Hceil. change (ceil_div _ 6) with total in Hceil.
  assert (Hlen : List.length (sort_desc "createdAt" (forum s)) =
                 List.length (forum s))
    by apply (Permutation_length (sort_desc_perm _ _)).
  split.
  - rewrite (map_ext_in _
               (fun i => map VObj (firstn 6 (skipn (i * 6)
                                    (sort_desc "createdAt" (forum s)))))).
    + rewrite <- (map_map (fun i => firstn 6 (skipn (i * 6) _)) (map VObj)).
      rewrite <- concat_map. f_equal.
      apply pages_concat.
      change (List.length (sort_desc "createdAt" (forum s)) <=
              Z.to_nat total * 6)%nat.
      rewrite Hlen. apply Nat2Z.inj_le.
      rewrite Nat2Z.inj_mul, Z2Nat.id by lia. lia.
    + intros i Hi. apply in_seq in Hi. apply Hpage. lia.
  - rewrite Hpage by lia.
    rewrite skipn_all2 by (rewrite Hlen; lia). reflexivity.
Qed.

(** X18: a page parameter (and a limit) that is missing, that [parseInt]
    cannot read or reads as 0 stands for page 1 (and six to a page): GET
    /forum and GET /classes answer with the first six documents and
    [currentPage = 1]. *)
Theorem page_defaults_to_one (page limit search : option string) (s : db) :
  parseInt page = NaN \/ parseInt page = Fin 0 ->
  parseInt limit = NaN \/ parseInt limit = Fin 0 ->
  filter_ok (classes_query search) = true ->
  let matching := List.filter (matches (classes_query search)) (classes s) in
  let totalClasses := Z.of_nat (List.length matching) in
  get_forum page s =
    (json (VObj [("posts",
                   docs (firstn 6 (sort_desc "createdAt" (forum s))));
                 ("totalPages",
                   VNum (Fin (ceil_div (Z.of_nat (List.length (forum s))) 6)));
                 ("currentPage", VNum (Fin 1))]), s) /\
  get_classes page limit search s =
    (json (VObj [("data", docs (firstn 6 (sort_desc "createdAt" matching)));
                 ("currentPage", VNum (Fin 1));
                 ("totalPages", VNum (Fin (ceil_div totalClasses 6)));
                 ("totalClasses", VNum (Fin totalClasses))]), s).
Proof.
  intros Hp Hl Hok matching totalClasses.
  assert (Hpage : or_num (parseInt page) 1 = 1)
    by (destruct Hp as [-> | ->]; reflexivity).
  assert (Hlimit : or_num (parseInt limit) 6 = 6)
    by (destruct Hl as [-> | ->]; reflexivity).
  split.
  - unfold get_forum, try_catch, bind, countDocuments, toArray, run_cursor.
    rewrite Hpage.
    cbn [cur_filter cur_sort cur_skip cur_limit cur_coll climit cskip csort
           cfind filter_ok forallb negb ret coll Z.sub Z.mul Z.add Z.opp
           Z.pos_sub Z.ltb Z.compare take_limit Z.eqb Z.to_nat Z.abs skipn].
    rewrite filter_all. reflexivity.
  - unfold get_classes, try_catch, bind, countDocuments, toArray.
    rewrite Hpage, Hlimit. fold (classes_query search).
    cbn [cur_filter cur_skip cur_coll climit cskip csort cfind].
    rewrite Hok. reflexivity.
Qed.

(** X19: a negative page makes GET /forum answer 500, and GET /classes
    as well when the limit in force is positive: the store refuses the
    negative number of documents to skip.  Nothing is changed. *)
Theorem negative_page_fails (page limit search : option string) (s : db)
  (p : Z) :
  parseInt page = Fin p -> p < 0 ->
  0 < or_num (parseInt limit) 6 ->
  (status (fst (get_forum page s)) = 500 /\
   snd (get_forum page s) = s) /\
  (status (fst (get_classes page limit search s)) = 500 /\
   snd (get_classes page limit search s) = s).
Proof.
  intros Hparse Hp Hl.
  enough (get_forum page s =
            (status_json 500 (error_body "Failed to fetch forum posts"), s) /\
          get_classes page limit search s =
            (status_json 500 (error_body "Failed to fetch classes"), s))
    as [-> ->] by (repeat split).
  assert (Hpage : or_num (parseInt page) 1 = p).
  { rewrite Hparse. unfold or_num.
    replace (Z.eqb p 0) with false by (symmetry; apply Z.eqb_neq; lia).
    reflexivity. }
  split.
  - unfold get_forum, try_catch, bind, countDocuments, toArray.
    rewrite Hpage.
    cbn [cur_filter cur_sort cur_skip cur_limit cur_coll climit cskip csort
           cfind filter_ok forallb negb].
    replace (Z.ltb ((p - 1) * 6) 0) with true
      by (symmetry; apply Z.ltb_lt; lia).
    reflexivity.
  - unfold get_classes, try_catch, bind, countDocuments, toArray.
    rewrite Hpage. fold (classes_query search).
    cbn [cur_filter cur_sort cur_skip cur_limit cur_coll climit cskip csort
           cfind].
    destruct (filter_ok (classes_query search)); [| reflexivity].
    cbn [negb].
    replace (Z.ltb ((p - 1) * or_num (parseInt limit) 6) 0) with true
      by (symmetry; apply Z.ltb_lt; nia).
    reflexivity.
Qed.
End ordering.

Definition post_at (t : Z) : doc :=
  [("_id", VId (Z.to_N t)); ("title", VStr "t"); ("createdAt", VDate t)].

Definition seven_posts : db :=
  mkDb [] [] [] [] (map post_at [3; 1; 7; 5; 2; 6; 4]) [] [] [] 8.

Lemma docs_inj (l l' : list doc) : docs l = docs l' -> l = l'.
Proof.
  unfold docs. intros [= H]. revert l' H.
  induction l as [| x l IH]; intros [| y l'] H; try discriminate;
    [reflexivity |].
  cbn [map] in H. injection H as -> H. f_equal. now apply IH.
Qed.

Definition dated (t : Z) : doc :=
  [("_id", VId (Z.to_N t)); ("createdAt", VDate t)].

(** Three testimonials, trainers, subscribers and reviews, none of the
    collections in the order of its dates. *)
Definition four_lists : db :=
  mkDb [] (map dated [2; 3; 1]) [] (map dated [5; 4; 6]) []
    (map dated [8; 9; 7]) [] (map dated [11; 10; 12]) 13.

(** X15 on the four lists: each comes back with the newest first. *)
Lemma lists_are_newest_first_witness :
  fst (@get_testimonials node four_lists) = json (docs (map dated [3; 2; 1])) /\
  fst (@get_trainers node four_lists) = json (docs (map dated [6; 5; 4])) /\
  fst (@get_reviews node four_lists) = json (docs (map dated [12; 11; 10])) /\
  fst (@get_newsletter_subscribers node four_lists) =
    json (docs (map dated [9; 8; 7])) /\
  @descending node "createdAt" (map dated [3; 2; 1]) /\
  @descending node "createdAt" (map dated [6; 5; 4]) /\
  @descending node "createdAt" (map dated [12; 11; 10]) /\
  @descending node "createdAt" (map dated [9; 8; 7]).
Proof.
  destruct (@lists_are_newest_first node four_lists)
    as ((l1 & H1 & _ & D1) & (l2 & H2 & _ & D2) & (l3 & H3 & _ & D3)
        & (l4 & H4 & _ & D4)).
  assert (E1 : l1 = map dated [3; 2; 1])
    by (apply docs_inj; exact (eq_sym (f_equal (fun r => body (fst r)) H1))).
  assert (E2 : l2 = map dated [6; 5; 4])
    by (apply docs_inj; exact (eq_sym (f_equal (fun r => body (fst r)) H2))).
  assert (E3 : l3 = map dated [12; 11; 10])
    by (apply docs_inj; exact (eq_sym (f_equal (fun r => body (fst r)) H3))).
  assert (E4 : l4 = map dated [9; 8; 7])
    by (apply docs_inj; exact (eq_sym (f_equal (fun r => body (fst r)) H4))).
  subst l1 l2 l3 l4.
  split; [now rewrite H1 |]. split; [now rewrite H2 |].
  split; [now rewrite H3 |]. split; [now rewrite H4 |].
  split; [exact (D1 value_leb_total) |].
  split; [exact (D2 value_leb_total) |].
  split; [exact (D3 value_leb_total) | exact (D4 value_leb_total)].
Defined.

Definition class_booked (n : Z) : doc :=
  [("_id", VId (Z.to_N n)); ("name", VStr "Yoga");
   ("totalBookings", VNum (Fin n))].

(** Eight classes, in no order of their bookings. *)
Definition ranked_classes : db :=
  mkDb [] [] (map class_booked [30; 80; 10; 60; 20; 70; 50; 40])
    [] [] [] [] [] 100.

(** X16 on the eight classes: the six with the most bookings, the most
    booked first. *)
Lemma featured_classes_witness :
  @get_classes_featured node ranked_classes =
    (json (docs (map class_booked [80; 70; 60; 50; 40; 30])),
     ranked_classes) /\
  @descending node "totalBookings"
    (map class_booked [80; 70; 60; 50; 40; 30]).
Proof.
  destruct (@featured_classes node ranked_classes) as (Hget & _ & _ & Hdesc).
  split; [rewrite Hget; reflexivity | exact (Hdesc value_leb_total)].
Defined.

Definition decimal_page (i : nat) : option string :=
  match i with
  | 0%nat => Some "1"
  | 1%nat => Some "2"
  | _ => Some "3"
  end.

Lemma forum_pages_cover_witness :
  List.concat
    (map (fun i => posts_of (fst (@get_forum node (decimal_page i) seven_posts)))
       [0%nat; 1%nat]) =
    map VObj (map post_at [7; 6; 5; 4; 3; 2; 1]) /\
  posts_of (fst (@get_forum node (decimal_page 2) seven_posts)) = [].
Proof.
  apply (@forum_pages_cover node decimal_page seven_posts).
  intros [| [| [| i]]] Hi; try reflexivity.
  vm_compute in Hi. lia.
Defined.

Lemma page_defaults_to_one_witness :
  posts_of (fst (@get_forum node (Some "first") seven_posts)) =
    map VObj (map post_at [7; 6; 5; 4; 3; 2]).
Proof.
  rewrite (proj1 (@page_defaults_to_one node (Some "first") None None
                    seven_posts (or_introl eq_refl) (or_introl eq_refl)
                    eq_refl)).
  reflexivity.
Defined.

Lemma negative_page_fails_witness :
  status (fst (@get_forum node (Some "-1") seven_posts)) = 500 /\
  status (fst (@get_classes node (Some "-1") None None seven_posts)) = 500.
Proof.
  destruct (@negative_page_fails node (Some "-1") None None seven_posts (-1)
              eq_refl eq_refl eq_refl) as [[H _] [H' _]].
  split; assumption.
Defined.

(** * Every request keeps the identifiers unique

    The theorems about Approve, Reject, the votes and the slots assume that
    the documents of a collection have distinct [_id]s and that the
    generator has not handed out an [_id] in use.  Both hold in the empty
    store and after any sequence of requests whose bodies bring no ObjectId
    of their own (a JSON body cannot). *)

Section requests.
Context {platform : Platform}.

(** A request to one of the handlers, with what the handler reads of it:
    every route of index.js but DELETE /trainers/:trainerId/slots and
    GET /. *)
Inductive request : Type :=
| Get_users
| Post_users (body : doc)
| Post_testimonials (now : Z) (body : doc)
| Get_testimonials
| Post_classes (now : Z) (body : doc)
| Get_classes (page limit search : option string)
| Get_classes_featured
| Post_trainers (now : Z) (body : doc)
| Get_trainers
| Get_trainers_id (id : string)
| Get_forum (page : option string)
| Patch_forum_vote (id : string) (body : doc)
| Post_trainers_apply (now : Z) (body : doc)
| Get_trainers_applications (email : option string)
| Get_trainers_applications_pending
| Get_trainers_applications_id (id : string)
| Patch_applications_confirm (now : Z) (id : string)
| Patch_applications_reject (id : string) (body : doc)
| Post_newsletter_subscribe (now : Z) (body : doc)
| Get_newsletter_subscribers
| Patch_trainers_remove_trainer (now : Z) (id : string)
| Post_payments (now : Z) (body : doc)
| Get_trainers_by_email (email : string)
| Get_bookings_trainer (trainerId : string)
| Get_trainers_email (email : string)
| Patch_trainers_remove_slot (id : string) (body : doc)
| Patch_trainers_add_slot (id : string) (body : doc)
| Post_trainers_slots (id : string) (body : doc)
| Post_forum (body : doc)
| Get_trainers_applications_status_filter
| Post_reviews (now : Z) (body : doc)
| Get_reviews_trainer (trainerId : string)
| Get_reviews
| Get_bookings_user (email : string).

Definition answered (h : db -> response * db) : db -> option response * db :=
  fun s => let (r, s') := h s in (Some r, s').

(** The handler of a request; [None] when the request is left unanswered. *)
Definition handle (r : request) : db -> option response * db :=
  match r with
  | Get_users => answered get_users
  | Post_users body => answered (post_users body)
  | Post_testimonials now body => answered (post_testimonials now body)
  | Get_testimonials => answered get_testimonials
  | Post_classes now body => answered (post_classes now body)
  | Get_classes page limit search => answered (get_classes page limit search)
  | Get_classes_featured => answered get_classes_featured
  | Post_trainers now body => answered (post_trainers now body)
  | Get_trainers => answered get_trainers
  | Get_trainers_id id => answered (get_trainers_id id)
  | Get_forum page => answered (get_forum page)
  | Patch_forum_vote id body => answered (patch_forum_vote id body)
  | Post_trainers_apply now body => answered (post_trainers_apply now body)
  | Get_trainers_applications email =>
      answered (get_trainers_applications email)
  | Get_trainers_applications_pending =>
      answered get_trainers_applications_pending
  | Get_trainers_applications_id id =>
      answered (get_trainers_applications_id id)
  | Patch_applications_confirm now id =>
      answered (patch_applications_confirm now id)
  | Patch_applications_reject id body =>
      answered (patch_applications_reject id body)
  | Post_newsletter_subscribe now body =>
      answered (post_newsletter_subscribe now body)
  | Get_newsletter_subscribers => answered get_newsletter_subscribers
  | Patch_trainers_remove_trainer now id =>
      answered (patch_trainers_remove_trainer now id)
  | Post_payments now body => answered (post_payments now body)
  | Get_trainers_by_email email => get_trainers_by_email email
  | Get_bookings_trainer trainerId => get_bookings_trainer trainerId
  | Get_trainers_email email => answered (get_trainers_email email)
  | Patch_trainers_remove_slot id body =>
      answered (patch_trainers_remove_slot id body)
  | Patch_trainers_add_slot id body =>
      answered (patch_trainers_add_slot id body)
  | Post_trainers_slots id body => answered (post_trainers_slots id body)
  | Post_forum body => answered (post_forum body)
  | Get_trainers_applications_status_filter =>
      answered get_trainers_applications_status_filter
  | Post_reviews now body => answered (post_reviews now body)
  | Get_reviews_trainer trainerId => answered (get_reviews_trainer trainerId)
  | Get_reviews => answered get_reviews
  | Get_bookings_user email => answered (get_bookings_user email)
  end.

(** The store after a sequence of requests. *)
Definition run (rs : list request) (s : db) : db :=
  fold_left (fun s r => snd (handle r s)) rs s.



Definition is_get (r : request) : bool :=
  match r with
  | Get_users | Get_testimonials | Get_classes _ _ _ | Get_classes_featured
  | Get_trainers | Get_trainers_id _ | Get_forum _
  | Get_trainers_applications _ | Get_trainers_applications_pending
  | Get_trainers_applications_id _ | Get_newsletter_subscribers
  | Get_trainers_by_email _ | Get_bookings_trainer _ | Get_trainers_email _
  | Get_trainers_applications_status_filter | Get_reviews_trainer _
  | Get_reviews | Get_bookings_user _ => true
  | _ => false
  end.



(** A step of a handler keeps the property [P] of the store, whether it
    returns or throws. *)
Definition keeps {A} (P : db -> Prop) (m : M A) : Prop :=
  forall s, P s -> P (snd (m s)).

Lemma keeps_ret {A} (P : db -> Prop) (a : A) : keeps P (ret a).
Proof. intros s H. exact H. Qed.

Lemma keeps_throw {A} (P : db -> Prop) : keeps P (@throw A).
Proof. intros s H. exact H. Qed.

Lemma keeps_bind {A B} (P : db -> Prop) (m : M A) (k : A -> M B) :
  keeps P m -> (forall a, keeps P (k a)) -> keeps P (bind m k).
Proof.
  intros Hm Hk s H. unfold bind. specialize (Hm s H).
  destruct (m s) as [[a |] s']; cbn [snd] in *; [now apply Hk | exact Hm].
Qed.

Lemma keeps_mapM {A B} (P : db -> Prop) (f : A -> M B) (l : list A) :
  (forall a, keeps P (f a)) -> keeps P (mapM f l).
Proof.
  intro Hf. induction l as [| x l IH]; cbn [mapM]; [apply keeps_ret |].
  apply keeps_bind; [apply Hf | intro y].
  apply keeps_bind; [exact IH | intro ys]. apply keeps_ret.
Qed.

Lemma keeps_try_catch (P : db -> Prop) (m : M response) (e : response) :
  keeps P m -> forall s, P s -> P (snd (answered (try_catch m e) s)).
Proof.
  intros Hm s H. specialize (Hm s H). unfold answered, try_catch.
  destruct (m s) as [[a |] s']; exact Hm.
Qed.

Lemma keeps_uncaught (P : db -> Prop) (m : M response) :
  keeps P m -> forall s, P s -> P (snd (uncaught m s)).
Proof.
  intros Hm s H. specialize (Hm s H). unfold uncaught.
  destruct (m s) as [[a |] s']; exact Hm.
Qed.

Lemma keeps_findOne (P : db -> Prop) (c : collection) (q : filter) :
  keeps P (findOne c q).
Proof. intros s H. unfold findOne. now destruct (filter_ok q). Qed.

Lemma keeps_countDocuments (P : db -> Prop) (c : collection) (q : filter) :
  keeps P (countDocuments c q).
Proof. intros s H. unfold countDocuments. now destruct (filter_ok q). Qed.

Lemma keeps_toArray (P : db -> Prop) (cur : cursor) : keeps P (toArray cur).
Proof.
  intros s H. unfold toArray.
  destruct (negb (filter_ok (cur_filter cur))); [exact H |].
  now destruct (Z.ltb (cur_skip cur) 0).
Qed.

(** *** The identifiers *)






















(** *** What a request writes *)

(** The collections the handler of a request inserts into, updates or
    deletes from. *)
Definition writes (r : request) : list collection :=
  match r with
  | Post_users _ => [Users]
  | Post_testimonials _ _ => [Testimonials]
  | Post_classes _ _ => [Classes]
  | Post_trainers _ _ | Post_trainers_apply _ _
  | Patch_applications_confirm _ _ | Patch_applications_reject _ _
  | Patch_trainers_remove_slot _ _ | Patch_trainers_add_slot _ _
  | Post_trainers_slots _ _ => [Trainers]
  | Patch_forum_vote _ _ | Post_forum _ => [Forum]
  | Post_newsletter_subscribe _ _ => [Subscriber]
  | Patch_trainers_remove_trainer _ _ => [Users; Trainers]
  | Post_payments _ _ => [Bookings]
  | Post_reviews _ _ => [Reviews]
  | _ => []
  end.

Definition same_at (c : collection) (s0 : db) : db -> Prop :=
  fun s => coll c s = coll c s0.

Lemma coll_bump (c : collection) (s : db) : coll c (bump_oid s) = coll c s.
Proof. now destruct c. Qed.

Lemma same_new_ObjectId (c : collection) (s0 : db) (x : jsval) :
  keeps (same_at c s0) (new_ObjectId x).
Proof.
  intros s H. unfold new_ObjectId, same_at in *.
  destruct x as [[| b | n | str | l | o | t | o] |]; cbn [snd ret];
    rewrite ?coll_bump; try exact H;
    match goal with
    | |- context [ObjectId_from ?v] => now destruct (ObjectId_from v)
    end.
Qed.

Lemma same_insertOne (c c' : collection) (s0 : db) (d : doc) :
  c' <> c -> keeps (same_at c s0) (insertOne c' d).
Proof.
  intros Hc s H. unfold insertOne, same_at in *.
  destruct (lookup "_id" d) as [[| b | n | str | l | o | t | o] |];
    cbn [snd];
    try destruct (existsb _ _); cbn [snd];
    rewrite ?(coll_put_other c' c) by assumption;
    rewrite ?coll_bump; exact H.
Qed.

Lemma same_updateOne (c c' : collection) (s0 : db) (q : filter) (u : update) :
  c' <> c -> keeps (same_at c s0) (updateOne c' q u).
Proof.
  intros Hc s H. unfold updateOne, same_at in *.
  destruct (filter_ok q); [| exact H].
  destruct (update_first q u (coll c' s)) as [[l r] |]; [| exact H].
  cbn [snd]. now rewrite coll_put_other.
Qed.

Lemma same_deleteOne (c c' : collection) (s0 : db) (q : filter) :
  c' <> c -> keeps (same_at c s0) (deleteOne c' q).
Proof.
  intros Hc s H. unfold deleteOne, same_at in *.
  destruct (filter_ok q); [| exact H].
  cbn [snd]. now rewrite coll_put_other.
Qed.

Ltac same_step Hc :=
  match goal with
  | |- keeps _ (bind _ _) => apply keeps_bind; [| intro]
  | |- keeps _ (ret _) => apply keeps_ret
  | |- keeps _ throw => apply keeps_throw
  | |- keeps _ (findOne _ _) => apply keeps_findOne
  | |- keeps _ (countDocuments _ _) => apply keeps_countDocuments
  | |- keeps _ (toArray _) => apply keeps_toArray
  | |- keeps _ (mapM _ _) => apply keeps_mapM; intro
  | |- keeps _ (new_ObjectId _) => apply same_new_ObjectId
  | |- keeps _ (insertOne _ _) =>
      apply same_insertOne; intros <-; apply Hc; cbn [In]; tauto
  | |- keeps _ (updateOne _ _ _) =>
      apply same_updateOne; intros <-; apply Hc; cbn [In]; tauto
  | |- keeps _ (deleteOne _ _) =>
      apply same_deleteOne; intros <-; apply Hc; cbn [In]; tauto
  | |- keeps _ (if ?b then _ else _) => destruct b
  | |- keeps _ (match ?x with _ => _ end) => destruct x
  end.

(** X21: a request changes no collection but those its handler writes:
    the documents of every other collection are the same after it as
    before, whatever the request carries and whether it succeeds or fails.
    A GET request writes none. *)
Theorem request_writes_only (r : request) (c : collection) (s : db) :
  ~ In c (writes r) ->
  coll c (snd (handle r s)) = coll c s.
Proof.
  intro Hc. change (same_at c s (snd (handle r s))).
  destruct r; cbn [handle writes] in *;
    (apply (keeps_try_catch (same_at c s))
     || apply (keeps_uncaught (same_at c s)));
    try reflexivity;
    cbv zeta; repeat same_step Hc.
Qed.

(** The GET requests write nothing. *)
Lemma get_writes_nothing (r : request) : is_get r = true -> writes r = [].
Proof. destruct r; (reflexivity || discriminate). Qed.
End requests.


(** Ada applies, a post is written, Ada is approved. *)
Definition a_session : list request :=
  [Post_trainers_apply 10 ada_payload;
   Post_forum hello;
   Patch_applications_confirm 20 (oid_to_hex 0)].


Example a_session_result :
  map (lookup "status") (trainers (@run node a_session empty_db)) =
    [Some (VStr "approved")] /\
  map (lookup "_id") (trainers (@run node a_session empty_db)) =
    [Some (VId 2)] /\
  next_oid (@run node a_session empty_db) = 3%N.
Proof. vm_compute. repeat split. Qed.

(** A booking without [trainerId]. *)
Definition loose_booking : doc :=
  [("_id", VId 11); ("userEmail", VStr "kim@example.com");
   ("status", VStr "success")].

Lemma request_writes_only_witness :
  coll Bookings
    (snd (@handle node (Get_bookings_user "kim@example.com")
            (booked [loose_booking]))) =
    [loose_booking].
Proof.
  apply (@request_writes_only node (Get_bookings_user "kim@example.com")
           Bookings (booked [loose_booking])).
  intros [].
Defined.

(** The request above does use up an identifier: [new ObjectId(undefined)]
    generates one. *)
Example reading_generates_an_id :
  next_oid (snd (@handle node (Get_bookings_user "kim@example.com")
                   (booked [loose_booking]))) = 21%N.
Proof. reflexivity. Qed.

(** * The class search *)

Section search.
Context {platform : Platform}.

(** X22: the search word of GET /classes.  An empty word is no search at
    all; a word the store cannot compile as a pattern makes the answer 500,
    whatever the page and the limit, and nothing is changed. *)
Theorem class_search_edges (page limit : option string) (s : db) :
  get_classes page limit (Some "") s = get_classes page limit None s /\
  (forall word,
     word <> "" -> regex_compile_i word = None ->
     status (fst (get_classes page limit (Some word) s)) = 500 /\
     snd (get_classes page limit (Some word) s) = s).
Proof.
  split; [reflexivity |].
  intros word Hword Hrefused.
  unfold get_classes, try_catch, bind, countDocuments.
  apply String.eqb_neq in Hword. rewrite Hword.
  cbn [filter_ok forallb snd cond_ok]. rewrite Hrefused.
  split; reflexivity.
Qed.
End search.

Lemma class_search_edges_witness :
  status (fst (@get_classes node None None (Some "yoga(") eight_classes)) = 500.
Proof.
  apply (proj2 (@class_search_edges node None None eight_classes) "yoga(");
    [discriminate | reflexivity].
Defined.

(** * Rejected applications and the lists *)

Section reject_lists.
Context {platform : Platform}.

Lemma status_of_rejected (feedback : jsval) (d : doc) :
  lookup "status" (rejected feedback d) = Some (VStr "rejected").
Proof.
  unfold rejected. rewrite lookup_set_other by discriminate.
  apply lookup_set_same.
Qed.

Lemma filter_middle (f : doc -> bool) (l1 : list doc) (d : doc)
  (l2 : list doc) :
  f d = false -> List.filter f (l1 ++ d :: l2) = List.filter f (l1 ++ l2).
Proof.
  intro H. rewrite !filter_app. cbn [List.filter]. now rewrite H.
Qed.

(** X23: once an application is rejected, the list of pending
    applications is the former one without it, the list of pending and
    rejected applications carries it with its new status, and every other
    trainer document is as before. *)
Theorem rejected_application_in_lists (id : string) (body : doc) (s : db)
  (o : N) (l1 : list doc) (d : doc) (l2 : list doc) :
  ObjectId_from (VStr id) = Some o ->
  first_match (by_id o) (trainers s) l1 d l2 ->
  let d' := rejected (lookup "feedback" body) d in
  let s' := snd (patch_applications_reject id body s) in
  trainers s' = l1 ++ d' :: l2 /\
  get_trainers_applications_pending s' =
    (json (docs (List.filter (matches pending) (l1 ++ l2))), s') /\
  exists l,
    get_trainers_applications_status_filter s' = (json (docs l), s') /\
    In d' l.
Proof.
  intros Hid Hfirst d' s'.
  assert (Hs' : trainers s' = l1 ++ d' :: l2).
  { unfold s'. rewrite (reject_result id body s o l1 d l2 Hid Hfirst).
    cbn [snd]. apply (coll_put_same Trainers). }
  assert (Hstatus : lookup "status" d' = Some (VStr "rejected"))
    by apply status_of_rejected.
  clearbody d' s'.
  split; [exact Hs' | split].
  - unfold get_trainers_applications_pending, try_catch, bind, toArray,
      run_cursor.
    cbn [cur_filter cur_sort cur_skip cur_limit cur_coll cfind coll].
    rewrite Hs'.
    cbn [filter_ok pending forallb cond_ok snd negb Z.ltb Z.compare
           take_limit Z.eqb Z.to_nat skipn].
    rewrite filter_middle; [reflexivity |].
    unfold matches, pending. cbn [forallb fst snd cond_matches].
    now rewrite Hstatus.
  - eexists. split.
    + unfold get_trainers_applications_status_filter, try_catch, bind,
        toArray, run_cursor.
      cbn [cur_filter cur_sort cur_skip cur_limit cur_coll cfind csort coll
             filter_ok pending_or_rejected forallb cond_ok snd negb Z.ltb
             Z.compare take_limit Z.eqb Z.to_nat skipn].
      reflexivity.
    + apply sort_desc_In. apply filter_In. split.
      * rewrite Hs'. apply in_or_app. right. now left.
      * unfold matches, pending_or_rejected.
        cbn [forallb fst snd cond_matches existsb]. now rewrite Hstatus.
Qed.
End reject_lists.

Lemma ada_is_first :
  @first_match node (by_id 0) (trainers ada_applied) [] ada [].
Proof. split; [reflexivity | split; [intros x [] | reflexivity]]. Qed.

Lemma rejected_application_in_lists_witness :
  let s' := snd (@patch_applications_reject node (oid_to_hex 0)
                   [("feedback", VStr "Not yet")] ada_applied) in
  fst (@get_trainers_applications_pending node s') = json (docs []).
Proof.
  intro s'.
  destruct (@rejected_application_in_lists node (oid_to_hex 0)
              [("feedback", VStr "Not yet")] ada_applied 0 [] ada []
              eq_refl ada_is_first)
    as (_ & H & _).
  fold s' in H. rewrite H. reflexivity.
Defined.

(** * The earlier copy of the application workflow *)

Section earlier_copy.
Context {platform : Platform}.

(** X24: in the earlier copy every application is stored as pending, with
    the fields of the payload as they came, and is on the list of pending
    applications at once, whatever [status] the payload carries. *)
Theorem earlier_submit_is_pending (body : doc) (s : db) :
  lookup "_id" body = None ->
  let d := ("_id", VId (next_oid s)) :: set "status" (VStr "pending") body in
  let s' := snd (post_trainers_apply_earlier body s) in
  trainers s' = trainers s ++ [d] /\
  lookup "status" d = Some (VStr "pending") /\
  (forall k, k <> "status" -> k <> "_id" -> lookup k d = lookup k body) /\
  exists l,
    get_trainers_applications_pending s' = (json (docs l), s') /\ In d l.
Proof.
  intros Hid d s'.
  destruct (submit_earlier_stores_body body s Hid) as (Hpost & Hstatus & Hrest).
  fold d in Hpost, Hstatus, Hrest.
  assert (Hs' : trainers s' = trainers s ++ [d]).
  { unfold s'. rewrite Hpost. cbn [snd]. apply (coll_put_same Trainers). }
  repeat split; try assumption.
  eexists. split.
  - unfold get_trainers_applications_pending, try_catch, bind, toArray,
      run_cursor.
    cbn [cur_filter cur_sort cur_skip cur_limit cur_coll cfind coll
           filter_ok pending forallb cond_ok snd negb Z.ltb Z.compare
           take_limit Z.eqb Z.to_nat skipn].
    reflexivity.
  - apply filter_In. split.
    + rewrite Hs'. apply last_In.
    + unfold matches, pending. cbn [forallb fst snd cond_matches].
      now rewrite Hstatus.
Qed.

Lemma confirm_earlier_result (now : Z) (id : string) (s : db) (o : N)
  (l1 : list doc) (d : doc) (l2 : list doc) :
  ObjectId_from (VStr id) = Some o ->
  first_match (by_id o) (trainers s) l1 d l2 ->
  patch_applications_confirm_earlier now id s =
    (json (VObj [success; message "Trainer approved and added"]),
     put Trainers
       (l1 ++ l2 ++ [("_id", VId (next_oid s)) :: approved_earlier now d])
       (bump_oid s)).
Proof.
  intros Hid Hfirst.
  unfold patch_applications_confirm_earlier, try_catch, bind, new_ObjectId,
    findOne.
  rewrite Hid. cbn [ret]. rewrite filter_ok_by_id.
  change (coll Trainers s) with (trainers s).
  rewrite (first_match_find _ _ _ _ _ Hfirst).
  unfold insertOne.
  change (lookup "_id" (approved_earlier now d)) with (@None value).
  cbv iota beta. unfold deleteOne. rewrite filter_ok_by_id, coll_put_same.
  change (coll Trainers s) with (trainers s).
  set (new := ("_id", VId (next_oid s)) :: approved_earlier now d).
  assert (Hf : first_match (by_id o) (trainers s ++ [new]) l1 d (l2 ++ [new])).
  { destruct Hfirst as (-> & H1 & Hd). repeat split; try assumption.
    now rewrite <- app_assoc. }
  now rewrite (first_match_delete _ _ _ _ _ Hf), put_put.
Qed.

(** X25: the earlier copy of Approve replaces the application by a trainer
    with a fresh identifier, status ["approved"] and the name, email,
    image, experience and details of the application; age, expertise,
    availableDays, availableSlots and socials are not carried over, where
    the present copy keeps or defaults them. *)
Theorem earlier_approve_drops_fields (now : Z) (id : string) (s : db) (o : N)
  (l1 : list doc) (d : doc) (l2 : list doc) :
  ObjectId_from (VStr id) = Some o ->
  first_match (by_id o) (trainers s) l1 d l2 ->
  let new := ("_id", VId (next_oid s)) :: approved_earlier now d in
  let s' := snd (patch_applications_confirm_earlier now id s) in
  trainers s' = l1 ++ l2 ++ [new] /\
  lookup "status" new = Some (VStr "approved") /\
  (forall k, In k ["name"; "email"; "image"; "experience"; "details"] ->
             lookup k new = Some (to_bson (lookup k d))) /\
  (forall k,
     In k ["age"; "expertise"; "availableDays"; "availableSlots"; "socials"] ->
     lookup k new = None /\ lookup k (approved now d) <> None).
Proof.
  intros Hid Hfirst new s'. repeat apply conj.
  - unfold s'. rewrite (confirm_earlier_result now id s o l1 d l2 Hid Hfirst).
    cbn [snd]. apply (coll_put_same Trainers).
  - reflexivity.
  - intros k Hk. cbn [In] in Hk.
    destruct Hk as [<- | [<- | [<- | [<- | [<- | []]]]]]; reflexivity.
  - intros k Hk. cbn [In] in Hk.
    destruct Hk as [<- | [<- | [<- | [<- | [<- | []]]]]];
      (split; [reflexivity | discriminate]).
Qed.
End earlier_copy.

Lemma earlier_submit_is_pending_witness :
  map (lookup "status")
    (trainers (snd (post_trainers_apply_earlier eve empty_db))) =
    [Some (VStr "pending")].
Proof.
  rewrite (proj1 (@earlier_submit_is_pending node eve empty_db eq_refl)).
  reflexivity.
Defined.

Lemma earlier_approve_drops_fields_witness :
  map (lookup "age")
    (trainers (snd (@patch_applications_confirm_earlier node 20 (oid_to_hex 0)
                      ada_applied))) = [None].
Proof.
  rewrite (proj1 (@earlier_approve_drops_fields node 20 (oid_to_hex 0)
                    ada_applied 0 [] ada [] eq_refl ada_is_first)).
  reflexivity.
Defined.

(** * A trainer added by POST /trainers *)

Section created_trainer.
Context {platform : Platform}.

(** X26: a trainer added by POST /trainers is answered with 201 and a
    generated identifier; GET /trainers/:id with that identifier in print
    answers with the trainer as it was sent, stamped with [createdAt]. *)
Theorem trainer_created_then_fetched (now : Z) (body : doc) (s : db) :
  truthy (lookup "name" body) = true ->
  truthy (lookup "image" body) = true ->
  truthy (lookup "experience" body) = true ->
  lookup "_id" body = None ->
  wf_ids (next_oid s) (trainers s) ->
  ObjectId_from (VStr (ObjectId_toString (next_oid s))) = Some (next_oid s) ->
  let d := ("_id", VId (next_oid s)) :: set "createdAt" (VDate now) body in
  let s' := put Trainers (trainers s ++ [d]) (bump_oid s) in
  post_trainers now body s =
    (status_json 201
       (VObj [message "Trainer added successfully";
              ("insertedId", VId (next_oid s))]), s') /\
  get_trainers_id (ObjectId_toString (next_oid s)) s' = (json (VObj d), s').
Proof.
  intros Hname Himage Hexp Hid [_ Hahead] Hprint d s'. split.
  - unfold post_trainers, try_catch, bind.
    rewrite Hname, Himage, Hexp. cbn [negb orb].
    rewrite insertOne_fresh by (apply no_id_after_set; [discriminate | assumption]).
    reflexivity.
  - apply (get_trainers_id_found _ _ (next_oid s) (trainers s) d []);
      [exact Hprint |].
    split; [apply (coll_put_same Trainers) | split].
    + intros x Hx. destruct (matches (by_id (next_oid s)) x) eqn:E;
        [| reflexivity].
      specialize (Hahead x _ Hx E). lia.
    + rewrite matches_by_id. apply field_eq_same.
Qed.
End created_trainer.

Definition cy_payload : doc :=
  [("name", VStr "Cy"); ("image", VStr "cy.png"); ("experience", VNum (Fin 3))].

Lemma trainer_created_then_fetched_witness :
  fst (@get_trainers_id node "000000000000000000000002"
         (snd (post_trainers 30 cy_payload (one_trainer ann)))) =
    json (VObj (("_id", VId 2) :: cy_payload ++ [("createdAt", VDate 30)])).
Proof.
  destruct (@trainer_created_then_fetched node 30 cy_payload (one_trainer ann)
              eq_refl eq_refl eq_refl eq_refl) as [Hpost Hget].
  - split; [split; [intros o x _ [] | exact I] |].
    intros x o [<- | []] H.
    rewrite (@matches_by_id node) in H.
    change (N.eqb 1 o || false = true) in H.
    rewrite orb_false_r in H. apply N.eqb_eq in H. subst o. reflexivity.
  - reflexivity.
  - rewrite Hpost. cbn [snd]. exact (f_equal fst Hget).
Defined.
